(** * Government of Canada historical weather scraper: model and properties

    A shallow embedding of [gc_ca_wather_scraper.py].

    Conventions of the embedding.
    - A Python [str] is a [string]; a character is its code point, which the
      embedding takes below 256 (Latin-1).  [ord] is the code point.
    - The numeric builtins whose exact behaviour belongs to the interpreter
      ([int(s)], [float(s)], [str(f)], [repr(s)], the field name check of
      [collections.namedtuple]) are the operations of the class [PyRuntime];
      every definition and theorem is stated for an arbitrary runtime, and
      [cpython] is the instance used to run the definitions on examples.
    - A raised exception is the left summand of a sum; sequential code is
      written in the corresponding error monad.
    - [climate_data_map] is a Python dict iterated in insertion order, so it is
      an association list updated in place; [column_map] is only read by key
      and is a [gmap]. *)

From Stdlib Require Import ZArith Ascii String List Bool Lia.
From stdpp Require Import base option list strings gmap pretty.

Local Open Scope Z_scope.

(** ** Characters and strings *)

Definition ord (c : ascii) : N := N_of_ascii c.

Definition chr (n : N) : ascii := ascii_of_N n.

Definition LF : ascii := chr 10.
Definition SQUOTE : ascii := chr 39.
Definition DQUOTE : ascii := chr 34.
Definition BACKSLASH : ascii := chr 92.

Definition between (lo hi : N) (c : ascii) : bool :=
  ((lo <=? ord c) && (ord c <=? hi))%N.

(** [\d] of the [re] module on the characters of the embedding: the decimal
    digits [0-9]. *)
Definition is_decimal (c : ascii) : bool := between 48 57 c.

(** [str.isdigit]: the decimal digits and the superscript digits
    U+00B2, U+00B3 and U+00B9. *)
Definition isdigit (c : ascii) : bool :=
  is_decimal c || (ord c =? 178)%N || (ord c =? 179)%N || (ord c =? 185)%N.

Definition is_ascii (c : ascii) : bool := (ord c <? 128)%N.

Definition is_ascii_upper (c : ascii) : bool := between 65 90 c.
Definition is_ascii_lower (c : ascii) : bool := between 97 122 c.

(** [str.isspace] on one character. *)
Definition isspace (c : ascii) : bool :=
  between 9 13 c || between 28 32 c || (ord c =? 133)%N || (ord c =? 160)%N.

(** [str.upper] and [str.lower] on one character.  The three characters whose
    upper case lies outside Latin-1 (U+00B5, U+00DF, U+00FF) are left as they
    are; the station resolver is specified for ASCII queries only. *)
Definition upper_char (c : ascii) : ascii :=
  if is_ascii_lower c || (between 224 254 c && negb (ord c =? 247)%N)
  then chr (ord c - 32) else c.

Definition lower_char (c : ascii) : ascii :=
  if is_ascii_upper c || (between 192 222 c && negb (ord c =? 215)%N)
  then chr (ord c + 32) else c.

Fixpoint string_map (f : ascii -> ascii) (s : string) : string :=
  match s with
  | EmptyString => EmptyString
  | String c s' => String (f c) (string_map f s')
  end.

Fixpoint string_filter (p : ascii -> bool) (s : string) : string :=
  match s with
  | EmptyString => EmptyString
  | String c s' => if p c then String c (string_filter p s') else string_filter p s'
  end.

Fixpoint string_existsb (p : ascii -> bool) (s : string) : bool :=
  match s with
  | EmptyString => false
  | String c s' => p c || string_existsb p s'
  end.

Fixpoint string_forallb (p : ascii -> bool) (s : string) : bool :=
  match s with
  | EmptyString => true
  | String c s' => p c && string_forallb p s'
  end.

Definition upper (s : string) : string := string_map upper_char s.
Definition lower (s : string) : string := string_map lower_char s.

(** [s.startswith(p)]. *)
Fixpoint startswith (p s : string) : bool :=
  match p, s with
  | EmptyString, _ => true
  | String a p', String b s' => Ascii.eqb a b && startswith p' s'
  | String _ _, EmptyString => false
  end.

(** [p in s]: [p] occurs somewhere in [s]. *)
Fixpoint contains (p s : string) : bool :=
  startswith p s ||
  match s with
  | EmptyString => false
  | String _ s' => contains p s'
  end.

(** [s.replace(a, b)] for a one-character [a]. *)
Fixpoint replace_char (a : ascii) (b : string) (s : string) : string :=
  match s with
  | EmptyString => EmptyString
  | String c s' =>
      if Ascii.eqb c a then b +:+ replace_char a b s'
      else String c (replace_char a b s')
  end.

Fixpoint lstrip (s : string) : string :=
  match s with
  | String c s' => if isspace c then lstrip s' else s
  | EmptyString => EmptyString
  end.

Fixpoint rstrip (s : string) : string :=
  match s with
  | EmptyString => EmptyString
  | String c s' =>
      match rstrip s' with
      | EmptyString => if isspace c then EmptyString else String c EmptyString
      | r => String c r
      end
  end.

(** [s.strip()]. *)
Definition strip (s : string) : string := rstrip (lstrip s).

(** [sep.join(l)]. *)
Fixpoint join (sep : string) (l : list string) : string :=
  match l with
  | [] => ""
  | [x] => x
  | x :: l' => x +:+ sep +:+ join sep l'
  end.

(** The first [String.length s - String.length rest] characters of [s]: the
    text a matcher consumed when it went from [s] to its suffix [rest]. *)
Definition consumed (s rest : string) : string :=
  String.substring 0 (String.length s - String.length rest) s.

(** ** Exceptions and the error monad *)

Inductive exn : Set :=
| NoLocationFoundError
| KeyError
| IndexError
| TypeError
| ValueError
| AttributeError
| IntegrityError
| OtherError (msg : string).

Definition result (A : Type) : Type := exn + A.

Definition raise {A : Type} (e : exn) : result A := inl e.

Definition bind {A B : Type} (x : result A) (f : A -> result B) : result B :=
  match x with
  | inl e => inl e
  | inr a => f a
  end.

Notation "'let*' x ':=' c 'in' k" := (bind c (fun x => k))
  (at level 10, x name, c at level 100, k at level 200).

Definition of_option {A : Type} (e : exn) (o : option A) : result A :=
  match o with
  | Some a => inr a
  | None => raise e
  end.

(** A [for] loop whose body may raise: the state is threaded from left to
    right and the first exception ends the loop. *)
Fixpoint for_each {A S : Type} (body : A -> S -> result S) (l : list A) (s : S)
  : result S :=
  match l with
  | [] => inr s
  | x :: l' => let* s' := body x s in for_each body l' s'
  end.

(** [range(a, b)]. *)
Definition py_range (a b : Z) : list Z := seqZ a (b - a).

(** ** Regular expressions: a backtracking matcher

    The part of [re] the scraper uses: literals, character classes,
    concatenation, greedy [?] [*] [+], lazy [*?] and capture groups, matched
    with the priorities of a backtracking engine.  The matcher is written in
    continuation-passing style: [k] is what remains to be matched after [r],
    and it is tried on each way of matching [r], most preferred first. *)

Inductive regex : Type :=
| Eps
| Chr (c : ascii)
| Cls (p : ascii -> bool)
| Cat (r1 r2 : regex)
| Opt (r : regex)
| Star (r : regex)
| LazyStar (r : regex)
| Grp (i : nat) (r : regex).

Definition Plus (r : regex) : regex := Cat r (Star r).

Fixpoint Lit (s : string) : regex :=
  match s with
  | EmptyString => Eps
  | String c s' => Cat (Chr c) (Lit s')
  end.

(** Captured groups, the most recent capture of a group first. *)
Definition captures : Type := list (nat * string).

Fixpoint group (i : nat) (c : captures) : option string :=
  match c with
  | [] => None
  | (j, s) :: c' => if Nat.eqb i j then Some s else group i c'
  end.

Definition orelse {R : Type} (x : option R) (y : option R) : option R :=
  match x with
  | Some r => Some r
  | None => y
  end.

Fixpoint backtrack {R : Type} (r : regex) (s : string) (c : captures)
    (k : string -> captures -> option R) {struct r} : option R :=
  match r with
  | Eps => k s c
  | Chr a =>
      match s with
      | String b s' => if Ascii.eqb a b then k s' c else None
      | EmptyString => None
      end
  | Cls p =>
      match s with
      | String b s' => if p b then k s' c else None
      | EmptyString => None
      end
  | Cat r1 r2 => backtrack r1 s c (fun s' c' => backtrack r2 s' c' k)
  | Opt r1 => orelse (backtrack r1 s c k) (k s c)
  | Star r1 =>
      (fix loop (fuel : nat) (s : string) (c : captures) : option R :=
         match fuel with
         | O => k s c
         | S fuel' =>
             orelse
               (backtrack r1 s c (fun s' c' =>
                  if (String.length s' <? String.length s)%nat
                  then loop fuel' s' c' else None))
               (k s c)
         end) (String.length s) s c
  | LazyStar r1 =>
      (fix loop (fuel : nat) (s : string) (c : captures) : option R :=
         orelse (k s c)
           match fuel with
           | O => None
           | S fuel' =>
               backtrack r1 s c (fun s' c' =>
                 if (String.length s' <? String.length s)%nat
                 then loop fuel' s' c' else None)
           end) (String.length s) s c
  | Grp i r1 =>
      backtrack r1 s c (fun s' c' => k s' ((i, consumed s s') :: c'))
  end.

(** [re.match(r, s)]: the captures and the unmatched rest, when [r] matches a
    prefix of [s]. *)
Definition re_match (r : regex) (s : string) : option (captures * string) :=
  backtrack r s [] (fun rest c => Some (c, rest)).

(** [re.findall(r, s)] for a pattern without groups that cannot match the
    empty string: the matches found scanning [s] from left to right, each
    search resuming where the previous match ended. *)
Fixpoint findall_from (fuel : nat) (r : regex) (s : string) : list string :=
  match fuel, s with
  | S fuel', String _ s' =>
      match re_match r s with
      | Some (_, rest) =>
          if (String.length rest <? String.length s)%nat
          then consumed s rest :: findall_from fuel' r rest
          else findall_from fuel' r s'
      | None => findall_from fuel' r s'
      end
  | _, _ => []
  end.

Definition re_findall (r : regex) (s : string) : list string :=
  findall_from (String.length s) r s.

Definition sign_char (c : ascii) : bool := Ascii.eqb c "+" || Ascii.eqb c "-".

(** [.] without the DOTALL flag: any character but a newline. *)
Definition dot_char (c : ascii) : bool := negb (Ascii.eqb c LF).

(** [[+-]?(\d*\.)?\d+] *)
Definition number_pattern : regex :=
  Cat (Opt (Cls sign_char))
 (Cat (Opt (Grp 2 (Cat (Star (Cls is_decimal)) (Chr "."))))
      (Plus (Cls is_decimal))).

(** [(.*?)Legend(.*?)] *)
Definition legend_tail : regex :=
  Cat (Grp 3 (LazyStar (Cls dot_char)))
 (Cat (Lit "Legend")
      (Grp 4 (LazyStar (Cls dot_char)))).

(** [r"([+-]?(\d*\.)?\d+)(.*?)Legend(.*?)"] *)
Definition legend_pattern : regex :=
  Cat (Grp 1 number_pattern) legend_tail.

(** [r'\d+'] *)
Definition digits_pattern : regex := Plus (Cls is_decimal).

(** [re.search(r, s)] as a truth value: [r] matches at some position of [s]. *)
Fixpoint re_search (r : regex) (s : string) : bool :=
  bool_decide (is_Some (re_match r s)) ||
  match s with
  | EmptyString => false
  | String _ s' => re_search r s'
  end.

(** ** The interpreter's numeric builtins *)

Class PyRuntime : Type := {
  (** the values of type [float] *)
  pyfloat : Type;
  (** [int(s)] for a string [s]; [None] when it raises [ValueError] *)
  int_of_str : string -> option Z;
  (** [float(s)] for a string [s]; [None] when it raises [ValueError] *)
  float_of_str : string -> option pyfloat;
  (** [f == 0] *)
  float_is_zero : pyfloat -> bool;
  (** [str(f)] *)
  float_str : pyfloat -> string;
  (** [repr(s)] for a string [s] *)
  repr_str : string -> string;
  (** whether [namedtuple(typename, names)] accepts the field names *)
  namedtuple_ok : list string -> bool
}.

(** ** Values and coercion *)

(** The values a climate record holds, for floats of type [F]. *)
Inductive value_of (F : Type) : Type :=
| VInt (n : Z)
| VFloat (f : F)
| VStr (s : string).

Arguments VInt {F} n.
Arguments VFloat {F} f.
Arguments VStr {F} s.

(** The values of a runtime. *)
Abbreviation value := (value_of pyfloat).

(** What [row_data] holds before coercion: the text of each [td] and the
    integer year and month put in front of them. *)
Inductive raw : Type :=
| RawInt (n : Z)
| RawStr (s : string).

Section Values.
Context `{PyRuntime}.

(** [str(value)] *)
Definition py_str (v : value) : string :=
  match v with
  | VInt n => pretty n
  | VFloat f => float_str f
  | VStr s => s
  end.

Definition replace_all_non_ASCII (v : raw) (replacement_string : string) : raw :=
  match v with
  | RawStr s =>
      RawStr (String.concat ""
                (map (fun i => if is_ascii i then String i "" else replacement_string)
                     (list_ascii_of_string s)))
  | RawInt n => RawInt n
  end.

Definition is_integer (v : raw) : bool :=
  match v with
  | RawInt _ => true
  | RawStr s => bool_decide (is_Some (int_of_str s))
  end.

(** [is_float] is reached with a string only: an integer passes [is_integer]. *)
Definition is_float (s : string) : bool :=
  bool_decide (is_Some (float_of_str s)).

(** [re.match(...).group(1)] for the legend pattern, [None] without a match. *)
Definition legend_number (s : string) : option string :=
  match re_match legend_pattern s with
  | Some (c, _) => group 1 c
  | None => None
  end.

Definition try_to_convert_to_numeric (v : raw) : value :=
  match replace_all_non_ASCII v "" with
  | RawInt n => VInt n
  | RawStr s =>
      match int_of_str s with
      | Some n => VInt n
      | None =>
          match float_of_str s with
          | Some f => VFloat f
          | None =>
              match legend_number s with
              | Some num => VStr num
              | None => VStr s
              end
          end
      end
  end.

Definition is_a_number (v : value) : bool :=
  match v with
  | VInt _ | VFloat _ => true
  | VStr _ => false
  end.

(** [value != 0] for a number *)
Definition nonzero (v : value) : bool :=
  match v with
  | VInt n => negb (n =? 0)
  | VFloat f => negb (float_is_zero f)
  | VStr _ => true
  end.

Definition is_non_zero_numeric_value (v : value) : bool :=
  is_a_number v && nonzero v.

Definition convert_list_items_to_numeric (l : list raw) : list value :=
  map try_to_convert_to_numeric l.

Definition has_digits (v : value) : bool :=
  is_a_number v ||
  match v with
  | VStr s => string_existsb isdigit s
  | _ => false
  end.

Definition has_non_zero_digits (v : value) : bool :=
  is_non_zero_numeric_value v ||
  string_existsb (fun char => isdigit char && negb (Ascii.eqb char "0")) (py_str v).

End Values.

(** ** Ordered dictionaries

    A Python dict as the list of its items in insertion order.  Assigning to
    a key that is present replaces the value where it stands; a new key goes
    to the end. *)

Section Dict.
Context {K V : Type} `{EqDecision K}.

Definition dict : Type := list (K * V).

Fixpoint dict_get (k : K) (d : dict) : option V :=
  match d with
  | [] => None
  | (k', v) :: d' => if decide (k = k') then Some v else dict_get k d'
  end.

Fixpoint dict_set (k : K) (v : V) (d : dict) : dict :=
  match d with
  | [] => [(k, v)]
  | (k', v') :: d' =>
      if decide (k = k') then (k, v) :: d' else (k', v') :: dict_set k v d'
  end.

Definition dict_keys (d : dict) : list K := map fst d.
Definition dict_values (d : dict) : list V := map snd d.

End Dict.

Arguments dict : clear implicits.

(** ** Station resolution *)

(** A row of the station inventory, with the three columns the scraper
    reads. *)
Record station : Type := {
  Name : string;
  Station_ID : Z;
  Province : string
}.

(** The characters of a query for which the pandas expression built by
    [get_station_data] means what it reads: ASCII letters, digits, space and
    hyphen.  They are literal in a regular expression ([Name.str.contains]
    searches for a regular expression), need no escape inside the quoted
    strings of the query, and [str.upper] maps them within ASCII. *)
Definition plain_char (c : ascii) : bool :=
  is_ascii_upper c || is_ascii_lower c || is_decimal c
  || Ascii.eqb c " " || Ascii.eqb c "-".

Definition plain_text (s : string) : bool := string_forallb plain_char s.

(** [Name.str.contains(pat)]: a regular expression search; the expression a
    plain [pat] compiles to is the literal. *)
Definition str_contains (pat name : string) : bool := re_search (Lit pat) name.

(** The row filter of
    [(Name.str.contains("CITY ") or Name == "CITY") and ( Province == "PROV")],
    the province test present when [province] is not empty.  [data] is the
    frame [get_station_data_from_ftp] returns. *)
Definition station_query (city province : string) (row : station) : bool :=
  (str_contains (upper city +:+ " ") (Name row) || String.eqb (Name row) (upper city))
  && (if String.eqb province "" then true
      else String.eqb (Province row) (upper province)).

(** Lines 146-165, for a city and a province in plain characters.  Other
    arguments reach the query as a regular expression and as query text; the
    query may then select other rows or raise an exception of its own, which
    this definition does not describe. *)
Definition get_station_data (data : list station) (city province : string)
  : result (list station) :=
  let city_data := filter (fun row => station_query city province row = true) data in
  if (length city_data <=? 0)%nat then raise NoLocationFoundError
  else inr city_data.

(** ** Month names, province codes and the report URL *)

Definition month_name_map (month : Z) : option string :=
  match month with
  | 0 => Some ""
  | 1 => Some "January"
  | 2 => Some "February"
  | 3 => Some "March"
  | 4 => Some "April"
  | 5 => Some "May"
  | 6 => Some "June"
  | 7 => Some "July"
  | 8 => Some "August"
  | 9 => Some "September"
  | 10 => Some "October"
  | 11 => Some "November"
  | 12 => Some "December"
  | _ => None
  end.

Definition province_map : list (string * string) :=
  [ ("ALBERTA", "AB")
  ; ("BRITISH COLUMBIA", "BC")
  ; ("MANITOBA", "MB")
  ; ("NEW BRUNSWICK", "NB")
  ; ("NEWFOUNDLAND AND LABRADOR", "NL")
  ; ("NORTHWEST TERRITORIES", "NT")
  ; ("NOVA SCOTIA", "NS")
  ; ("NUNAVUT", "NT")
  ; ("ONTARIO", "ON")
  ; ("PRINCE EDWARD ISLAND", "PE")
  ; ("QUEBEC", "QC")
  ; ("SASKATCHEWAN", "SK")
  ; ("YUKON", "YT") ].

(** The four [str.replace] calls on
    ["...daily_data_e.html?&StationID=&Prov=&Month=&Year="]: each parameter
    name occurs once in the template, and the values put in (a decimal number
    or a province code) contain none of the later names. *)
Definition daily_data_url (station_id : Z) (prov : string) (month year : Z) : string :=
  "http://climate.weather.gc.ca/climate_data/daily_data_e.html?"
  +:+ "&StationID=" +:+ pretty station_id
  +:+ "&Prov=" +:+ prov
  +:+ "&Month=" +:+ pretty month
  +:+ "&Year=" +:+ pretty year.

(** ** The fetched page

    What the scraper reads off the parsed HTML: the [caption] elements in
    document order, each with its text and enclosing table; of a table, the
    links of its [thead] elements and all its [tr] elements in document
    order; of a row, its [th] and [td] descendants. *)

Record link : Type := {
  link_abbr : option string;   (* text of the first [abbr] inside the link *)
  link_text : string
}.

Record table_row : Type := {
  row_th : list string;
  row_td : list string
}.

Record table : Type := {
  table_thead : list (list link);   (* per [thead], its [a] elements *)
  table_tr : list table_row
}.

Record caption : Type := {
  caption_get_text : string;
  caption_find_parent_table : option table
}.

Definition document : Type := list caption.

(** ** Scraping *)

(** A [ClimateData] named tuple: the field names of its class and its
    values, of equal length. *)
Record ClimateData_of (F : Type) : Type := {
  cd_fields : list string;
  cd_values : list (value_of F)
}.

Arguments cd_fields {F} c.
Arguments cd_values {F} c.
Arguments Build_ClimateData_of {F} cd_fields cd_values.

Abbreviation ClimateData := (ClimateData_of pyfloat).

Section Scraper.
Context `{PyRuntime}.

(** The keys of [climate_data_map]:
    [(station_name, station_id, year, month, day)] or [(year, month, day)]. *)
Definition map_key : Type := (string * Z * Z * Z * Z) + (Z * Z * Z).

Definition station_key (name : string) (id year month day : Z) : map_key :=
  inl (name, id, year, month, day).

Definition date_key (year month day : Z) : map_key := inr (year, month, day).

Definition climate_map : Type := dict map_key ClimateData.

(** [ClimateData._make(row_data)] *)
Definition namedtuple_make (fields : list string) (row_data : list value)
  : result ClimateData :=
  if (length row_data =? length fields)%nat
  then inr {| cd_fields := fields; cd_values := row_data |}
  else raise TypeError.

Definition header_text (a : link) : string :=
  match link_abbr a with
  | Some t => t
  | None => link_text a
  end.

Definition normalize_header (t : string) : string :=
  lower (replace_char " " "_" (strip t)).

(** The column header list built from the table head. *)
Definition column_header_list (t : table) : list string :=
  ["city"; "province"; "station_id"; "station_name"]
  ++ ["year"; "month"; "day"]
  ++ map normalize_header
       (filter (fun text => text <> "") (map header_text (concat (table_thead t))))
  ++ ["monthly_data_url"].

Definition is_table_header_or_summary_row (r : table_row) : bool :=
  negb (bool_decide (row_th r = [])).

Definition data_rows (t : table) : list table_row :=
  filter (fun r => is_table_header_or_summary_row r = false) (drop 2 (table_tr t)).

(** The number of values for which [has_non_zero_digits] holds. *)
Definition richness (items : list value) : nat :=
  length (filter (fun item => has_non_zero_digits item = true) items).

(** Lines 368-392: keep, for a date, the record with more non-zero data. *)
Definition store_best (fields : list string) (key : map_key)
    (row_data : list value) (climate_data_map : climate_map) : result climate_map :=
  match dict_get key climate_data_map with
  | Some current_climate_data =>
      if (richness (cd_values current_climate_data) <? richness row_data)%nat
      then
        let* climate_data := namedtuple_make fields row_data in
        inr (dict_set key climate_data climate_data_map)
      else inr climate_data_map
  | None =>
      let* climate_data := namedtuple_make fields row_data in
      inr (dict_set key climate_data climate_data_map)
  end.

(** Lines 340-353: keep every station's record. *)
Definition store_all (fields : list string) (key : map_key)
    (row_data : list value) (climate_data_map : climate_map) : result climate_map :=
  let* climate_data := namedtuple_make fields row_data in
  inr (dict_set key climate_data climate_data_map).

(** The body of the loop over [data_rows] (lines 311-392). *)
Definition scrape_row (city : string) (row : station) (year month : Z)
    (daily_data_url : string) (fetch_all_station_data : bool)
    (fields : list string) (table_row : table_row)
    (climate_data_map : climate_map) : result climate_map :=
  let row_data := row_td table_row in
  let* first_cell := of_option IndexError (head row_data) in
  match re_findall digits_pattern first_cell with
  | [] => inr climate_data_map
  | entry :: _ =>
      let* day := of_option ValueError (int_of_str entry) in
      let row_data := RawInt year :: RawInt month :: map RawStr row_data in
      let row_data := convert_list_items_to_numeric row_data in
      let row_data := row_data ++ [VStr daily_data_url] in
      let station_name := Name row in
      let province := Province row in
      let station_id := Station_ID row in
      if fetch_all_station_data then
        let row_data :=
          VStr city :: VStr province :: VInt station_id :: VStr station_name
          :: row_data in
        store_all fields (station_key station_name station_id year month day)
          row_data climate_data_map
      else
        let row_data :=
          VStr city :: VStr province :: VInt 0 :: VStr "" :: row_data in
        store_best fields (date_key year month day) row_data climate_data_map
  end.

(** The body of [if caption_text in caption.get_text()] (lines 250-392). *)
Definition scrape_table (city : string) (row : station) (year month : Z)
    (daily_data_url : string) (fetch_all_station_data : bool)
    (c : caption) (climate_data_map : climate_map) : result climate_map :=
  let* table := of_option AttributeError (caption_find_parent_table c) in
  let fields := column_header_list table in
  if namedtuple_ok fields then
    for_each
      (scrape_row city row year month daily_data_url fetch_all_station_data fields)
      (data_rows table) climate_data_map
  else raise ValueError.

Definition caption_matches (caption_text : string) (c : caption) : bool :=
  contains caption_text (caption_get_text c).

(** The loop over [soup.find_all('caption')] (lines 245-392). *)
Definition scrape_document (city : string) (row : station) (year month : Z)
    (daily_data_url : string) (fetch_all_station_data : bool)
    (caption_text : string) (soup : document) (climate_data_map : climate_map)
  : result climate_map :=
  for_each
    (fun c m =>
       if caption_matches caption_text c
       then scrape_table city row year month daily_data_url
              fetch_all_station_data c m
       else inr m)
    soup climate_data_map.

(** The body of the loop over the stations (lines 215-392).  [fetch] is
    [requests.get] followed by the HTML parser, the site as it answers the
    requests of one run: a URL has one answer.  The progress line printed
    when [output_processing_steps] is set is left out. *)
Definition scrape_station (fetch : string -> result document) (city : string)
    (fetch_all_station_data : bool) (year month : Z) (row : station)
    (climate_data_map : climate_map) : result climate_map :=
  let* prov := of_option KeyError (dict_get (Province row) province_map) in
  let daily_data_url := daily_data_url (Station_ID row) prov month year in
  let* soup := fetch daily_data_url in
  let* month_name := of_option KeyError (month_name_map month) in
  let caption_text :=
    "Daily Data Report for " +:+ month_name +:+ " " +:+ pretty year in
  scrape_document city row year month daily_data_url fetch_all_station_data
    caption_text soup climate_data_map.

Definition months_of (start_year start_month end_year end_month year : Z) : list Z :=
  py_range (if year =? start_year then start_month else 1)
           (if year =? end_year then end_month + 1 else 13).

Definition get_climate_data_map (data : list station)
    (fetch : string -> result document) (city province : string)
    (start_year start_month end_year end_month : Z)
    (fetch_all_station_data : bool) : result climate_map :=
  let* station_data := get_station_data data city province in
  for_each
    (fun year =>
       for_each
         (fun month =>
            for_each (scrape_station fetch city fetch_all_station_data year month)
              station_data)
         (months_of start_year start_month end_year end_month year))
    (py_range start_year (end_year + 1)) [].

End Scraper.

(** ** Persistence *)

Record column : Type := {
  c_name : string;
  c_primary_key : bool
}.

Record sql_table : Type := {
  t_name : string;
  t_c : list column
}.

Definition Column (name : string) (primary_key : bool) : column :=
  {| c_name := name; c_primary_key := primary_key |}.

(** The table [insert_climate_data_into_database] declares. *)
Definition weather_table (database_table_name : string) : sql_table :=
  {| t_name := database_table_name;
     t_c :=
       [ Column "city" true
       ; Column "province" false
       ; Column "station_id" false
       ; Column "station_name" true
       ; Column "monthly_data_url" false
       ; Column "year" true
       ; Column "month" true
       ; Column "day" true
       ; Column "max_temp" false
       ; Column "min_temp" false
       ; Column "mean_temp" false
       ; Column "extr_max_temp" false
       ; Column "extr_min_temp" false
       ; Column "cool_deg_days" false
       ; Column "heat_deg_days" false
       ; Column "total_rain" false
       ; Column "total_snow" false
       ; Column "total_prec" false
       ; Column "snow_on_grnd" false
       ; Column "dir_of_max_gust" false
       ; Column "spd_of_max_gust" false ] |}.

Section Persistence.
Context `{PyRuntime}.

Definition get_default_data_value (column_name : string) : value :=
  if bool_decide (column_name ∈ ["station_name"; "city"; "province"; "monthly_data_url"])
  then VStr "" else VInt 0.

(** [r'\xa'] is the three characters backslash, [x], [a]. *)
Definition list_of_strings_to_check_for : list string :=
  ["LegendMM"; "LegendTT"; String BACKSLASH "xa"].

(** The test of line 496. *)
Definition is_marker (v : value) : bool :=
  String.eqb (py_str v) ""
  || existsb (fun sub_string => contains sub_string (py_str v))
       list_of_strings_to_check_for.

(** [tuple._asdict()] *)
Definition asdict (t : ClimateData) : gmap string value :=
  foldl (fun m kv => <[kv.1 := kv.2]> m) ∅ (zip (cd_fields t) (cd_values t)).

(** Lines 476-487: the tuple as a dict, with a default for every column of
    the table it lacks.  [sql_column_name_list] is what
    [get_column_names_from_database_table] returned for the table. *)
Definition column_map_with_defaults (t : ClimateData)
    (sql_column_name_list : list string) : gmap string value :=
  let column_map := asdict t in
  let tuple_column_name_list := cd_fields t in
  let missing_column_entries :=
    filter (fun item => item ∉ tuple_column_name_list) sql_column_name_list in
  foldl (fun m column_name => <[column_name := get_default_data_value column_name]> m)
    column_map missing_column_entries.

(** Lines 494-497: assigning to a key that is present while iterating over
    the items changes the value of that key only. *)
Definition construct_column_insert_map_from_tuple (t : ClimateData)
    (sql_column_name_list : list string) : gmap string value :=
  (fun value => if is_marker value then VInt 0 else value)
  <$> column_map_with_defaults t sql_column_name_list.

(** [str(v).replace('\'', '\'\'')] *)
Definition sql_text (v : value) : string :=
  replace_char SQUOTE (String SQUOTE (String SQUOTE "")) (py_str v).

(** ["{!s} = {!r}".format(key, value)] *)
Definition assignment (kv : string * string) : string :=
  kv.1 +:+ " = " +:+ repr_str kv.2.

Definition update_column_dict (column_map : gmap string value) (t : sql_table)
  : list (string * string) :=
  map (fun c => (c_name c,
                 sql_text (default (get_default_data_value (c_name c))
                                   (column_map !! c_name c))))
      (filter (fun c => c_primary_key c = false) (t_c t)).

Fixpoint where_column_dict (column_map : gmap string value) (cs : list column)
  : result (list (string * string)) :=
  match cs with
  | [] => inr []
  | c :: cs' =>
      if c_primary_key c then
        let* v := of_option KeyError (column_map !! c_name c) in
        let* rest := where_column_dict column_map cs' in
        inr ((c_name c, sql_text v) :: rest)
      else where_column_dict column_map cs'
  end.

Definition generate_update_table_sql (column_map : gmap string value)
    (t : sql_table) : result string :=
  let update_column_dict := update_column_dict column_map t in
  let* where_column_dict := where_column_dict column_map (t_c t) in
  let update_statement := "UPDATE " +:+ t_name t in
  let set_statement := " SET " +:+ join ", " (map assignment update_column_dict) in
  let where_statement :=
    " WHERE " +:+ join " AND " (map assignment where_column_dict) in
  let where_statement :=
    replace_char DQUOTE (String SQUOTE "") where_statement in
  inr (update_statement +:+ set_statement +:+ where_statement).

(** The database behind the SQLAlchemy engine and the ODBC connection: a
    state [db], the effect of executing an insert of a column map or a
    textual statement, and the schema query of
    [get_column_names_from_database_table].  A statement that raises leaves
    the state as it was. *)
Section Engine.
Variable db : Type.
Variable execute_insert : sql_table -> gmap string value -> db -> result db.
Variable execute_text : string -> db -> result db.
Variable create_all : sql_table -> db -> result db.
Variable get_column_names_from_database_table : string -> db -> result (list string).

(** The body of the loop over [climate_data_map.items()] (lines 623-639). *)
Definition insert_or_update (t : sql_table) (value : ClimateData) (d : db)
  : result db :=
  let* names := get_column_names_from_database_table (t_name t) d in
  let column_map := construct_column_insert_map_from_tuple value names in
  match execute_insert t column_map d with
  | inl IntegrityError =>
      let* update_sql_statement := generate_update_table_sql column_map t in
      execute_text update_sql_statement d
  | outcome => outcome
  end.

Definition insert_climate_data_into_database (climate_data_map : climate_map)
    (database_table_name : string) (drop_and_create_table : bool) (d : db)
  : result db :=
  let t := weather_table database_table_name in
  let* d :=
    if drop_and_create_table then
      let* d := execute_text ("DROP TABLE IF EXISTS " +:+ database_table_name) d in
      create_all t d
    else inr d in
  for_each (fun item => insert_or_update t item.2) climate_data_map d.

End Engine.
End Persistence.

(** ** A reference runtime

    CPython's builtins on the strings of the embedding, used to run the
    definitions on examples. *)

(** The floats of the reference runtime are kept as the decimal number the
    literal denotes, [(-1)^neg * mant * 10^exp10], or a special value. *)
Inductive cfloat : Set :=
| FNan
| FInf (neg : bool)
| FDec (neg : bool) (mant : N) (exp10 : Z).

(** What [int] and [float] first do to a string: characters from 127 on
    become a space when they are white space and an invalid character
    otherwise. *)
Definition to_ascii_space (c : ascii) : ascii :=
  if (ord c <? 127)%N then c else if isspace c then " "%char else "?"%char.

Definition is_c_space (c : ascii) : bool := between 9 13 c || Ascii.eqb c " ".

Fixpoint c_lstrip (s : string) : string :=
  match s with
  | String c s' => if is_c_space c then c_lstrip s' else s
  | EmptyString => EmptyString
  end.

Fixpoint c_rstrip (s : string) : string :=
  match s with
  | EmptyString => EmptyString
  | String c s' =>
      match c_rstrip s' with
      | EmptyString => if is_c_space c then EmptyString else String c EmptyString
      | r => String c r
      end
  end.

Definition digit_value (c : ascii) : N := ord c - 48.

(** Underscores may stand between two digits only; [prev] tells whether the
    previous character was a digit.  The result is the text without them. *)
Fixpoint drop_underscores (prev : bool) (s : string) : option string :=
  match s with
  | EmptyString => Some EmptyString
  | String c s' =>
      if Ascii.eqb c "_" then
        match s' with
        | String d _ =>
            if prev && is_decimal d then drop_underscores false s' else None
        | EmptyString => None
        end
      else option_map (String c) (drop_underscores (is_decimal c) s')
  end.

(** The longest run of decimal digits at the start of [s], as a number with
    its length, and the rest. *)
Fixpoint read_digits (acc : N) (n : nat) (s : string) : N * nat * string :=
  match s with
  | String c s' =>
      if is_decimal c then read_digits (10 * acc + digit_value c) (S n) s'
      else (acc, n, s)
  | EmptyString => (acc, n, s)
  end.

Definition read_sign (s : string) : bool * string :=
  match s with
  | String "-" s' => (true, s')
  | String "+" s' => (false, s')
  | _ => (false, s)
  end.

Definition numeric_text (s : string) : option string :=
  drop_underscores false (c_rstrip (c_lstrip (string_map to_ascii_space s))).

Definition cpython_int (s : string) : option Z :=
  match numeric_text s with
  | None => None
  | Some t =>
      let '(neg, t) := read_sign t in
      match read_digits 0 0 t with
      | (n, S _, EmptyString) => Some (if neg then - Z.of_N n else Z.of_N n)
      | _ => None
      end
  end.

Definition ascii_lower_string (s : string) : string :=
  string_map (fun c => if is_ascii_upper c then chr (ord c + 32) else c) s.

(** The exponent part: empty, or [e] or [E], an optional sign and digits. *)
Definition read_exponent (s : string) : option Z :=
  match s with
  | EmptyString => Some 0
  | String c s' =>
      if Ascii.eqb c "e" || Ascii.eqb c "E" then
        let '(neg, t) := read_sign s' in
        match read_digits 0 0 t with
        | (n, S _, EmptyString) => Some (if neg then - Z.of_N n else Z.of_N n)
        | _ => None
        end
      else None
  end.

Definition cpython_float (s : string) : option cfloat :=
  match numeric_text s with
  | None => None
  | Some t =>
      let '(neg, t) := read_sign t in
      let word := ascii_lower_string t in
      if String.eqb word "inf" || String.eqb word "infinity" then Some (FInf neg)
      else if String.eqb word "nan" then Some FNan
      else
        let '(ip, ni, t1) := read_digits 0 0 t in
        let '(m, nf, t2) :=
          match t1 with
          | String "." t' => read_digits ip 0 t'
          | _ => (ip, 0%nat, t1)
          end in
        match (ni + nf)%nat with
        | O => None
        | S _ =>
            match read_exponent t2 with
            | Some e => Some (FDec neg m (e - Z.of_nat nf))
            | None => None
            end
        end
  end.

(** [f == 0]: the literal is zero, or rounds to zero in binary64, that is,
    its magnitude is at most [2^-1075]. *)
Definition cfloat_is_zero (f : cfloat) : bool :=
  match f with
  | FDec _ m e =>
      (m =? 0)%N
      || ((e <? 0) && (Z.of_N m * 2 ^ 1075 <=? 10 ^ (- e)))
  | _ => false
  end.

(** The decimal digits of [m] without trailing zeros, and the power of ten
    that goes with them. *)
Fixpoint strip_zeros (fuel : nat) (m : N) (e : Z) : N * Z :=
  match fuel with
  | O => (m, e)
  | S fuel' =>
      if (0 <? m)%N && (m mod 10 =? 0)%N then strip_zeros fuel' (m / 10)%N (e + 1)
      else (m, e)
  end.

Fixpoint zeros (n : nat) : string :=
  match n with
  | O => EmptyString
  | S n' => String "0" (zeros n')
  end.

(** [str(f)].  The digits printed are those of the literal, in the layout of
    [repr]: positional when the decimal exponent is in [-4, 16), scientific
    otherwise.  This is CPython's output for a literal of at most 15
    significant digits in the normal range of binary64. *)
Definition cfloat_str (f : cfloat) : string :=
  match f with
  | FNan => "nan"
  | FInf neg => if neg then "-inf" else "inf"
  | FDec neg m e =>
      let sign := if neg then "-" else "" in
      if cfloat_is_zero f then sign +:+ "0.0"
      else
        let '(m, e) := strip_zeros (N.to_nat (N.log2 m)) m e in
        let ds := pretty m in
        let n := Z.of_nat (String.length ds) in
        let x := n + e - 1 in
        if (x <? -4) || (16 <=? x) then
          sign +:+ String.substring 0 1 ds
          +:+ (if n =? 1 then "" else "." +:+ String.substring 1 (String.length ds) ds)
          +:+ "e" +:+ (if x <? 0 then "-" else "+")
          +:+ (if Z.abs x <? 10 then "0" else "") +:+ pretty (Z.abs x)
        else if 0 <=? e then sign +:+ ds +:+ zeros (Z.to_nat e) +:+ ".0"
        else if 0 <? n + e then
          sign +:+ String.substring 0 (Z.to_nat (n + e)) ds
          +:+ "." +:+ String.substring (Z.to_nat (n + e)) (String.length ds) ds
        else sign +:+ "0." +:+ zeros (Z.to_nat (- (n + e))) +:+ ds
  end.

Definition hex_digit (n : N) : ascii :=
  if (n <? 10)%N then chr (48 + n) else chr (87 + n).

(** [str.isprintable] on one character. *)
Definition isprintable (c : ascii) : bool :=
  between 32 126 c || (between 161 255 c && negb (ord c =? 173)%N).

Fixpoint repr_body (quote : ascii) (s : string) : string :=
  match s with
  | EmptyString => EmptyString
  | String c s' =>
      (if Ascii.eqb c BACKSLASH || Ascii.eqb c quote then String BACKSLASH (String c "")
       else if (ord c =? 9)%N then String BACKSLASH "t"
       else if (ord c =? 10)%N then String BACKSLASH "n"
       else if (ord c =? 13)%N then String BACKSLASH "r"
       else if isprintable c then String c ""
       else String BACKSLASH
              (String "x" (String (hex_digit (ord c / 16)) (String (hex_digit (ord c mod 16)) ""))))
      +:+ repr_body quote s'
  end.

(** [repr(s)]: double quotes when [s] has a single quote and no double
    quote, single quotes otherwise. *)
Definition cpython_repr (s : string) : string :=
  let quote :=
    if string_existsb (Ascii.eqb SQUOTE) s && negb (string_existsb (Ascii.eqb DQUOTE) s)
    then DQUOTE else SQUOTE in
  String quote (repr_body quote s) +:+ String quote "".

Definition keywords : list string :=
  [ "False"; "None"; "True"; "and"; "as"; "assert"; "async"; "await"; "break"
  ; "class"; "continue"; "def"; "del"; "elif"; "else"; "except"; "finally"
  ; "for"; "from"; "global"; "if"; "import"; "in"; "is"; "lambda"; "nonlocal"
  ; "not"; "or"; "pass"; "raise"; "return"; "try"; "while"; "with"; "yield" ].

(** The characters that may start an identifier, and those that may follow. *)
Definition id_start (c : ascii) : bool :=
  is_ascii_upper c || is_ascii_lower c || Ascii.eqb c "_"
  || (ord c =? 170)%N || (ord c =? 181)%N || (ord c =? 186)%N
  || between 192 214 c || between 216 246 c || between 248 255 c.

Definition id_continue (c : ascii) : bool :=
  id_start c || is_decimal c || (ord c =? 183)%N.

Definition isidentifier (s : string) : bool :=
  match s with
  | EmptyString => false
  | String c s' => id_start c && string_forallb id_continue s'
  end.

Fixpoint no_duplicate (l : list string) : bool :=
  match l with
  | [] => true
  | x :: l' => negb (bool_decide (x ∈ l')) && no_duplicate l'
  end.

(** The checks of [collections.namedtuple] on its field names. *)
Definition cpython_namedtuple_ok (field_names : list string) : bool :=
  forallb (fun name => isidentifier name && negb (bool_decide (name ∈ keywords)))
    field_names
  && forallb (fun name => negb (startswith "_" name)) field_names
  && no_duplicate field_names.

Definition cpython : PyRuntime := {|
  pyfloat := cfloat;
  int_of_str := cpython_int;
  float_of_str := cpython_float;
  float_is_zero := cfloat_is_zero;
  float_str := cfloat_str;
  repr_str := cpython_repr;
  namedtuple_ok := cpython_namedtuple_ok
|}.

(** ** Descriptions used in the statements

    Direct descriptions of what the two patterns match, of the values of a
    record, and the readings of the specification the code is compared
    with. *)

(** The longest prefix of [s] whose characters satisfy [p], and the rest. *)
Fixpoint span (p : ascii -> bool) (s : string) : string * string :=
  match s with
  | String a s' =>
      if p a then let '(u, v) := span p s' in (String a u, v)
      else (EmptyString, s)
  | EmptyString => (EmptyString, EmptyString)
  end.

(** The longest prefix of [s] of the form [(\d*\.)?\d+], and the rest. *)
Definition unsigned_prefix (s : string) : option (string * string) :=
  let '(d1, s2) := span is_decimal s in
  let whole := if String.eqb d1 "" then None else Some (d1, s2) in
  match s2 with
  | String "." s3 =>
      let '(d2, s4) := span is_decimal s3 in
      if String.eqb d2 "" then whole
      else Some (d1 +:+ "." +:+ d2, s4)
  | _ => whole
  end.

(** The longest prefix of [s] of the form [[+-]?(\d*\.)?\d+], and the rest. *)
Definition numeric_prefix (s : string) : option (string * string) :=
  match s with
  | String a s' =>
      if sign_char a then
        match unsigned_prefix s' with
        | Some (num, rest) => Some (String a num, rest)
        | None => None
        end
      else unsigned_prefix s
  | EmptyString => None
  end.

(** ["Legend"] occurs in [s] with no newline before it. *)
Fixpoint legend_on_line (s : string) : bool :=
  startswith "Legend" s ||
  match s with
  | String a s' => dot_char a && legend_on_line s'
  | EmptyString => false
  end.

Definition all_decimal (s : string) : Prop := string_forallb is_decimal s = true.

(** [num] is an optional sign, optionally digits and a point, and at least
    one digit. *)
Definition numeric (num : string) : Prop :=
  exists sg ip fp,
    num = sg +:+ ip +:+ fp
    /\ (sg = "" \/ sg = "+" \/ sg = "-")
    /\ (ip = "" \/ exists d, ip = d +:+ "." /\ all_decimal d)
    /\ fp <> "" /\ all_decimal fp.

(** [s] starts with the number [num], and ["Legend"] occurs somewhere after
    it. *)
Definition legend_follows (s num : string) : Prop :=
  numeric num /\ exists mid tail, s = num +:+ mid +:+ "Legend" +:+ tail.

(** The same, with no newline between the number and ["Legend"]. *)
Definition legend_follows_on_line (s num : string) : Prop :=
  numeric num /\
  exists mid tail,
    s = num +:+ mid +:+ "Legend" +:+ tail
    /\ string_existsb (Ascii.eqb LF) mid = false.

(** The first run of decimal digits of [s]. *)
Fixpoint first_digit_run (s : string) : option string :=
  match s with
  | EmptyString => None
  | String a s' =>
      if is_decimal a then Some (fst (span is_decimal s))
      else first_digit_run s'
  end.

Section Descriptions.
Context `{PyRuntime}.

(** A value that is a number other than zero. *)
Definition non_zero_number (v : value) : Prop :=
  match v with
  | VInt n => n <> 0
  | VFloat f => float_is_zero f = false
  | VStr _ => False
  end.

(** The values of the record built from a row (lines 328-362). *)
Definition row_values (fetch_all_station_data : bool) (city : string)
    (row : station) (year month : Z) (url : string) (cells : list string)
  : list value :=
  (if fetch_all_station_data
   then [VStr city; VStr (Province row); VInt (Station_ID row); VStr (Name row)]
   else [VStr city; VStr (Province row); VInt 0; VStr ""])
  ++ VInt year :: VInt month :: map (fun c => try_to_convert_to_numeric (RawStr c)) cells
  ++ [VStr url].

Definition row_key (fetch_all_station_data : bool) (row : station)
    (year month day : Z) : map_key :=
  if fetch_all_station_data
  then station_key (Name row) (Station_ID row) year month day
  else date_key year month day.

Definition store (fetch_all_station_data : bool) :=
  if fetch_all_station_data then store_all else store_best.

(** Extraction that reads the first matching caption only. *)
Definition scrape_first_caption (city : string) (row : station) (year month : Z)
    (url : string) (fetch_all_station_data : bool) (caption_text : string)
    (soup : document) (m : climate_map) : result climate_map :=
  match List.find (caption_matches caption_text) soup with
  | Some c => scrape_table city row year month url fetch_all_station_data c m
  | None => inr m
  end.

(** A day of the month, as an integer value. *)
Definition valid_day_of_month (v : value) : Prop :=
  exists n, v = VInt n /\ 1 <= n <= 31.

(** The record comes from a row of the table of the given year and month
    whose first cell is [first_cell]. *)
Definition record_of_row (r : ClimateData) (year month : Z) (first_cell : string)
  : Prop :=
  exists city province station_id station_name columns rest,
    cd_fields r =
      ["city"; "province"; "station_id"; "station_name"; "year"; "month"; "day"]
      ++ columns
    /\ cd_values r =
      [city; province; station_id; station_name; VInt year; VInt month;
       try_to_convert_to_numeric (RawStr first_cell)] ++ rest
    /\ length (cd_values r) = length (cd_fields r).

End Descriptions.

(** The reading of the station filter the specification gives: the name is
    the city, or starts with the city and a space, case apart. *)
Definition name_is_or_starts_with (city name : string) : bool :=
  String.eqb (upper name) (upper city)
  || startswith (upper city +:+ " ") (upper name).


(** ** Example data *)

Definition sample_fields : list string :=
  ["year"; "month"; "day"; "max_temp"; "min_temp"].

(** A record with three values that have a non-zero digit, and one with five. *)
Definition sample_poor : list (value_of cfloat) :=
  [VInt 2019; VInt 3; VInt 1; VStr "LegendMM"; VInt 0].

Definition sample_rich : list (value_of cfloat) :=
  [VInt 2019; VInt 3; VInt 1; VInt 4; VInt 7].

Definition sample_map : @climate_map cpython :=
  [(date_key 2019 3 1, {| cd_fields := sample_fields; cd_values := sample_poor |})].


Definition station_toronto_city : station :=
  {| Name := "TORONTO CITY"; Station_ID := 31688; Province := "ONTARIO" |}.

Definition station_north_york : station :=
  {| Name := "NORTH YORK CENTRE"; Station_ID := 26953; Province := "ONTARIO" |}.

Definition sample_inventory : list station :=
  [station_toronto_city; station_north_york].


(** What the matcher does on [(Cls p)*?] followed by [k]: it tries [k] at
    the current position, then after one more character of the class. *)
Fixpoint lazy_scan {R : Type} (p : ascii -> bool)
    (k : string -> captures -> option R) (s : string) (c : captures) : option R :=
  orelse (k s c)
    match s with
    | String a s' => if p a then lazy_scan p k s' c else None
    | EmptyString => None
    end.


(** A continuation that fails at a position fails one character of the
    class earlier as well. *)
Definition absorbs {R : Type} (p : ascii -> bool)
    (k : string -> captures -> option R) : Prop :=
  forall a t c, p a = true -> k t c = None -> k (String a t) c = None.


(** The pattern [r], matched against [s] before the continuation [K], hands
    over to [K] after the prefix [found]: [K] is run on the rest when the rest
    is [ok], and the match fails otherwise. *)
Definition hands_over {R : Type} (K : string -> captures -> option R)
    (ok : string -> bool) (r : regex) (s : string) (c : captures)
    (found : option (string * string)) : Prop :=
  match found with
  | Some (num, rest) =>
      s = num +:+ rest
      /\ if ok rest then exists c', backtrack r s c K = K rest c'
         else backtrack r s c K = None
  | None => backtrack r s c K = None
  end.


Definition digit_or_point (a : ascii) : bool := is_decimal a || Ascii.eqb a ".".


(** A cell with a number, a newline and the legend marker. *)
Definition number_newline_legend : string :=
  "12" +:+ String LF "Legend".


(** The text starts with a decimal digit. *)
Definition begins_with_digit (s : string) : bool :=
  match s with
  | String a _ => is_decimal a
  | EmptyString => false
  end.

Definition sample_url : string := daily_data_url 31688 "ON" 3 2019.

Definition link_max_temp : link :=
  {| link_abbr := Some "Max Temp"; link_text := "Max Temp Definition" |}.

Definition header_row : table_row := {| row_th := ["DAY"]; row_td := [] |}.

Definition data_row (day temp : string) : table_row :=
  {| row_th := []; row_td := [day; temp] |}.

Definition summary_row : table_row := {| row_th := ["Sum"]; row_td := ["4.5"] |}.

(** A table with one measurement column, two rows above the data, two data
    rows and a summary row. *)
Definition march_table : table :=
  {| table_thead := [[link_max_temp]];
     table_tr := [header_row; header_row; data_row "01" "3.5";
                  data_row "02" "1.0"; summary_row] |}.

Definition march_fields : list string := column_header_list march_table.

(** A table whose data rows have a first cell that does not start with a
    digit, and one that is no day of a month. *)
Definition odd_table : table :=
  {| table_thead := [[link_max_temp]];
     table_tr := [header_row; header_row; data_row "x7" "3.5";
                  data_row "45" "1.0"] |}.

Definition march_caption (t : table) : caption :=
  {| caption_get_text := "Daily Data Report for March 2019";
     caption_find_parent_table := Some t |}.

Definition other_caption : caption :=
  {| caption_get_text := "Legend"; caption_find_parent_table := None |}.


(** A page with two tables under the caption of the month. *)
Definition two_table_page : document :=
  [other_caption; march_caption march_table; march_caption odd_table].

(** A page without the caption of the month. *)
Definition empty_page : document := [other_caption].

Section RecordDescriptions.
Context `{PyRuntime}.

(** The value of the field [name] of a record. *)
Definition field_value (name : string) (r : ClimateData) : option value :=
  dict_get name (zip (cd_fields r) (cd_values r)).

(** The day of a key of the map. *)
Definition key_day (k : map_key) : Z :=
  match k with
  | inl (_, _, _, _, day) => day
  | inr (_, _, day) => day
  end.

End RecordDescriptions.


Section Invariant.
Context `{PyRuntime}.

(** What holds of every item of the map: the record was built from a row
    whose first cell has a digit, and the day of its key is the first run of
    digits of that cell read as an integer. *)
Definition item_of_row (k : map_key) (r : ClimateData) : Prop :=
  exists year month first_cell run,
    record_of_row r year month first_cell
    /\ first_digit_run first_cell = Some run
    /\ int_of_str run = Some (key_day k).

Definition items_of_rows (m : climate_map) : Prop :=
  forall k r, (k, r) ∈ m -> item_of_row k r.

End Invariant.


(** A site that answers every request with the table of the example, and one
    that answers with the table of odd first cells. *)
Definition march_site (url : string) : result document :=
  inr [other_caption; march_caption march_table].

Definition odd_site (url : string) : result document :=
  inr [march_caption odd_table].

(** The map of a run over March 2019 against [march_site], in best-station
    mode. *)
Definition march_run : @climate_map cpython :=
  Eval vm_compute in
    match
      get_climate_data_map (H := cpython) sample_inventory march_site
        "Toronto" "" 2019 3 2019 3 false
    with
    | inr m => m
    | inl _ => []
    end.


Section StatementDescriptions.
Context `{PyRuntime}.

(** [column_map.get(name, get_default_data_value(name))] *)
Definition column_value (column_map : gmap string value) (name : string) : value :=
  default (get_default_data_value name) (column_map !! name).

(** The text [name = 'value'] a column contributes to the statement. *)
Definition column_assignment (column_map : gmap string value) (c : column) : string :=
  c_name c +:+ " = " +:+ repr_str (sql_text (column_value column_map (c_name c))).

(** The UPDATE statement that sets every column outside the primary key and
    filters by every column of the primary key. *)
Definition update_statement (column_map : gmap string value) (t : sql_table) : string :=
  "UPDATE " +:+ t_name t
  +:+ (" SET " +:+ join ", "
         (map (column_assignment column_map)
              (filter (fun c => c_primary_key c = false) (t_c t))))
  +:+ replace_char DQUOTE (String SQUOTE "")
        (" WHERE " +:+ join " AND "
           (map (column_assignment column_map)
                (filter (fun c => c_primary_key c = true) (t_c t)))).

End StatementDescriptions.

(** A database that holds the key of every record already: an insert raises
    [IntegrityError], and a textual statement is recorded. *)
Definition full_insert (t : sql_table) (column_map : gmap string (value_of cfloat))
    (d : list string) : result (list string) :=
  raise IntegrityError.

Definition log_text (statement : string) (d : list string) : result (list string) :=
  inr (d ++ [statement]).

Definition weather_columns (name : string) (d : list string) : result (list string) :=
  inr (map c_name (t_c (weather_table name))).

Definition march_record : ClimateData_of cfloat :=
  {| cd_fields := march_fields;
     cd_values :=
       [VStr "Toronto"; VStr "ONTARIO"; VInt 0; VStr ""; VInt 2019; VInt 3;
        VInt 1; VStr "LegendMM"; VStr sample_url] |}.


Definition sample_table : sql_table := weather_table "gov_of_canada_weather_data".

Definition sample_column_map : gmap string (value_of cfloat) :=
  construct_column_insert_map_from_tuple (H := cpython) march_record
    (map c_name (t_c sample_table)).

(** ** The report URL, as the replacements build it *)

(** [s.replace(old, new)] for a non-empty [old]: the occurrences of [old]
    are found from left to right and do not overlap.  [skip] counts the
    characters of the occurrence just replaced that are still to be passed
    over. *)
Fixpoint str_replace_go (old new : string) (skip : nat) (s : string) : string :=
  match s with
  | EmptyString => EmptyString
  | String c s' =>
      match skip with
      | S skip' => str_replace_go old new skip' s'
      | O =>
          if startswith old s
          then new +:+ str_replace_go old new (String.length old - 1) s'
          else String c (str_replace_go old new 0 s')
      end
  end.

Definition str_replace (old new s : string) : string := str_replace_go old new 0 s.

Definition get_gc_ca_daily_data_url : string :=
  "http://climate.weather.gc.ca/climate_data/daily_data_e.html?&StationID=&Prov=&Month=&Year=".

(** Lines 215-220 as written: four replacements on the template. *)
Definition daily_data_url_replaced (station_id : Z) (prov : string) (month year : Z)
  : string :=
  let daily_data_url := get_gc_ca_daily_data_url in
  let daily_data_url :=
    str_replace "StationID=" ("StationID=" +:+ pretty station_id) daily_data_url in
  let daily_data_url := str_replace "Prov=" ("Prov=" +:+ prov) daily_data_url in
  let daily_data_url := str_replace "Month=" ("Month=" +:+ pretty month) daily_data_url in
  let daily_data_url := str_replace "Year=" ("Year=" +:+ pretty year) daily_data_url in
  daily_data_url.

(** [old] and [u] differ at a position both have: [old] does not start at the
    beginning of [u], whatever follows [u]. *)
Fixpoint differs (old u : string) : bool :=
  match old, u with
  | String a old', String b u' => negb (Ascii.eqb a b) || differs old' u'
  | _, _ => false
  end.

(** No occurrence of [old] starts inside [pre], whatever follows [pre]. *)
Fixpoint clear_of (old pre : string) : bool :=
  match pre with
  | EmptyString => true
  | String _ pre' => differs old pre && clear_of old pre'
  end.

Definition digit_or_minus (c : ascii) : bool := is_decimal c || Ascii.eqb c "-".

(** ** The text between two delimiters *)

(** [r+?] *)
Definition LazyPlus (r : regex) : regex := Cat r (LazyStar r).

(** [re.search(r, s)]: the captures of the match at the leftmost position
    that has one. *)
Fixpoint re_search_match (r : regex) (s : string) : option captures :=
  match re_match r s with
  | Some (c, _) => Some c
  | None =>
      match s with
      | EmptyString => None
      | String _ s' => re_search_match r s'
      end
  end.

(** The characters that stand for themselves in a regular expression. *)
Definition re_literal_char (c : ascii) : bool :=
  negb (string_existsb (Ascii.eqb c) (".^$*+?{}[]|()" +:+ String BACKSLASH "")).

Definition re_literal (s : string) : bool := string_forallb re_literal_char s.

(** [start_substring + '(.+?)' + end_substring], for delimiters that are
    literal as regular expressions. *)
Definition between_pattern (start_substring end_substring : string) : regex :=
  Cat (Lit start_substring)
 (Cat (Grp 1 (LazyPlus (Cls dot_char)))
      (Lit end_substring)).

(** [find_string_between]: group 1 of the match, and [''] when the search
    returns [None] and [.group] raises [AttributeError]. *)
Definition find_string_between (text start_substring end_substring : string)
  : string :=
  match re_search_match (between_pattern start_substring end_substring) text with
  | Some c =>
      match group 1 c with
      | Some found => found
      | None => ""
      end
  | None => ""
  end.

Section Provenance.
Context `{PyRuntime}.

(** The item was stored from the row [tr] of the table [t] on the page at
    [url] of the station [row] for [year] and [month]. *)
Definition item_from_row (city : string) (fetch_all_station_data : bool)
    (row : station) (year month : Z) (url : string) (t : table) (tr : table_row)
    (k : map_key) (r : ClimateData) : Prop :=
  exists first_cell cells run day,
    row_td tr = first_cell :: cells
    /\ first_digit_run first_cell = Some run
    /\ int_of_str run = Some day
    /\ k = row_key fetch_all_station_data row year month day
    /\ r = {| cd_fields := column_header_list t;
              cd_values := row_values fetch_all_station_data city row year month
                             url (first_cell :: cells) |}
    /\ length (cd_values r) = length (cd_fields r).

(** The item was stored from a data row of a table whose caption names the
    month, on the page fetched for the station, the month and the year. *)
Definition item_from_page (fetch : string -> result document) (city : string)
    (fetch_all_station_data : bool) (row : station) (year month : Z)
    (prov : string) (k : map_key) (r : ClimateData) : Prop :=
  let url := daily_data_url (Station_ID row) prov month year in
  exists soup month_name c t tr,
    fetch url = inr soup
    /\ month_name_map month = Some month_name
    /\ c ∈ soup
    /\ caption_matches
         ("Daily Data Report for " +:+ month_name +:+ " " +:+ pretty year) c = true
    /\ caption_find_parent_table c = Some t
    /\ tr ∈ data_rows t
    /\ item_from_row city fetch_all_station_data row year month url t tr k r.

End Provenance.

(** The characters of a column name that needs no normalising: lower-case
    ASCII letters, digits and the underscore. *)
Definition identifier_char (c : ascii) : bool :=
  is_ascii_lower c || is_decimal c || Ascii.eqb c "_".

Section Settled.
Context `{PyRuntime}.

(** The map holds, for the key, a record at least as rich as the values. *)
Definition covered (m : climate_map) (k : map_key) (row_data : list value) : Prop :=
  exists current,
    dict_get k m = Some current
    /\ (richness row_data <= richness (cd_values current))%nat.

(** In best-station mode the row has nothing to add to the map: it has a
    first cell, and either that cell has no digit or the record of the row is
    covered. *)
Definition settled (city : string) (row : station) (year month : Z) (url : string)
    (tr : table_row) (m : climate_map) : Prop :=
  match row_td tr with
  | [] => False
  | first_cell :: cells =>
      match first_digit_run first_cell with
      | None => True
      | Some run =>
          match int_of_str run with
          | None => False
          | Some day =>
              covered m (date_key year month day)
                (row_values false city row year month url (first_cell :: cells))
          end
      end
  end.

(** None of the rows of the document, read under the caption text, has
    anything to add to the map, and reading it raises nothing. *)
Definition document_settled (city : string) (row : station) (year month : Z)
    (url caption_text : string) (soup : document) (m : climate_map) : Prop :=
  forall c,
    c ∈ soup ->
    caption_matches caption_text c = true ->
    exists t,
      caption_find_parent_table c = Some t
      /\ namedtuple_ok (column_header_list t) = true
      /\ forall tr,
           tr ∈ data_rows t -> settled city row year month url tr m.

(** A document and what it is read with: the arguments of one call of
    [scrape_document]. *)
Record reading : Type := {
  reading_city : string;
  reading_row : station;
  reading_year : Z;
  reading_month : Z;
  reading_url : string;
  reading_caption_text : string;
  reading_soup : document
}.

(** Reading a document in best-station mode. *)
Definition read_best (p : reading) (m : climate_map) : result climate_map :=
  scrape_document (reading_city p) (reading_row p) (reading_year p)
    (reading_month p) (reading_url p) false (reading_caption_text p)
    (reading_soup p) m.

End Settled.

(** A record whose city and province have an apostrophe. *)
Definition apostrophe_record : ClimateData_of cfloat :=
  {| cd_fields := march_fields;
     cd_values :=
       [VStr "St. John's"; VStr "O'Brien"; VInt 0; VStr ""; VInt 2019; VInt 3;
        VInt 1; VInt 4; VStr sample_url] |}.

(** * Properties *)

(** ** Strings *)

Lemma app_cons (a : ascii) (s t : string) : String a s +:+ t = String a (s +:+ t).
Proof. reflexivity. Qed.

Lemma app_nil_l (s : string) : "" +:+ s = s.
Proof. reflexivity. Qed.

Lemma app_nil_r (s : string) : s +:+ "" = s.
Proof. induction s as [|a s IH]; [done|]. by rewrite app_cons, IH. Qed.

Lemma app_assoc_s (s t u : string) : (s +:+ t) +:+ u = s +:+ t +:+ u.
Proof. induction s as [|a s IH]; [done|]. by rewrite !app_cons, IH. Qed.

Lemma length_app_s (s t : string) :
  String.length (s +:+ t) = (String.length s + String.length t)%nat.
Proof. induction s as [|a s IH]; [done|]. rewrite app_cons. simpl. by rewrite IH. Qed.

Lemma substring_all (s t : string) : String.substring 0 (String.length s) (s +:+ t) = s.
Proof. induction s as [|a s IH]; [by destruct t|]. rewrite app_cons. simpl. by rewrite IH. Qed.

Lemma consumed_app (s t : string) : consumed (s +:+ t) t = s.
Proof.
  unfold consumed. rewrite length_app_s.
  replace (String.length s + String.length t - String.length t)%nat
    with (String.length s) by lia.
  apply substring_all.
Qed.

Lemma consumed_cons (a : ascii) (s t : string) :
  (String.length t <= String.length s)%nat ->
  consumed (String a s) t = String a (consumed s t).
Proof.
  intros Hle. unfold consumed. simpl String.length.
  replace (S (String.length s) - String.length t)%nat
    with (S (String.length s - String.length t)) by lia.
  reflexivity.
Qed.

Lemma string_existsb_exists (p : ascii -> bool) (s : string) :
  string_existsb p s = true <->
  exists c, In c (list_ascii_of_string s) /\ p c = true.
Proof.
  induction s as [|a s IH]; simpl.
  - split; [done | by intros (c & [] & _)].
  - rewrite orb_true_iff, IH. split.
    + intros [Ha | (c & Hc & Hp)]; [exists a; auto | exists c; auto].
    + intros (c & [<- | Hc] & Hp); [by left | right; eauto].
Qed.

Lemma string_existsb_app (p : ascii -> bool) (s t : string) :
  string_existsb p (s +:+ t) = string_existsb p s || string_existsb p t.
Proof.
  induction s as [|a s IH]; [done|].
  rewrite app_cons. simpl. by rewrite IH, orb_assoc.
Qed.

Lemma string_forallb_app (p : ascii -> bool) (s t : string) :
  string_forallb p (s +:+ t) = string_forallb p s && string_forallb p t.
Proof.
  induction s as [|a s IH]; [done|].
  rewrite app_cons. simpl. by rewrite IH, andb_assoc.
Qed.

Lemma startswith_app (p s : string) : startswith p (p +:+ s) = true.
Proof.
  induction p as [|a p IH]; [done|].
  rewrite app_cons. simpl. by rewrite Ascii.eqb_refl, IH.
Qed.

Lemma startswith_split (p s : string) :
  startswith p s = true -> exists t, s = p +:+ t.
Proof.
  revert s. induction p as [|a p IH]; intros s Hs.
  - by exists s.
  - destruct s as [|b s]; [done|]. simpl in Hs.
    apply andb_true_iff in Hs as [Hab Hp].
    apply Ascii.eqb_eq in Hab as ->.
    destruct (IH _ Hp) as [t ->]. by exists t.
Qed.

Lemma contains_split (p s : string) :
  contains p s = true <-> exists pre post, s = pre +:+ p +:+ post.
Proof.
  induction s as [|a s IH].
  - simpl. rewrite orb_false_r. split.
    + intros Hp. destruct (startswith_split _ _ Hp) as [t Ht]. by exists "", t.
    + intros (pre & post & Hs). destruct pre; [|done].
      rewrite app_nil_l in Hs. rewrite Hs. apply startswith_app.
  - simpl. rewrite orb_true_iff, IH. split.
    + intros [Hp | (pre & post & ->)].
      * destruct (startswith_split _ _ Hp) as [t Ht]. by exists "", t.
      * by exists (String a pre), post.
    + intros (pre & post & Hs). destruct pre as [|b pre].
      * left. rewrite app_nil_l in Hs. rewrite Hs. apply startswith_app.
      * right. rewrite app_cons in Hs. injection Hs as _ ->. eauto.
Qed.

Lemma concat_empty_cons (x : string) (l : list string) :
  String.concat "" (x :: l) = x +:+ String.concat "" l.
Proof. destruct l; simpl; [by rewrite app_nil_r | done]. Qed.

(** Stripping keeps the ASCII characters and nothing else. *)
Lemma replace_all_non_ASCII_filter `{PyRuntime} (s : string) :
  replace_all_non_ASCII (RawStr s) "" = RawStr (string_filter is_ascii s).
Proof.
  unfold replace_all_non_ASCII. f_equal.
  induction s as [|a s IH]; [done|].
  cbn [list_ascii_of_string map string_filter].
  rewrite concat_empty_cons, IH. by destruct (is_ascii a).
Qed.

Lemma string_filter_forall (p : ascii -> bool) (s : string) :
  string_forallb p (string_filter p s) = true.
Proof.
  induction s as [|a s IH]; [done|].
  simpl. destruct (p a) eqn:Hp; [|done]. simpl. by rewrite Hp.
Qed.

(** ** Dictionaries and loops *)

Section DictFacts.
Context {K V : Type} `{EqDecision K}.
Implicit Types (d : dict K V) (k : K) (v : V).

Lemma dict_get_set_eq d k v : dict_get k (dict_set k v d) = Some v.
Proof.
  induction d as [|[k' v'] d IH]; simpl.
  - by rewrite decide_True.
  - destruct (decide (k = k')) as [->|Hne]; simpl.
    + by rewrite decide_True.
    + by rewrite decide_False.
Qed.

Lemma dict_get_set_ne d k k' v : k' <> k -> dict_get k' (dict_set k v d) = dict_get k' d.
Proof.
  intros Hne. induction d as [|[k1 v1] d IH]; simpl.
  - by rewrite decide_False.
  - destruct (decide (k = k1)) as [->|Hk]; simpl.
    + by rewrite !decide_False.
    + by rewrite IH.
Qed.

Lemma dict_get_Some_elem d k v : dict_get k d = Some v -> (k, v) ∈ d.
Proof.
  induction d as [|[k' v'] d IH]; simpl; [done|].
  destruct (decide (k = k')) as [->|Hne].
  - intros [= ->]. left.
  - intros Hd. right. auto.
Qed.

Lemma dict_get_None_keys d k : dict_get k d = None <-> k ∉ dict_keys d.
Proof.
  induction d as [|[k' v'] d IH]; simpl.
  - split; [intros _; apply not_elem_of_nil | done].
  - rewrite not_elem_of_cons. destruct (decide (k = k')) as [->|Hne].
    + split; [done | by intros []].
    + rewrite IH. tauto.
Qed.

Lemma dict_set_keys_present d k v :
  k ∈ dict_keys d -> dict_keys (dict_set k v d) = dict_keys d.
Proof.
  induction d as [|[k' v'] d IH]; simpl.
  - intros Hk. by apply elem_of_nil in Hk.
  - intros Hk. destruct (decide (k = k')) as [->|Hne]; simpl; [done|].
    f_equal. apply IH. apply elem_of_cons in Hk as [?|?]; done.
Qed.

Lemma dict_set_keys_absent d k v :
  k ∉ dict_keys d -> dict_keys (dict_set k v d) = dict_keys d ++ [k].
Proof.
  induction d as [|[k' v'] d IH]; simpl; [done|].
  intros Hk. apply not_elem_of_cons in Hk as [Hne Hk].
  rewrite decide_False by done. simpl. f_equal. by apply IH.
Qed.

(** Assignment keeps the keys of a dict distinct. *)
Lemma dict_set_NoDup d k v : NoDup (dict_keys d) -> NoDup (dict_keys (dict_set k v d)).
Proof.
  intros Hnd. destruct (decide (k ∈ dict_keys d)) as [Hin|Hout].
  - by rewrite dict_set_keys_present.
  - rewrite dict_set_keys_absent by done.
    apply NoDup_app. split_and!; [done | | apply NoDup_singleton].
    intros x Hx Hx'. apply list_elem_of_singleton in Hx' as ->. done.
Qed.

Lemma dict_set_elem d k v k' v' :
  (k', v') ∈ dict_set k v d -> (k', v') = (k, v) \/ (k', v') ∈ d.
Proof.
  induction d as [|[k1 v1] d IH]; simpl.
  - intros Hin. apply list_elem_of_singleton in Hin. by left.
  - destruct (decide (k = k1)) as [->|Hne].
    + intros Hin. apply elem_of_cons in Hin as [Hin|Hin]; [by left|].
      right. by right.
    + intros Hin. apply elem_of_cons in Hin as [Hin|Hin].
      * right. rewrite Hin. left.
      * destruct (IH Hin) as [?|?]; [by left | right; by right].
Qed.

End DictFacts.

Section Loops.
Context {A S : Type}.

(** A property of the state that every iteration keeps holds when the loop
    ends without an exception. *)
Lemma for_each_invariant (P : S -> Prop) (body : A -> S -> result S) (l : list A) :
  (forall x s s', x ∈ l -> P s -> body x s = inr s' -> P s') ->
  forall s s', P s -> for_each body l s = inr s' -> P s'.
Proof.
  induction l as [|x l IH]; intros Hbody s s' Hs Hrun; simpl in Hrun.
  - by injection Hrun as <-.
  - destruct (body x s) as [e|s1] eqn:Hx; [done|]. simpl in Hrun.
    apply (IH (fun y t t' Hy => Hbody y t t' (list_elem_of_further _ _ _ Hy)) s1 s');
      [|done].
    eapply Hbody; [left | done | done].
Qed.

(** Iterations that leave the state alone can be skipped. *)
Lemma for_each_filter (p : A -> bool) (body : A -> S -> result S) (l : list A) (s : S) :
  for_each (fun x s => if p x then body x s else inr s) l s
  = for_each body (List.filter p l) s.
Proof.
  revert s. induction l as [|x l IH]; intros s; [done|].
  simpl. destruct (p x); simpl; [|apply IH].
  destruct (body x s); simpl; [done | apply IH].
Qed.

End Loops.

(** ** Value predicates *)

Section ValueFacts.
Context `{PyRuntime}.

Lemma is_non_zero_numeric_value_spec (v : value) :
  is_non_zero_numeric_value v = true <-> non_zero_number v.
Proof.
  unfold is_non_zero_numeric_value. destruct v as [n|f|s]; simpl.
  - rewrite negb_true_iff, Z.eqb_neq. done.
  - by rewrite negb_true_iff.
  - split; [done | intros []].
Qed.

(** C6: [has_non_zero_digits] holds of a value exactly when it is a number
    other than zero or its string form has a digit other than ['0']; it is
    false of [0] and of ["a0b"], true of ["a1b"] and of [5]. *)
Theorem has_non_zero_digits_spec :
  (forall v : value,
     has_non_zero_digits v = true <->
     non_zero_number v \/
     exists c, In c (list_ascii_of_string (py_str v))
               /\ isdigit c = true /\ c <> "0"%char)
  /\ has_non_zero_digits (VInt 0) = false
  /\ has_non_zero_digits (VStr "a0b") = false
  /\ has_non_zero_digits (VStr "a1b") = true
  /\ has_non_zero_digits (VInt 5) = true.
Proof.
  split; [|repeat split; reflexivity].
  intros v. unfold has_non_zero_digits.
  rewrite orb_true_iff, is_non_zero_numeric_value_spec, string_existsb_exists.
  apply or_iff_compat_l. split.
  - intros (c & Hin & Hc). apply andb_true_iff in Hc as [Hd Hz].
    exists c. split_and!; [done..|].
    intros ->. by rewrite Ascii.eqb_refl in Hz.
  - intros (c & Hin & Hd & Hz). exists c. split; [done|].
    rewrite Hd. simpl. apply negb_true_iff. by apply Ascii.eqb_neq.
Qed.

End ValueFacts.

(** ** Reconciliation *)

Section Reconciliation.
Context `{PyRuntime}.

Lemma namedtuple_make_ok (fields : list string) (row_data : list value) :
  length row_data = length fields ->
  namedtuple_make fields row_data
  = inr {| cd_fields := fields; cd_values := row_data |}.
Proof. intros Hlen. unfold namedtuple_make. by rewrite Hlen, Nat.eqb_refl. Qed.

(** C1: in best-station mode a record whose date has no record yet is
    inserted; when one exists the new record replaces it exactly when its
    richness, the number of its values with a non-zero digit, is strictly
    larger, and otherwise the map is left as it is, so that the earlier
    record wins a tie; no other key changes and the keys stay distinct. *)
Theorem store_best_spec (fields : list string) (key : map_key)
    (row_data : list value) (m : climate_map) :
  length row_data = length fields ->
  let new := {| cd_fields := fields; cd_values := row_data |} in
  exists m',
    store_best fields key row_data m = inr m'
    /\ (dict_get key m = None -> dict_get key m' = Some new)
    /\ (forall current, dict_get key m = Some current ->
          (richness (cd_values current) < richness row_data)%nat ->
          dict_get key m' = Some new)
    /\ (forall current, dict_get key m = Some current ->
          (richness row_data <= richness (cd_values current))%nat ->
          m' = m /\ dict_get key m' = Some current)
    /\ (forall k, k <> key -> dict_get k m' = dict_get k m)
    /\ (NoDup (dict_keys m) -> NoDup (dict_keys m')).
Proof.
  intros Hlen new. unfold store_best.
  rewrite (namedtuple_make_ok _ _ Hlen). fold new. simpl.
  destruct (dict_get key m) as [current|] eqn:Hget.
  - destruct (richness (cd_values current) <? richness row_data)%nat eqn:Hcmp.
    + apply Nat.ltb_lt in Hcmp. exists (dict_set key new m). split_and!.
      * done.
      * done.
      * intros. apply dict_get_set_eq.
      * intros c [= <-] Hle. lia.
      * intros k Hk. by apply dict_get_set_ne.
      * apply dict_set_NoDup.
    + apply Nat.ltb_ge in Hcmp. exists m. split_and!; try done.
      * intros c [= <-] Hlt. lia.
      * intros c [= <-] _. done.
  - exists (dict_set key new m). split_and!; try done.
    + intros. apply dict_get_set_eq.
    + intros k Hk. by apply dict_get_set_ne.
    + apply dict_set_NoDup.
Qed.

End Reconciliation.

(** Of two records for one date with three and five such values the second
    replaces the first, whichever comes first; a record never replaces one
    of equal richness. *)
Example store_best_three_five :
  richness (H := cpython) sample_poor = 3%nat /\ richness (H := cpython) sample_rich = 5%nat
  /\ store_best (H := cpython) sample_fields (date_key 2019 3 1) sample_rich sample_map
     = inr [(date_key 2019 3 1,
             {| cd_fields := sample_fields; cd_values := sample_rich |})]
  /\ store_best (H := cpython) sample_fields (date_key 2019 3 1) sample_poor
       [(date_key 2019 3 1,
         {| cd_fields := sample_fields; cd_values := sample_rich |})]
     = inr [(date_key 2019 3 1,
             {| cd_fields := sample_fields; cd_values := sample_rich |})]
  /\ store_best (H := cpython) sample_fields (date_key 2019 3 1)
       [VInt 2019; VInt 3; VInt 1; VInt 0; VStr "x"] sample_map
     = inr sample_map.
Proof. repeat split; vm_compute; reflexivity. Qed.

Lemma store_best_spec_witness :
  length sample_rich = length sample_fields
  /\ exists m',
       store_best (H := cpython) sample_fields (date_key 2019 3 1) sample_rich sample_map = inr m'
       /\ dict_get (date_key 2019 3 1) m'
          = Some {| cd_fields := sample_fields; cd_values := sample_rich |}.
Proof.
  split; [reflexivity|].
  destruct (store_best_spec (H := cpython) sample_fields (date_key 2019 3 1) sample_rich
              sample_map eq_refl) as (m' & Hrun & _ & Hricher & _).
  exists m'. split; [exact Hrun|].
  apply (Hricher {| cd_fields := sample_fields; cd_values := sample_poor |}).
  - reflexivity.
  - vm_compute. lia.
Defined.

(** ** The matcher on the patterns of the scraper *)

Section Matcher.
Context {R : Type}.
Implicit Types (k : string -> captures -> option R) (c : captures).

Lemma backtrack_Lit_app (p rest : string) c k :
  backtrack (Lit p) (p +:+ rest) c k = k rest c.
Proof.
  induction p as [|a p IH]; [done|].
  rewrite app_cons. simpl. by rewrite Ascii.eqb_refl.
Qed.

Lemma backtrack_Lit_none (p s : string) c k :
  startswith p s = false -> backtrack (Lit p) s c k = None.
Proof.
  revert s. induction p as [|a p IH]; intros s Hs; [done|].
  destruct s as [|b s]; [done|]. simpl in *.
  destruct (Ascii.eqb a b); [|done]. by apply IH.
Qed.

End Matcher.

(** A literal is found in a string exactly when it occurs in it. *)
Lemma re_match_Lit (p s : string) :
  bool_decide (is_Some (re_match (Lit p) s)) = startswith p s.
Proof.
  unfold re_match. destruct (startswith p s) eqn:Hp.
  - destruct (startswith_split _ _ Hp) as [t ->].
    rewrite backtrack_Lit_app. by apply bool_decide_eq_true.
  - rewrite backtrack_Lit_none by done. apply bool_decide_eq_false.
    by intros [? ?].
Qed.

Lemma str_contains_spec (pat name : string) :
  str_contains pat name = contains pat name.
Proof.
  unfold str_contains. induction name as [|a s IH]; simpl.
  - by rewrite re_match_Lit.
  - by rewrite re_match_Lit, IH.
Qed.

(** ** Station resolution *)

Lemma station_query_spec (city province : string) (row : station) :
  station_query city province row = true <->
  (Name row = upper city
   \/ exists pre post, Name row = pre +:+ upper city +:+ " " +:+ post)
  /\ (province = "" \/ Province row = upper province).
Proof.
  unfold station_query.
  rewrite andb_true_iff, orb_true_iff, str_contains_spec, contains_split,
    String.eqb_eq.
  assert ((if String.eqb province "" then true
           else String.eqb (Province row) (upper province)) = true
          <-> province = "" \/ Province row = upper province) as ->.
  { destruct (String.eqb_spec province "") as [->|Hne].
    - split; [by left | done].
    - rewrite String.eqb_eq. split; [by right | by intros [?|?]]. }
  split.
  - intros [[(pre & post & Hn) | Hn] Hp]; split; try done.
    + right. exists pre, post. by rewrite Hn, app_assoc_s.
    + by left.
  - intros [[Hn | (pre & post & Hn)] Hp]; split; try done.
    + by right.
    + left. exists pre, post. by rewrite Hn, app_assoc_s.
Qed.

(** C2 as amended: for a query in plain characters the stations returned
    are exactly the rows of the inventory whose name is the upper-cased city
    or contains the upper-cased city followed by a space, at any position,
    and whose province is the upper-cased province when one is given. *)
Theorem get_station_data_filter (data : list station) (city province : string)
    (city_data : list station) :
  plain_text city = true ->
  plain_text province = true ->
  get_station_data data city province = inr city_data ->
  forall row,
    row ∈ city_data <->
    row ∈ data
    /\ (Name row = upper city
        \/ exists pre post, Name row = pre +:+ upper city +:+ " " +:+ post)
    /\ (province = "" \/ Province row = upper province).
Proof.
  intros _ _ Hget row. unfold get_station_data in Hget.
  destruct (length _ <=? 0)%nat; [done|]. injection Hget as <-.
  rewrite list_elem_of_filter, station_query_spec. tauto.
Qed.

(** Station resolution for a city and a province in plain characters: it
    raises [NoLocationFoundError] exactly when no row passes the filter,
    which is the case when no row matches the city and when a province is
    given that no row has; when it returns, the stations returned are the
    rows that pass, and there is at least one.  Outside plain characters the
    city is spliced into the query as a regular expression and as query
    text, which [get_station_data] here does not describe: a city such as
    ["["] makes the query itself raise. *)
Theorem get_station_data_error (data : list station) (city province : string) :
  plain_text city = true ->
  plain_text province = true ->
  let passing := filter (fun row => station_query city province row = true) data in
  (get_station_data data city province = inl NoLocationFoundError <-> passing = [])
  /\ (forall e, get_station_data data city province = inl e -> e = NoLocationFoundError)
  /\ ((forall row, row ∈ data ->
         Name row <> upper city
         /\ forall pre post, Name row <> pre +:+ upper city +:+ " " +:+ post) ->
      get_station_data data city province = inl NoLocationFoundError)
  /\ (province <> "" ->
      (forall row, row ∈ data -> Province row <> upper province) ->
      get_station_data data city province = inl NoLocationFoundError)
  /\ (forall city_data,
        get_station_data data city province = inr city_data ->
        city_data = passing /\ city_data <> []).
Proof.
  intros _ _ passing.
  assert (Hrun : get_station_data data city province
                 = match passing with [] => inl NoLocationFoundError | _ => inr passing end).
  { unfold get_station_data. fold passing. by destruct passing. }
  assert (Hnone : (forall row, row ∈ data -> station_query city province row <> true)
                  -> passing = []).
  { intros Hno. apply elem_of_nil_inv. intros row Hrow.
    apply list_elem_of_filter in Hrow as [Hq Hin]. by apply (Hno row). }
  split_and!.
  - rewrite Hrun. destruct passing; [done|]. split; done.
  - intros e. rewrite Hrun. destruct passing; [by intros [= <-] | done].
  - intros Hno. rewrite Hrun, Hnone; [done|].
    intros row Hin Hq. apply station_query_spec in Hq as [Hname _].
    destruct (Hno row Hin) as [Heq Hsub].
    destruct Hname as [?|(pre & post & ?)]; [done | by eapply Hsub].
  - intros Hprov Hno. rewrite Hrun, Hnone; [done|].
    intros row Hin Hq. apply station_query_spec in Hq as [_ [?|?]]; [done|].
    by eapply Hno.
  - intros city_data. rewrite Hrun. destruct passing eqn:Hp; [done|].
    intros [= <-]. done.
Qed.

(** A station whose name has the city in the middle is returned, although
    the name neither is the city nor starts with it. *)
Lemma get_station_data_inner_match :
  get_station_data sample_inventory "York" "" = inr [station_north_york]
  /\ name_is_or_starts_with "York" (Name station_north_york) = false.
Proof. split; vm_compute; reflexivity. Qed.

Lemma get_station_data_filter_witness :
  plain_text "Toronto" = true
  /\ plain_text "Ontario" = true
  /\ get_station_data sample_inventory "Toronto" "Ontario" = inr [station_toronto_city]
  /\ forall row,
       row ∈ [station_toronto_city] <->
       row ∈ sample_inventory
       /\ (Name row = upper "Toronto"
           \/ exists pre post, Name row = pre +:+ upper "Toronto" +:+ " " +:+ post)
       /\ ("Ontario" = "" \/ Province row = upper "Ontario").
Proof.
  split; [reflexivity|]. split; [reflexivity|]. split; [reflexivity|].
  apply (get_station_data_filter sample_inventory "Toronto" "Ontario");
    reflexivity.
Defined.

Lemma get_station_data_error_witness :
  plain_text "Toronto" = true
  /\ plain_text "Quebec" = true
  /\ get_station_data sample_inventory "Toronto" "Quebec" = inl NoLocationFoundError.
Proof.
  split; [reflexivity|]. split; [reflexivity|].
  destruct (get_station_data_error sample_inventory "Toronto" "Quebec"
              eq_refl eq_refl) as (_ & _ & _ & Hprovince & _).
  apply Hprovince.
  - discriminate.
  - intros row Hrow.
    apply elem_of_cons in Hrow as [->|Hrow]; [discriminate|].
    apply list_elem_of_singleton in Hrow as ->. discriminate.
Defined.

(** ** The legend pattern and the digits pattern *)

Lemma span_app (p : ascii -> bool) (s : string) :
  s = (span p s).1 +:+ (span p s).2.
Proof.
  induction s as [|a s IH]; [done|]. simpl.
  destruct (p a); [|done]. destruct (span p s) as [u v]. simpl in *.
  by rewrite app_cons, <- IH.
Qed.

Lemma span_all (p : ascii -> bool) (s : string) :
  string_forallb p (span p s).1 = true.
Proof.
  induction s as [|a s IH]; [done|]. simpl.
  destruct (p a) eqn:Hp; [|done]. destruct (span p s) as [u v]. simpl in *.
  by rewrite Hp.
Qed.

Lemma span_rest (p : ascii -> bool) (s : string) :
  match (span p s).2 with
  | String a _ => p a = false
  | EmptyString => True
  end.
Proof.
  induction s as [|a s IH]; [done|]. simpl.
  destruct (p a) eqn:Hp; [|done]. by destruct (span p s) as [u v].
Qed.

Lemma span_length (p : ascii -> bool) (s : string) :
  (String.length (span p s).2 <= String.length s)%nat.
Proof.
  rewrite (span_app p s) at 2. rewrite length_app_s. lia.
Qed.

(** The longest prefix in the class followed by [rest], when [rest] does not
    go on in the class. *)
Lemma span_app_stop (p : ascii -> bool) (u rest : string) :
  string_forallb p u = true ->
  match rest with String a _ => p a = false | EmptyString => True end ->
  span p (u +:+ rest) = (u, rest).
Proof.
  intros Hu Hrest. induction u as [|a u IH].
  - rewrite app_nil_l. destruct rest as [|a rest]; [done|].
    simpl. by rewrite Hrest.
  - simpl in Hu. apply andb_true_iff in Hu as [Ha Hu].
    rewrite app_cons. simpl. by rewrite Ha, (IH Hu).
Qed.

Section StarFacts.
Context {R : Type}.
Implicit Types (k : string -> captures -> option R) (c : captures).

Lemma absorbs_prefix (p : ascii -> bool) k (u t : string) c :
  absorbs p k -> string_forallb p u = true -> k t c = None -> k (u +:+ t) c = None.
Proof.
  intros Habs Hu Ht. induction u as [|a u IH]; [done|].
  simpl in Hu. apply andb_true_iff in Hu as [Ha Hu].
  rewrite app_cons. apply Habs; auto.
Qed.

(** A greedy star over a class gives up characters only if the
    continuation fails; with a continuation that absorbs the class it comes
    down to the continuation after the longest run. *)
Lemma backtrack_Star_Cls (p : ascii -> bool) k (s : string) c :
  absorbs p k ->
  backtrack (Star (Cls p)) s c k = k (span p s).2 c.
Proof.
  intros Habs. cbn [backtrack].
  match goal with |- ?f (String.length s) s c = _ => set (loop := f) end.
  assert (Hloop : forall fuel s c,
             (String.length s <= fuel)%nat -> loop fuel s c = k (span p s).2 c).
  { clear s c. induction fuel as [|fuel IH]; intros s c Hlen.
    - destruct s; [done | simpl in Hlen; lia].
    - destruct s as [|a s]; [done|].
      cbn [loop]. fold loop. simpl in Hlen.
      simpl span. destruct (p a) eqn:Hp; [|done].
      assert ((String.length s <? String.length (String a s))%nat = true) as ->
        by (apply Nat.ltb_lt; simpl; lia).
      rewrite IH by lia.
      destruct (span p s) as [u v] eqn:Hspan. simpl.
      destruct (k v c) as [r|] eqn:Hk; [done|]. simpl.
      pose proof (span_app p s) as Hs. pose proof (span_all p s) as Hu.
      rewrite Hspan in Hs, Hu. simpl in Hs, Hu. rewrite Hs.
      apply Habs; [done|]. by apply (absorbs_prefix p). }
  by apply Hloop.
Qed.

Lemma backtrack_LazyStar_Cls (p : ascii -> bool) k (s : string) c :
  backtrack (LazyStar (Cls p)) s c k = lazy_scan p k s c.
Proof.
  cbn [backtrack].
  match goal with |- ?f (String.length s) s c = _ => set (loop := f) end.
  assert (Hloop : forall fuel s c,
             (String.length s <= fuel)%nat -> loop fuel s c = lazy_scan p k s c).
  { clear s c. induction fuel as [|fuel IH]; intros s c Hlen.
    - destruct s; [done | simpl in Hlen; lia].
    - destruct s as [|a s]; [done|].
      cbn [loop]. fold loop. simpl in Hlen. cbn [lazy_scan].
      destruct (p a) eqn:Hp; [|done].
      assert ((String.length s <? String.length (String a s))%nat = true) as ->
        by (apply Nat.ltb_lt; simpl; lia).
      by rewrite IH by lia. }
  by apply Hloop.
Qed.

End StarFacts.

Section Unfold.
Context {R : Type}.
Implicit Types (k : string -> captures -> option R) (c : captures).

Lemma backtrack_Cat (r1 r2 : regex) (s : string) c k :
  backtrack (Cat r1 r2) s c k
  = backtrack r1 s c (fun s' c' => backtrack r2 s' c' k).
Proof. reflexivity. Qed.

Lemma backtrack_Grp (i : nat) (r : regex) (s : string) c k :
  backtrack (Grp i r) s c k
  = backtrack r s c (fun s' c' => k s' ((i, consumed s s') :: c')).
Proof. reflexivity. Qed.

Lemma backtrack_Opt (r : regex) (s : string) c k :
  backtrack (Opt r) s c k = orelse (backtrack r s c k) (k s c).
Proof. reflexivity. Qed.

Lemma backtrack_Cls (p : ascii -> bool) (s : string) c k :
  backtrack (Cls p) s c k
  = match s with
    | String b s' => if p b then k s' c else None
    | EmptyString => None
    end.
Proof. reflexivity. Qed.

Lemma backtrack_Chr (a : ascii) (s : string) c k :
  backtrack (Chr a) s c k
  = match s with
    | String b s' => if Ascii.eqb a b then k s' c else None
    | EmptyString => None
    end.
Proof. reflexivity. Qed.

End Unfold.

Lemma legend_on_line_absorb (a : ascii) (t : string) :
  is_decimal a = true \/ a = "."%char ->
  legend_on_line (String a t) = legend_on_line t.
Proof.
  intros Ha. cbn [legend_on_line].
  assert (startswith "Legend" (String a t) = false) as ->.
  { change (startswith "Legend" (String a t))
      with (Ascii.eqb "L" a && startswith "egend" t).
    destruct (Ascii.eqb_spec "L"%char a) as [<-|]; [|done].
    by destruct Ha as [Ha|Ha]. }
  assert (dot_char a = true) as ->; [|done].
  unfold dot_char. apply negb_true_iff, Ascii.eqb_neq. intros ->.
  by destruct Ha as [Ha|Ha].
Qed.

(** The part of the pattern after the number matches at [t] exactly when
    ["Legend"] follows on the line; it leaves group 1 as it is. *)
Lemma legend_tail_spec (t : string) (c : captures) :
  match backtrack legend_tail t c (fun rest c' => Some (c', rest)) with
  | Some (c', _) => legend_on_line t = true /\ group 1 c' = group 1 c
  | None => legend_on_line t = false
  end.
Proof.
  unfold legend_tail.
  rewrite backtrack_Cat, backtrack_Grp, backtrack_LazyStar_Cls.
  generalize t at 1. intros t0. induction t as [|a t IH].
  - cbn [lazy_scan]. rewrite backtrack_Cat, backtrack_Lit_none by done. done.
  - cbn [lazy_scan legend_on_line]. rewrite backtrack_Cat.
    destruct (startswith "Legend" (String a t)) eqn:Hstart.
    + destruct (startswith_split _ _ Hstart) as [rest Hrest]. rewrite Hrest.
      rewrite backtrack_Lit_app, backtrack_Grp, backtrack_LazyStar_Cls.
      destruct rest; simpl; done.
    + rewrite backtrack_Lit_none by done. simpl orelse. simpl orb.
      destruct (dot_char a); [apply IH | done].
Qed.

Section NumberPattern.
Context {R : Type}.
Variable K : string -> captures -> option R.
Variable ok : string -> bool.

(** The continuation succeeds at the positions that are [ok], whatever the
    captures, and a digit or a point before a position does not change
    whether it is [ok]. *)
Hypothesis K_none : forall t c, ok t = false -> K t c = None.
Hypothesis K_some : forall t c, ok t = true -> is_Some (K t c).
Hypothesis ok_absorb :
  forall a t, is_decimal a = true \/ a = "."%char -> ok (String a t) = ok t.

Lemma ok_absorb_run (u t : string) :
  string_forallb is_decimal u = true -> ok (u +:+ t) = ok t.
Proof.
  intros Hu. induction u as [|a u IH]; [done|].
  simpl in Hu. apply andb_true_iff in Hu as [Ha Hu].
  rewrite app_cons, ok_absorb by auto. auto.
Qed.

Lemma K_absorbs_digits : absorbs is_decimal K.
Proof.
  intros a t c Ha Ht. apply K_none. rewrite ok_absorb by auto.
  destruct (ok t) eqn:Hok; [|done].
  destruct (K_some t c Hok) as [r Hr]. congruence.
Qed.

Lemma backtrack_Plus_digits (s : string) (c : captures) :
  backtrack (Plus (Cls is_decimal)) s c K
  = if String.eqb (span is_decimal s).1 "" then None
    else K (span is_decimal s).2 c.
Proof.
  unfold Plus. rewrite backtrack_Cat, backtrack_Cls.
  destruct s as [|a s]; [done|]. simpl span.
  destruct (is_decimal a); [|done].
  rewrite backtrack_Star_Cls by apply K_absorbs_digits.
  by destruct (span is_decimal s).
Qed.

Lemma backtrack_unsigned (s : string) (c : captures) :
  hands_over K ok
    (Cat (Opt (Grp 2 (Cat (Star (Cls is_decimal)) (Chr "."))))
         (Plus (Cls is_decimal)))
    s c (unsigned_prefix s).
Proof.
  unfold hands_over, unsigned_prefix.
  rewrite backtrack_Cat, backtrack_Opt, backtrack_Grp, backtrack_Cat.
  rewrite backtrack_Star_Cls.
  2:{ intros a t c0 Ha _. rewrite backtrack_Chr.
      destruct (Ascii.eqb_spec "."%char a) as [<-|]; done. }
  rewrite backtrack_Chr, !backtrack_Plus_digits.
  pose proof (span_app is_decimal s) as Hs.
  destruct (span is_decimal s) as [d1 s2]. cbn [fst snd] in *.
  set (second := if String.eqb d1 "" then None else K s2 c).
  assert (Hwhole :
    forall first, first = None ->
    match (if String.eqb d1 "" then None else Some (d1, s2)) with
    | Some (num, rest) =>
        s = num +:+ rest
        /\ if ok rest then exists c', orelse first second = K rest c'
           else orelse first second = None
    | None => orelse first second = None
    end).
  { intros first ->. unfold second. destruct (String.eqb d1 ""); [done|].
    split; [done|]. simpl.
    destruct (ok s2) eqn:Hok; [by exists c | by apply K_none]. }
  destruct s2 as [|b s3]; [by apply Hwhole|].
  destruct (Ascii.eqb_spec "."%char b) as [<-|Hb].
  - rewrite backtrack_Plus_digits.
    pose proof (span_app is_decimal s3) as Hs3.
    pose proof (span_all is_decimal s3) as Hd2.
    destruct (span is_decimal s3) as [d2 s4]. cbn [fst snd] in *.
    destruct (String.eqb d2 ""); [by apply Hwhole|].
    split.
    { rewrite Hs, Hs3. by rewrite !app_assoc_s. }
    destruct (ok s4) eqn:Hok.
    + destruct (K_some s4 ((2%nat, consumed s s3) :: c) Hok) as [r Hr].
      exists ((2%nat, consumed s s3) :: c). by rewrite Hr.
    + rewrite (K_none _ _ Hok). unfold second. simpl.
      destruct (String.eqb d1 ""); [done|]. apply K_none.
      rewrite Hs3, ok_absorb by auto. by rewrite ok_absorb_run.
  - specialize (Hwhole None eq_refl).
    destruct b as [[] [] [] [] [] [] [] []]; try exact Hwhole.
    by destruct Hb.
Qed.

(** The number pattern hands over to its continuation after the longest
    number the string starts with. *)
Lemma backtrack_number_pattern (s : string) (c : captures) :
  hands_over K ok number_pattern s c (numeric_prefix s).
Proof.
  unfold number_pattern. unfold hands_over at 1.
  rewrite backtrack_Cat, backtrack_Opt, backtrack_Cls.
  unfold numeric_prefix. destruct s as [|a s'].
  - apply (backtrack_unsigned "" c).
  - pose proof (backtrack_unsigned (String a s') c) as Hfull.
    destruct (sign_char a) eqn:Hsign; [|exact Hfull].
    assert (unsigned_prefix (String a s') = None) as Hnone.
    { unfold unsigned_prefix. simpl span.
      unfold sign_char in Hsign. apply orb_true_iff in Hsign as [E|E];
        apply Ascii.eqb_eq in E; by subst a. }
    rewrite Hnone in Hfull. unfold hands_over in Hfull. rewrite Hfull.
    pose proof (backtrack_unsigned s' c) as Hrest. unfold hands_over in Hrest.
    destruct (unsigned_prefix s') as [[num rest]|].
    + destruct Hrest as [-> Hrest]. split; [done|].
      destruct (ok rest).
      * destruct Hrest as [c' ->]. exists c'. by destruct (K rest c').
      * by rewrite Hrest.
    + by rewrite Hrest.
Qed.

End NumberPattern.

(** Group 1 of a match of the legend pattern is the longest number the
    string starts with, and there is a match exactly when ["Legend"] follows
    that number on the same line. *)
Lemma legend_number_scan (s : string) :
  legend_number s
  = match numeric_prefix s with
    | Some (num, rest) => if legend_on_line rest then Some num else None
    | None => None
    end.
Proof.
  unfold legend_number, re_match, legend_pattern.
  rewrite backtrack_Cat, backtrack_Grp.
  set (K := fun (s' : string) (c' : captures) =>
              backtrack legend_tail s' ((1%nat, consumed s s') :: c')
                (fun rest c'' => Some (c'', rest))).
  pose proof (backtrack_number_pattern K legend_on_line) as Hnum.
  unfold hands_over in Hnum.
  assert (HK : forall t c,
             match K t c with
             | Some (c', _) => legend_on_line t = true
                               /\ group 1 c' = Some (consumed s t)
             | None => legend_on_line t = false
             end).
  { intros t c. unfold K.
    pose proof (legend_tail_spec t ((1%nat, consumed s t) :: c)) as Ht.
    destruct (backtrack legend_tail t _ _) as [[c' r]|]; [|done].
    destruct Ht as [Hon Hg]. split; [done|]. by rewrite Hg. }
  specialize (Hnum
    ltac:(intros t c Hok; specialize (HK t c); destruct (K t c) as [[c' r]|];
          [destruct HK; congruence | done])
    ltac:(intros t c Hok; specialize (HK t c); destruct (K t c) as [[c' r]|];
          [done | congruence])
    legend_on_line_absorb s []).
  destruct (numeric_prefix s) as [[num rest]|].
  - destruct Hnum as [Hs Hrun]. destruct (legend_on_line rest) eqn:Hon.
    + destruct Hrun as [c' ->]. specialize (HK rest c').
      destruct (K rest c') as [[c1 r1]|]; [|congruence].
      destruct HK as [_ ->]. by rewrite Hs, consumed_app.
    + by rewrite Hrun.
  - by rewrite Hnum.
Qed.

(** *** The scanners, in words *)

Lemma legend_on_line_spec (t : string) :
  legend_on_line t = true <->
  exists mid tail,
    t = mid +:+ "Legend" +:+ tail /\ string_existsb (Ascii.eqb LF) mid = false.
Proof.
  induction t as [|a t IH].
  - split; [done|]. intros (mid & tail & Ht & _). by destruct mid.
  - cbn [legend_on_line]. rewrite orb_true_iff, andb_true_iff, IH. split.
    + intros [Hstart | [Ha (mid & tail & -> & Hmid)]].
      * destruct (startswith_split _ _ Hstart) as [tail Htail].
        exists "", tail. by rewrite Htail.
      * exists (String a mid), tail. split; [done|]. cbn [string_existsb].
        rewrite Hmid, orb_false_r. unfold dot_char in Ha.
        apply negb_true_iff in Ha. by rewrite Ascii.eqb_sym.
    + intros (mid & tail & Ht & Hmid). destruct mid as [|b mid].
      * left. rewrite app_nil_l in Ht. rewrite Ht. apply startswith_app.
      * right. rewrite app_cons in Ht. injection Ht as -> ->.
        cbn [string_existsb] in Hmid. apply orb_false_iff in Hmid as [Hb Hmid].
        split; [|by exists mid, tail].
        unfold dot_char. apply negb_true_iff. by rewrite Ascii.eqb_sym.
Qed.

Lemma legend_on_line_absorb_run (u t : string) :
  string_forallb digit_or_point u = true ->
  legend_on_line (u +:+ t) = legend_on_line t.
Proof.
  intros Hu. induction u as [|a u IH]; [done|].
  simpl in Hu. apply andb_true_iff in Hu as [Ha Hu].
  rewrite app_cons, legend_on_line_absorb, IH; [done..|].
  unfold digit_or_point in Ha. apply orb_true_iff in Ha as [?|Ha]; [by left|].
  right. by apply Ascii.eqb_eq in Ha.
Qed.

Lemma all_decimal_digit_or_point (u : string) :
  string_forallb is_decimal u = true -> string_forallb digit_or_point u = true.
Proof.
  induction u as [|a u IH]; [done|]. cbn [string_forallb].
  intros Hu. apply andb_true_iff in Hu as [Ha Hu].
  rewrite (IH Hu). unfold digit_or_point. by rewrite Ha.
Qed.

Lemma span_digits_app (d x : string) :
  string_forallb is_decimal d = true ->
  span is_decimal (d +:+ x)
  = (d +:+ (span is_decimal x).1, (span is_decimal x).2).
Proof.
  intros Hd. induction d as [|a d IH].
  - rewrite !app_nil_l. by destruct (span is_decimal x).
  - simpl in Hd. apply andb_true_iff in Hd as [Ha Hd].
    rewrite app_cons. simpl. rewrite Ha, (IH Hd). done.
Qed.

Lemma eqb_empty_app (u v : string) :
  u <> "" -> String.eqb (u +:+ v) "" = false.
Proof. destruct u; [done|]. by rewrite app_cons. Qed.

(** What the scanner finds is a number the string starts with. *)
Lemma unsigned_prefix_Some (s num rest : string) :
  unsigned_prefix s = Some (num, rest) ->
  s = num +:+ rest
  /\ exists ip fp,
       num = ip +:+ fp
       /\ (ip = "" \/ exists d, ip = d +:+ "." /\ all_decimal d)
       /\ fp <> "" /\ all_decimal fp.
Proof.
  unfold unsigned_prefix.
  pose proof (span_app is_decimal s) as Hs.
  pose proof (span_all is_decimal s) as Hd1.
  destruct (span is_decimal s) as [d1 s2]. cbn [fst snd] in *.
  assert (Hwhole :
    (if String.eqb d1 "" then None else Some (d1, s2)) = Some (num, rest) ->
    s = num +:+ rest
    /\ exists ip fp,
         num = ip +:+ fp
         /\ (ip = "" \/ exists d, ip = d +:+ "." /\ all_decimal d)
         /\ fp <> "" /\ all_decimal fp).
  { destruct (String.eqb_spec d1 "") as [|Hne]; [done|].
    intros [= <- <-]. split; [done|]. exists "", d1. auto. }
  destruct s2 as [|b s3]; [exact Hwhole|].
  destruct (Ascii.eqb_spec "."%char b) as [<-|Hb].
  - pose proof (span_app is_decimal s3) as Hs3.
    pose proof (span_all is_decimal s3) as Hd2.
    destruct (span is_decimal s3) as [d2 s4]. cbn [fst snd] in *.
    destruct (String.eqb_spec d2 "") as [|Hne]; [exact Hwhole|].
    intros [= <- <-]. split.
    + rewrite Hs, Hs3. by rewrite !app_assoc_s.
    + exists (d1 +:+ "."), d2. rewrite app_assoc_s. split_and!; eauto.
  - destruct b as [[] [] [] [] [] [] [] []]; try exact Hwhole.
    by destruct Hb.
Qed.

Lemma numeric_prefix_Some (s num rest : string) :
  numeric_prefix s = Some (num, rest) -> s = num +:+ rest /\ numeric num.
Proof.
  unfold numeric_prefix, numeric. destruct s as [|a s']; [done|].
  destruct (sign_char a) eqn:Hsign.
  - destruct (unsigned_prefix s') as [[num' rest']|] eqn:Hu; [|done].
    intros [= <- <-].
    destruct (unsigned_prefix_Some _ _ _ Hu) as (-> & ip & fp & -> & Hip & Hfp).
    split; [done|]. exists (String a ""), ip, fp. split_and!; try tauto.
    unfold sign_char in Hsign. apply orb_true_iff in Hsign as [E|E];
      apply Ascii.eqb_eq in E; subst a; auto.
  - intros Hu.
    destruct (unsigned_prefix_Some _ _ _ Hu) as (Hs & ip & fp & -> & Hip & Hfp).
    split; [done|]. exists "", ip, fp. split_and!; try tauto.
Qed.

(** A number the string starts with is a prefix of what the scanner finds,
    and what lies between them is digits and points. *)
Lemma unsigned_prefix_longest (ip fp w : string) :
  (ip = "" \/ exists d, ip = d +:+ "." /\ all_decimal d) ->
  fp <> "" -> all_decimal fp ->
  exists u rest,
    unsigned_prefix (ip +:+ fp +:+ w) = Some (ip +:+ fp +:+ u, rest)
    /\ w = u +:+ rest
    /\ string_forallb digit_or_point u = true.
Proof.
  intros Hip Hfp Hfpd.
  destruct Hip as [-> | (d & -> & Hd)].
  - rewrite app_nil_l. unfold unsigned_prefix.
    rewrite (span_digits_app fp w Hfpd).
    pose proof (span_app is_decimal w) as Hw.
    pose proof (span_all is_decimal w) as Hu.
    pose proof (span_rest is_decimal w) as Hv.
    destruct (span is_decimal w) as [u v]. cbn [fst snd] in *.
    rewrite eqb_empty_app by done.
    assert (Hplain : exists u0 rest,
               Some (fp +:+ u, v) = Some (fp +:+ u0, rest)
               /\ w = u0 +:+ rest /\ string_forallb digit_or_point u0 = true).
    { exists u, v. split_and!; [done..|]. by apply all_decimal_digit_or_point. }
    destruct v as [|b s3]; [exact Hplain|].
    destruct (Ascii.eqb_spec "."%char b) as [<-|Hb].
    + pose proof (span_app is_decimal s3) as Hs3.
      pose proof (span_all is_decimal s3) as Hd2.
      destruct (span is_decimal s3) as [d2 s4]. cbn [fst snd] in *.
      destruct (String.eqb d2 ""); [exact Hplain|].
      exists (u +:+ "." +:+ d2), s4. split_and!.
      * by rewrite !app_assoc_s.
      * rewrite Hw, Hs3. by rewrite !app_assoc_s.
      * rewrite !string_forallb_app, (all_decimal_digit_or_point u Hu),
          (all_decimal_digit_or_point d2 Hd2). reflexivity.
    + destruct b as [[] [] [] [] [] [] [] []]; try exact Hplain.
      by destruct Hb.
  - unfold unsigned_prefix. rewrite !app_assoc_s.
    rewrite (span_digits_app d _ Hd). simpl span. cbn [fst snd].
    rewrite app_nil_r, app_nil_l, (span_digits_app fp w Hfpd).
    pose proof (span_app is_decimal w) as Hw.
    pose proof (span_all is_decimal w) as Hu.
    destruct (span is_decimal w) as [u v]. cbn [fst snd] in *.
    rewrite eqb_empty_app by done.
    exists u, v. split_and!; [|done|by apply all_decimal_digit_or_point].
    by rewrite !app_assoc_s.
Qed.

Lemma numeric_prefix_unsigned (s : string) (r : string * string) :
  unsigned_prefix s = Some r -> numeric_prefix s = Some r.
Proof.
  destruct s as [|a s']; [done|]. intros Hu. unfold numeric_prefix.
  destruct (sign_char a) eqn:Hsign; [|done].
  exfalso. revert Hu. unfold unsigned_prefix. simpl span.
  unfold sign_char in Hsign. apply orb_true_iff in Hsign as [E|E];
    apply Ascii.eqb_eq in E; by subst a.
Qed.

Lemma numeric_prefix_longest (num w : string) :
  numeric num ->
  exists u rest,
    numeric_prefix (num +:+ w) = Some (num +:+ u, rest)
    /\ w = u +:+ rest
    /\ string_forallb digit_or_point u = true.
Proof.
  intros (sg & ip & fp & -> & Hsg & Hip & Hfp & Hfpd).
  destruct (unsigned_prefix_longest ip fp w Hip Hfp Hfpd)
    as (u & rest & Hscan & Hw & Hu).
  exists u, rest. split_and!; [|done..].
  rewrite !app_assoc_s. destruct Hsg as [-> | [-> | ->]].
  - rewrite !app_nil_l. by apply numeric_prefix_unsigned.
  - rewrite !app_cons, !app_nil_l. unfold numeric_prefix.
    change (sign_char "+") with true. cbv iota. by rewrite Hscan.
  - rewrite !app_cons, !app_nil_l. unfold numeric_prefix.
    change (sign_char "-") with true. cbv iota. by rewrite Hscan.
Qed.

(** The legend pattern, in words: there is a match exactly when the string
    starts with a number that ["Legend"] follows on the same line, and group
    1 is then the longest such number. *)
Lemma legend_number_spec (t : string) :
  ((exists num, legend_follows_on_line t num) ->
   exists num,
     legend_number t = Some num
     /\ legend_follows_on_line t num
     /\ forall num', legend_follows_on_line t num' ->
                     (String.length num' <= String.length num)%nat)
  /\ ((~ exists num, legend_follows_on_line t num) -> legend_number t = None).
Proof.
  rewrite legend_number_scan.
  assert (Hfound : forall num rest,
            numeric_prefix t = Some (num, rest) -> legend_on_line rest = true ->
            legend_follows_on_line t num).
  { intros num rest Hscan Hon.
    destruct (numeric_prefix_Some _ _ _ Hscan) as [-> Hnum].
    apply legend_on_line_spec in Hon as (mid & tail & -> & Hmid).
    split; [done|]. by exists mid, tail. }
  assert (Hlongest : forall num',
            legend_follows_on_line t num' ->
            exists num rest,
              numeric_prefix t = Some (num, rest) /\ legend_on_line rest = true
              /\ (String.length num' <= String.length num)%nat).
  { intros num' (Hnum & mid & tail & -> & Hmid).
    destruct (numeric_prefix_longest num' (mid +:+ "Legend" +:+ tail) Hnum)
      as (u & rest & Hscan & Hw & Hu).
    exists (num' +:+ u), rest. split_and!; [done| |rewrite length_app_s; lia].
    rewrite <- (legend_on_line_absorb_run u rest Hu), <- Hw.
    apply legend_on_line_spec. by exists mid, tail. }
  split.
  - intros (num' & Hnum').
    destruct (Hlongest num' Hnum') as (num & rest & Hscan & Hon & _).
    rewrite Hscan, Hon. exists num. split_and!; [done|by eapply Hfound|].
    intros num2 Hnum2.
    destruct (Hlongest num2 Hnum2) as (num3 & rest3 & Hscan3 & _ & Hle).
    rewrite Hscan in Hscan3. by injection Hscan3 as <- <-.
  - intros Hno. destruct (numeric_prefix t) as [[num rest]|] eqn:Hscan; [|done].
    destruct (legend_on_line rest) eqn:Hon; [|done].
    destruct Hno. exists num. by eapply Hfound.
Qed.

(** ** Coercion *)

Section Coercion.
Context `{PyRuntime}.

(** What coercion computes: it leaves an integer as it is; of a string it
    first keeps the ASCII characters only, then returns the integer the text
    parses to, else the float it parses to, else, when the text starts with
    a number that the marker ["Legend"] follows on the same line, the longest
    such number as a string, and else the stripped text.  The marker is
    looked for with [.], which stops at a newline. *)
Theorem try_to_convert_to_numeric_spec :
  (forall n, try_to_convert_to_numeric (RawInt n) = VInt n)
  /\ forall s,
       let t := string_filter is_ascii s in
       let converted := try_to_convert_to_numeric (RawStr s) in
       string_forallb is_ascii t = true
       /\ (forall n, int_of_str t = Some n -> converted = VInt n)
       /\ (forall f, int_of_str t = None -> float_of_str t = Some f ->
                     converted = VFloat f)
       /\ (int_of_str t = None -> float_of_str t = None ->
           ((exists num, legend_follows_on_line t num) ->
            exists num,
              converted = VStr num
              /\ legend_follows_on_line t num
              /\ forall num', legend_follows_on_line t num' ->
                              (String.length num' <= String.length num)%nat)
           /\ ((~ exists num, legend_follows_on_line t num) ->
               converted = VStr t)).
Proof.
  split; [done|]. intros s t converted.
  assert (Hconv : converted
                  = match int_of_str t with
                    | Some n => VInt n
                    | None =>
                        match float_of_str t with
                        | Some f => VFloat f
                        | None =>
                            match legend_number t with
                            | Some num => VStr num
                            | None => VStr t
                            end
                        end
                    end).
  { unfold converted, try_to_convert_to_numeric.
    by rewrite replace_all_non_ASCII_filter. }
  split_and!.
  - apply string_filter_forall.
  - intros n Hn. by rewrite Hconv, Hn.
  - intros f Hn Hf. by rewrite Hconv, Hn, Hf.
  - intros Hn Hf. rewrite Hconv, Hn, Hf.
    destruct (legend_number_spec t) as [Hsome Hnone]. split.
    + intros Hex. destruct (Hsome Hex) as (num & -> & Hnum). by exists num.
    + intros Hno. by rewrite (Hnone Hno).
Qed.

End Coercion.

(** C5: coercion at the cell text of a number, a newline and the marker.
    The text parses neither as an integer nor as a float and starts with the
    number 12, which ["Legend"] follows; coercion returns the text as it is,
    and not that number, nor any other number the marker follows.  The
    comment of the code (lines 92-93) and the specification ask for the
    number whenever the marker follows: the pattern misses the case because
    its [.] does not match a newline. *)
Lemma try_to_convert_to_numeric_newline :
  @int_of_str cpython number_newline_legend = None
  /\ @float_of_str cpython number_newline_legend = None
  /\ legend_follows number_newline_legend "12"
  /\ try_to_convert_to_numeric (H := cpython) (RawStr number_newline_legend)
     = VStr number_newline_legend
  /\ forall num, legend_follows number_newline_legend num ->
       try_to_convert_to_numeric (H := cpython) (RawStr number_newline_legend)
       <> VStr num.
Proof.
  split_and!; try (vm_compute; reflexivity).
  - split.
    + exists "", "", "12". split_and!; auto. done.
    + by exists (String LF ""), "".
  - intros num (_ & mid & tail & Hs) Heq.
    assert (Hres : try_to_convert_to_numeric (H := cpython)
                     (RawStr number_newline_legend) = VStr number_newline_legend)
      by (vm_compute; reflexivity).
    rewrite Hres in Heq. injection Heq as Heq.
    apply (f_equal String.length) in Hs.
    subst num. rewrite !length_app_s in Hs. simpl in Hs. lia.
Qed.

(** *** The digits pattern *)

Lemma re_match_digits (s : string) :
  re_match digits_pattern s
  = if String.eqb (span is_decimal s).1 "" then None
    else Some ([], (span is_decimal s).2).
Proof.
  unfold re_match, digits_pattern.
  rewrite (backtrack_Plus_digits
             (fun rest c => Some (c, rest)) (fun _ => true)); done.
Qed.

Lemma findall_digits_head (fuel : nat) (s : string) :
  (String.length s <= fuel)%nat ->
  head (findall_from fuel digits_pattern s) = first_digit_run s.
Proof.
  revert s. induction fuel as [|fuel IH]; intros s Hlen.
  - destruct s; [done | simpl in Hlen; lia].
  - destruct s as [|a s']; [done|]. simpl in Hlen.
    cbn [findall_from first_digit_run]. rewrite re_match_digits.
    pose proof (span_app is_decimal (String a s')) as Hs.
    pose proof (span_length is_decimal s') as Hle.
    simpl span in *. destruct (is_decimal a).
    + destruct (span is_decimal s') as [u v]. cbn [fst snd] in *.
      change (String.eqb (String a u) "") with false. cbv iota.
      assert ((String.length v <? String.length (String a s'))%nat = true) as ->
        by (apply Nat.ltb_lt; simpl; lia).
      cbn [head]. rewrite Hs at 1. by rewrite consumed_app.
    + cbn [fst snd String.eqb]. apply IH. lia.
Qed.

(** The first entry of [re.findall(r'\d+', s)] is the first run of digits of
    [s]. *)
Lemma re_findall_digits_head (s : string) :
  head (re_findall digits_pattern s) = first_digit_run s.
Proof. by apply findall_digits_head. Qed.

Lemma first_digit_run_None (s : string) :
  first_digit_run s = None <-> string_existsb is_decimal s = false.
Proof.
  induction s as [|a s IH]; [done|]. simpl.
  destruct (is_decimal a); [done|]. by rewrite IH.
Qed.

Lemma first_digit_run_Some (pre run post : string) :
  string_existsb is_decimal pre = false ->
  run <> "" -> all_decimal run ->
  begins_with_digit post = false ->
  first_digit_run (pre +:+ run +:+ post) = Some run.
Proof.
  intros Hpre Hne Hrun Hpost. induction pre as [|a pre IH].
  - rewrite app_nil_l. destruct run as [|b run]; [done|].
    unfold all_decimal in Hrun. pose proof Hrun as Hrun'.
    simpl in Hrun'. apply andb_true_iff in Hrun' as [Hb _].
    rewrite app_cons. cbn [first_digit_run]. rewrite Hb.
    rewrite <- app_cons, span_app_stop; [done..|].
    by destruct post.
  - simpl in Hpre. apply orb_false_iff in Hpre as [Ha Hpre].
    rewrite app_cons. cbn [first_digit_run]. rewrite Ha. by apply IH.
Qed.

(** ** Row extraction *)

Section Rows.
Context `{PyRuntime}.

Lemma scrape_row_run (city : string) (row : station) (year month : Z)
    (url : string) (fetch_all : bool) (fields : list string)
    (table_row : table_row) (first_cell : string) (cells : list string)
    (m : climate_map) :
  row_td table_row = first_cell :: cells ->
  scrape_row city row year month url fetch_all fields table_row m
  = match first_digit_run first_cell with
    | None => inr m
    | Some run =>
        let* day := of_option ValueError (int_of_str run) in
        store fetch_all fields (row_key fetch_all row year month day)
          (row_values fetch_all city row year month url (first_cell :: cells)) m
    end.
Proof.
  intros Htd. unfold scrape_row. rewrite Htd. cbn [head of_option bind].
  rewrite <- re_findall_digits_head.
  destruct (re_findall digits_pattern first_cell) as [|entry entries]; [done|].
  cbn [head]. destruct (int_of_str entry) as [day|]; [|done].
  cbn [of_option bind]. unfold store, row_key, row_values.
  unfold convert_list_items_to_numeric. rewrite !map_cons, map_map.
  by destruct fetch_all.
Qed.

Lemma data_rows_spec (t : table) (r : table_row) :
  r ∈ data_rows t <->
  row_th r = [] /\ exists i, (2 <= i)%nat /\ table_tr t !! i = Some r.
Proof.
  unfold data_rows, is_table_header_or_summary_row.
  rewrite list_elem_of_filter, negb_false_iff, bool_decide_eq_true.
  apply and_iff_compat_l. rewrite list_elem_of_lookup. split.
  - intros [i Hi]. rewrite lookup_drop in Hi. exists (2 + i)%nat. split; [lia|done].
  - intros (i & Hle & Hi). exists (i - 2)%nat. rewrite lookup_drop.
    by replace (2 + (i - 2))%nat with i by lia.
Qed.

(** C3 as amended: the rows extracted are those after the first two rows of
    the table that have no header cell; a row whose first cell has no digit
    is skipped, and otherwise the first run of digits of that cell, wherever
    in the cell it stands, read as an integer, is the day of the key the
    record is stored under. *)
Theorem scrape_row_spec (city : string) (row : station) (year month : Z)
    (url : string) (fetch_all : bool) (fields : list string) (t : table) :
  (forall r, r ∈ data_rows t <->
             row_th r = [] /\ exists i, (2 <= i)%nat /\ table_tr t !! i = Some r)
  /\ forall (r : table_row) (first_cell : string) (cells : list string)
            (m : climate_map),
       row_td r = first_cell :: cells ->
       (string_existsb is_decimal first_cell = false ->
        scrape_row city row year month url fetch_all fields r m = inr m)
       /\ forall pre run post,
            first_cell = pre +:+ run +:+ post ->
            string_existsb is_decimal pre = false ->
            run <> "" -> all_decimal run -> begins_with_digit post = false ->
            scrape_row city row year month url fetch_all fields r m
            = let* day := of_option ValueError (int_of_str run) in
              store fetch_all fields (row_key fetch_all row year month day)
                (row_values fetch_all city row year month url (first_cell :: cells))
                m.
Proof.
  split; [apply data_rows_spec|].
  intros r first_cell cells m Htd.
  rewrite (scrape_row_run _ _ _ _ _ _ _ _ _ _ _ Htd). split.
  - intros Hno. apply first_digit_run_None in Hno. by rewrite Hno.
  - intros pre run post -> Hpre Hne Hrun Hpost.
    by rewrite first_digit_run_Some.
Qed.

End Rows.

(** A row whose first cell is ["x7"] is not skipped: its record is stored
    under day 7. *)
Lemma scrape_row_inner_digits :
  begins_with_digit "x7" = false
  /\ scrape_row (H := cpython) "Toronto" station_toronto_city 2019 3 sample_url
       false march_fields (data_row "x7" "3.5") []
     = inr [(date_key 2019 3 7,
             {| cd_fields := march_fields;
                cd_values :=
                  [VStr "Toronto"; VStr "ONTARIO"; VInt 0; VStr "";
                   VInt 2019; VInt 3; VStr "x7";
                   VFloat (FDec false 35 (-1));
                   VStr sample_url] |})].
Proof. split; vm_compute; reflexivity. Qed.

(** The table of the example: of its five rows the two data rows give a
    record, for days 1 and 2, with the columns named after the header. *)
Example scrape_march_table :
  match
    scrape_table (H := cpython) "Toronto" station_toronto_city 2019 3 sample_url
      false (march_caption march_table) []
  with
  | inr m =>
      dict_keys m = [date_key 2019 3 1; date_key 2019 3 2]
      /\ map cd_fields (dict_values m)
         = [march_fields; march_fields]
      /\ march_fields =
         ["city"; "province"; "station_id"; "station_name"; "year"; "month";
          "day"; "max_temp"; "monthly_data_url"]
  | inl _ => False
  end.
Proof. vm_compute. repeat split. Qed.

Lemma scrape_row_spec_witness :
  row_td (data_row "01" "3.5") = ["01"; "3.5"]
  /\ "01" = "" +:+ "01" +:+ ""
  /\ string_existsb is_decimal "" = false
  /\ "01" <> "" /\ all_decimal "01" /\ begins_with_digit "" = false
  /\ scrape_row (H := cpython) "Toronto" station_toronto_city 2019 3 sample_url
       false march_fields (data_row "01" "3.5") []
     = let* day := of_option ValueError (@int_of_str cpython "01") in
       store (H := cpython) false march_fields
         (row_key false station_toronto_city 2019 3 day)
         (row_values false "Toronto" station_toronto_city 2019 3 sample_url
            ["01"; "3.5"]) [].
Proof.
  assert (Hne : "01" <> "") by discriminate.
  assert (Hdec : all_decimal "01") by reflexivity.
  split; [reflexivity|]. split; [reflexivity|]. split; [reflexivity|].
  split; [exact Hne|]. split; [exact Hdec|]. split; [reflexivity|].
  destruct (scrape_row_spec (H := cpython) "Toronto" station_toronto_city
              2019 3 sample_url false march_fields march_table) as [_ Hrow].
  destruct (Hrow (data_row "01" "3.5") "01" ["3.5"] [] eq_refl) as [_ Hrun].
  exact (Hrun "" "01" "" eq_refl eq_refl Hne Hdec eq_refl).
Defined.

(** ** Captions *)

Section Captions.
Context `{PyRuntime}.

(** C4 as amended: every caption whose text contains the expected caption
    is used for extraction, in document order, and not the first one only;
    when no caption matches the map is returned as it is and nothing is
    raised, so that the loop over the stations goes on with the next one. *)
Theorem scrape_document_spec (city : string) (row : station) (year month : Z)
    (url : string) (fetch_all : bool) (caption_text : string) (soup : document)
    (m : climate_map) :
  scrape_document city row year month url fetch_all caption_text soup m
  = for_each (scrape_table city row year month url fetch_all)
      (List.filter (caption_matches caption_text) soup) m
  /\ ((forall c, c ∈ soup -> caption_matches caption_text c = false) ->
      scrape_document city row year month url fetch_all caption_text soup m
      = inr m)
  /\ forall (fetch : string -> result document) (prov month_name : string)
            (rows : list station),
       dict_get (Province row) province_map = Some prov ->
       month_name_map month = Some month_name ->
       fetch (daily_data_url (Station_ID row) prov month year) = inr soup ->
       caption_text
       = "Daily Data Report for " +:+ month_name +:+ " " +:+ pretty year ->
       (forall c, c ∈ soup -> caption_matches caption_text c = false) ->
       scrape_station fetch city fetch_all year month row m = inr m
       /\ for_each (scrape_station fetch city fetch_all year month) (row :: rows) m
          = for_each (scrape_station fetch city fetch_all year month) rows m.
Proof.
  assert (Hall : scrape_document city row year month url fetch_all caption_text
                   soup m
                 = for_each (scrape_table city row year month url fetch_all)
                     (List.filter (caption_matches caption_text) soup) m).
  { unfold scrape_document. apply for_each_filter. }
  assert (Hnone : forall url' m',
            (forall c, c ∈ soup -> caption_matches caption_text c = false) ->
            scrape_document city row year month url' fetch_all caption_text
              soup m' = inr m').
  { intros url' m' Hno. unfold scrape_document. rewrite for_each_filter.
    assert (List.filter (caption_matches caption_text) soup = []) as ->; [|done].
    clear -Hno. induction soup as [|c soup' IH]; [done|].
    simpl. rewrite (Hno c) by left. apply IH.
    intros c' Hc'. apply Hno. by right. }
  split_and!; [done | by apply Hnone |].
  intros fetch prov month_name rows Hprov Hmonth Hfetch -> Hno.
  assert (Hone : scrape_station fetch city fetch_all year month row m = inr m).
  { unfold scrape_station. rewrite Hprov. simpl. rewrite Hfetch. simpl.
    rewrite Hmonth. simpl. by apply Hnone. }
  split; [done|]. simpl. by rewrite Hone.
Qed.

End Captions.

(** Of a page with two tables under the caption of the month both are
    extracted, where reading the first matching caption gives the records
    of the first table only. *)
Lemma scrape_document_second_caption :
  match
    scrape_document (H := cpython) "Toronto" station_toronto_city 2019 3
      sample_url false "Daily Data Report for March 2019" two_table_page [],
    scrape_first_caption (H := cpython) "Toronto" station_toronto_city 2019 3
      sample_url false "Daily Data Report for March 2019" two_table_page []
  with
  | inr every, inr first =>
      dict_keys every
      = [date_key 2019 3 1; date_key 2019 3 2; date_key 2019 3 7; date_key 2019 3 45]
      /\ dict_keys first = [date_key 2019 3 1; date_key 2019 3 2]
      /\ every <> first
  | _, _ => False
  end.
Proof. vm_compute. split_and!; [reflexivity | reflexivity | discriminate]. Qed.

Lemma scrape_document_spec_witness :
  (forall c, c ∈ empty_page ->
     caption_matches "Daily Data Report for March 2019" c = false)
  /\ scrape_document (H := cpython) "Toronto" station_toronto_city 2019 3
       sample_url false "Daily Data Report for March 2019" empty_page sample_map
     = inr sample_map.
Proof.
  assert (Hno : forall c, c ∈ empty_page ->
            caption_matches "Daily Data Report for March 2019" c = false).
  { intros c Hc. apply list_elem_of_singleton in Hc as ->. reflexivity. }
  split; [exact Hno|].
  destruct (scrape_document_spec (H := cpython) "Toronto" station_toronto_city
              2019 3 sample_url false "Daily Data Report for March 2019"
              empty_page sample_map) as (_ & Hnone & _).
  exact (Hnone Hno).
Defined.

(** ** The records of a run *)

Section Records.
Context `{PyRuntime}.

Lemma store_items (fetch_all : bool) (fields : list string) (k : map_key)
    (row_data : list value) (m m' : climate_map) :
  store fetch_all fields k row_data m = inr m' ->
  forall k' r', (k', r') ∈ m' ->
    (k', r') ∈ m
    \/ (k' = k /\ r' = {| cd_fields := fields; cd_values := row_data |}
        /\ length row_data = length fields).
Proof.
  assert (Hmake : forall m0 : climate_map,
            (let* climate_data := namedtuple_make fields row_data in
             inr (dict_set k climate_data m)) = inr m0 ->
            forall k' r', (k', r') ∈ m0 ->
              (k', r') ∈ m
              \/ (k' = k /\ r' = {| cd_fields := fields; cd_values := row_data |}
                  /\ length row_data = length fields)).
  { intros m0. unfold namedtuple_make.
    destruct (length row_data =? length fields)%nat eqn:Hlen; [|done].
    apply Nat.eqb_eq in Hlen. simpl. intros [= <-] k' r' Hin.
    apply dict_set_elem in Hin as [[= -> ->]|Hin]; auto. }
  unfold store, store_all, store_best. destruct fetch_all; [apply Hmake|].
  destruct (dict_get k m) as [current|]; [|apply Hmake].
  destruct (_ <? _)%nat; [apply Hmake|].
  intros [= <-]. auto.
Qed.

Lemma column_header_list_prefix (t : table) :
  exists columns,
    column_header_list t
    = ["city"; "province"; "station_id"; "station_name"; "year"; "month"; "day"]
      ++ columns.
Proof. unfold column_header_list. by eexists. Qed.

Lemma scrape_row_items (city : string) (row : station) (year month : Z)
    (url : string) (fetch_all : bool) (t : table) (r : table_row)
    (m m' : climate_map) :
  items_of_rows m ->
  scrape_row city row year month url fetch_all (column_header_list t) r m = inr m' ->
  items_of_rows m'.
Proof.
  intros Hm Hrun. destruct (row_td r) as [|first_cell cells] eqn:Htd.
  { unfold scrape_row in Hrun. by rewrite Htd in Hrun. }
  rewrite (scrape_row_run _ _ _ _ _ _ _ _ _ _ _ Htd) in Hrun.
  destruct (first_digit_run first_cell) as [run|] eqn:Hfirst;
    [|by injection Hrun as <-].
  destruct (int_of_str run) as [day|] eqn:Hday; [|done].
  cbn [of_option bind] in Hrun.
  intros k' r' Hin.
  destruct (store_items _ _ _ _ _ _ Hrun k' r' Hin) as [Hold|(-> & -> & Hlen)];
    [by apply Hm|].
  exists year, month, first_cell, run. split_and!; [|done|].
  - destruct (column_header_list_prefix t) as [columns Hcolumns].
    unfold record_of_row. cbn [cd_fields cd_values].
    unfold row_values in *. destruct fetch_all.
    + eexists _, _, _, _, columns, _. split_and!; [done| |done].
      cbn [map app]. reflexivity.
    + eexists _, _, _, _, columns, _. split_and!; [done| |done].
      cbn [map app]. reflexivity.
  - rewrite Hday. f_equal. unfold row_key. by destruct fetch_all.
Qed.

Lemma scrape_station_items (fetch : string -> result document) (city : string)
    (fetch_all : bool) (year month : Z) (row : station) (m m' : climate_map) :
  items_of_rows m ->
  scrape_station fetch city fetch_all year month row m = inr m' ->
  items_of_rows m'.
Proof.
  intros Hm. unfold scrape_station.
  destruct (dict_get (Province row) province_map) as [prov|]; [|done].
  cbn [of_option bind]. destruct (fetch _) as [e|soup]; [done|].
  cbn [bind]. destruct (month_name_map month) as [month_name|]; [|done].
  cbn [of_option bind]. unfold scrape_document.
  apply for_each_invariant; [|done].
  intros c s s' _ Hs. destruct (caption_matches _ c); [|by intros [= <-]].
  unfold scrape_table.
  destruct (caption_find_parent_table c) as [t|]; [|done].
  cbn [of_option bind]. destruct (namedtuple_ok _); [|done].
  apply for_each_invariant; [|done].
  intros r s1 s2 _ Hs1. by apply scrape_row_items.
Qed.

Lemma field_value_of_row (r : ClimateData) (year month : Z) (first_cell : string) :
  record_of_row r year month first_cell ->
  field_value "year" r = Some (VInt year)
  /\ field_value "month" r = Some (VInt month)
  /\ field_value "day" r = Some (try_to_convert_to_numeric (RawStr first_cell)).
Proof.
  intros (c & p & i & n & columns & rest & Hf & Hv & _).
  unfold field_value. rewrite Hf, Hv. repeat split.
Qed.

End Records.

(** A run over a table whose first cells are ["x7"] and ["45"] returns a
    record whose day field is the string ["x7"] and one whose day field is
    45: neither is a day of a month. *)
Lemma get_climate_data_map_odd_days :
  match
    get_climate_data_map (H := cpython) sample_inventory odd_site
      "Toronto" "" 2019 3 2019 3 false
  with
  | inr m =>
      dict_get (date_key 2019 3 7) m ≫= field_value "day" = Some (VStr "x7")
      /\ dict_get (date_key 2019 3 45) m ≫= field_value "day" = Some (VInt 45)
  | inl _ => False
  end
  /\ ~ valid_day_of_month (H := cpython) (VStr "x7")
  /\ ~ valid_day_of_month (H := cpython) (VInt 45).
Proof.
  split; [vm_compute; split; reflexivity|].
  split; intros (n & Heq & Hrange); [discriminate|].
  injection Heq as <-. lia.
Qed.

(** ** Persistence *)

Section PersistenceFacts.
Context `{PyRuntime}.




End PersistenceFacts.

(** With 0 in place of the marker and of the empty station name. *)
Example construct_column_insert_map_march :
  let column_map :=
    construct_column_insert_map_from_tuple (H := cpython) march_record
      (map c_name (t_c (weather_table "gov_of_canada_weather_data"))) in
  column_map !! "max_temp" = Some (VInt 0)
  /\ column_map !! "station_name" = Some (VInt 0)
  /\ column_map !! "day" = Some (VInt 1)
  /\ column_map !! "min_temp" = Some (VInt 0)
  /\ column_map !! "city" = Some (VStr "Toronto").
Proof. vm_compute. repeat split. Qed.

Section UpdateStatement.
Context `{PyRuntime}.

Lemma where_column_dict_present (column_map : gmap string value) (cs : list column) :
  (forall c, c ∈ cs -> c_primary_key c = true -> is_Some (column_map !! c_name c)) ->
  where_column_dict column_map cs
  = inr (map (fun c => (c_name c, sql_text (column_value column_map (c_name c))))
             (filter (fun c => c_primary_key c = true) cs)).
Proof.
  induction cs as [|c cs IH]; intros Hpresent; [done|].
  cbn [where_column_dict]. rewrite IH by (intros c' Hc'; apply Hpresent; by right).
  destruct (c_primary_key c) eqn:Hpk.
  - pose proof (Hpresent c ltac:(left) Hpk) as Hsome.
    rewrite filter_cons_True by done. rewrite map_cons.
    unfold column_value.
    destruct (column_map !! c_name c) as [v|]; [reflexivity|].
    by destruct Hsome.
  - rewrite filter_cons_False by congruence. done.
Qed.

Lemma generate_update_table_sql_present (column_map : gmap string value)
    (t : sql_table) :
  (forall c, c ∈ t_c t -> c_primary_key c = true ->
             is_Some (column_map !! c_name c)) ->
  generate_update_table_sql column_map t = inr (update_statement column_map t).
Proof.
  intros Hpresent. unfold generate_update_table_sql.
  rewrite (where_column_dict_present _ _ Hpresent). cbn [bind].
  unfold update_statement, update_column_dict. rewrite !map_map. done.
Qed.

Lemma asdict_is_Some (r : ClimateData) (name : string) :
  length (cd_values r) = length (cd_fields r) ->
  name ∈ cd_fields r -> is_Some (asdict r !! name).
Proof.
  destruct r as [fields values]. unfold asdict. cbn [cd_fields cd_values].
  intros Hlen Hin.
  assert (Hgen : forall (l : list (string * value)) (m : gmap string value),
            is_Some (m !! name) \/ name ∈ map fst l ->
            is_Some (foldl (fun m kv => <[kv.1 := kv.2]> m) m l !! name)).
  { induction l as [|[k v] l IH]; intros m [Hm|Hl]; simpl.
    - done.
    - by apply elem_of_nil in Hl.
    - apply IH. left. destruct (decide (k = name)) as [->|Hne].
      + rewrite lookup_insert_eq. by eexists.
      + by rewrite lookup_insert_ne.
    - apply IH. simpl in Hl. apply elem_of_cons in Hl as [->|Hl]; [|by right].
      left. rewrite lookup_insert_eq. by eexists. }
  apply Hgen. right. by rewrite fst_zip by lia.
Qed.

Lemma construct_is_Some (r : ClimateData) (names : list string) (name : string) :
  length (cd_values r) = length (cd_fields r) ->
  name ∈ cd_fields r ->
  is_Some (construct_column_insert_map_from_tuple r names !! name).
Proof.
  intros Hlen Hin. unfold construct_column_insert_map_from_tuple.
  rewrite lookup_fmap. apply fmap_is_Some. unfold column_map_with_defaults.
  generalize (filter (fun item => item ∉ cd_fields r) names). intros missing.
  assert (Hgen : forall (m : gmap string value),
            is_Some (m !! name) ->
            is_Some (foldl (fun m column_name =>
                              <[column_name := get_default_data_value column_name]> m)
                       m missing !! name)).
  { induction missing as [|k l IH]; intros m Hm; [done|]. simpl. apply IH.
    destruct (decide (k = name)) as [->|Hne].
    - rewrite lookup_insert_eq. by eexists.
    - by rewrite lookup_insert_ne. }
  apply Hgen. by apply asdict_is_Some.
Qed.

Section EngineFacts.
Variable db : Type.
Variable execute_insert : sql_table -> gmap string value -> db -> result db.
Variable execute_text : string -> db -> result db.
Variable get_column_names : string -> db -> result (list string).

(** The fallback of a record that has the columns of the primary key: the
    statement [generate_update_table_sql] produces has an assignment for
    every column of the table outside the primary key, of the value of the
    column map or the default when the map has none, and a comparison in its
    WHERE clause for every column of the primary key; when the insert raises
    [IntegrityError] that statement is executed and its outcome is the
    outcome of the record, so that the collision does not reach the caller.
    How a value is written in the statement is [sql_text] and [repr_str]. *)
Theorem insert_or_update_spec (t : sql_table) (r : ClimateData)
    (names : list string) (d : db) :
  length (cd_values r) = length (cd_fields r) ->
  (forall c, c ∈ t_c t -> c_primary_key c = true -> c_name c ∈ cd_fields r) ->
  get_column_names (t_name t) d = inr names ->
  let column_map := construct_column_insert_map_from_tuple r names in
  generate_update_table_sql column_map t = inr (update_statement column_map t)
  /\ (execute_insert t column_map d = inl IntegrityError ->
      insert_or_update db execute_insert execute_text get_column_names t r d
      = execute_text (update_statement column_map t) d
      /\ forall d',
           execute_text (update_statement column_map t) d = inr d' ->
           insert_or_update db execute_insert execute_text get_column_names t r d
           = inr d').
Proof.
  intros Hlen Hpk Hnames column_map.
  assert (Hsql : generate_update_table_sql column_map t
                 = inr (update_statement column_map t)).
  { apply generate_update_table_sql_present. intros c Hc Hkey.
    apply construct_is_Some; auto. }
  split; [done|]. intros Hinsert.
  assert (Hrun : insert_or_update db execute_insert execute_text
                   get_column_names t r d
                 = execute_text (update_statement column_map t) d).
  { unfold insert_or_update. rewrite Hnames. cbn [bind]. fold column_map.
    rewrite Hinsert, Hsql. done. }
  split; [done|]. intros d' Hd'. by rewrite Hrun.
Qed.

End EngineFacts.
End UpdateStatement.

(** The statement for the record of 1 March 2019. *)
Example update_statement_march :
  update_statement (H := cpython) sample_column_map sample_table
  = "UPDATE gov_of_canada_weather_data"
    +:+ " SET province = 'ONTARIO', station_id = '0', monthly_data_url = '"
    +:+ sample_url
    +:+ "', max_temp = '0', min_temp = '0', mean_temp = '0'"
    +:+ ", extr_max_temp = '0', extr_min_temp = '0', cool_deg_days = '0'"
    +:+ ", heat_deg_days = '0', total_rain = '0', total_snow = '0'"
    +:+ ", total_prec = '0', snow_on_grnd = '0', dir_of_max_gust = '0'"
    +:+ ", spd_of_max_gust = '0'"
    +:+ " WHERE city = 'Toronto' AND station_name = '0' AND year = '2019'"
    +:+ " AND month = '3' AND day = '1'".
Proof. vm_compute. reflexivity. Qed.

Lemma insert_or_update_spec_witness :
  length (cd_values march_record) = length (cd_fields march_record)
  /\ (forall c, c ∈ t_c sample_table -> c_primary_key c = true ->
                c_name c ∈ cd_fields march_record)
  /\ weather_columns (t_name sample_table) [] = inr (map c_name (t_c sample_table))
  /\ full_insert sample_table sample_column_map [] = inl IntegrityError
  /\ insert_or_update (H := cpython) (list string) full_insert log_text
       weather_columns sample_table march_record []
     = inr [update_statement (H := cpython) sample_column_map sample_table].
Proof.
  assert (Hlen : length (cd_values march_record) = length (cd_fields march_record))
    by reflexivity.
  assert (Hkey : forall c, c ∈ t_c sample_table -> c_primary_key c = true ->
                           c_name c ∈ cd_fields march_record).
  { apply (proj1 (list.Forall_forall
                    (fun c => c_primary_key c = true ->
                              c_name c ∈ cd_fields march_record)
                    (t_c sample_table))).
    apply (bool_decide_unpack _). vm_compute. exact I. }
  split; [exact Hlen|]. split; [exact Hkey|].
  split; [reflexivity|]. split; [reflexivity|].
  destruct (insert_or_update_spec (H := cpython) (list string) full_insert
              log_text weather_columns sample_table march_record
              (map c_name (t_c sample_table)) [] Hlen Hkey eq_refl)
    as [_ Hupdate].
  destruct (Hupdate eq_refl) as [_ Hdone].
  apply Hdone. reflexivity.
Defined.

(** ** The map as an association list *)

Section Keys.
Context `{PyRuntime}.

Lemma store_NoDup (fetch_all : bool) (fields : list string) (k : map_key)
    (row_data : list value) (m m' : climate_map) :
  NoDup (dict_keys m) ->
  store fetch_all fields k row_data m = inr m' ->
  NoDup (dict_keys m').
Proof.
  intros Hm. unfold store, store_all, store_best, namedtuple_make.
  destruct fetch_all.
  - destruct (_ =? _)%nat; [|done]. intros [= <-]. by apply dict_set_NoDup.
  - destruct (dict_get k m), (_ =? _)%nat; try destruct (_ <? _)%nat;
      try done; intros [= <-]; try done; by apply dict_set_NoDup.
Qed.

(** The association list that stands for the dict of a run has every key
    once, as a dict has: the encoding of the map stays within the lists that
    are dicts. *)
Lemma get_climate_data_map_NoDup (data : list station)
    (fetch : string -> result document) (city province : string)
    (start_year start_month end_year end_month : Z) (fetch_all : bool)
    (m : climate_map) :
  get_climate_data_map data fetch city province start_year start_month
    end_year end_month fetch_all = inr m ->
  NoDup (dict_keys m).
Proof.
  unfold get_climate_data_map.
  destruct (get_station_data data city province) as [e|station_data]; [done|].
  cbn [bind].
  apply (for_each_invariant (fun m : climate_map => NoDup (dict_keys m)));
    [|apply NoDup_nil_2].
  intros year s s' _ Hs.
  apply (for_each_invariant (fun m : climate_map => NoDup (dict_keys m)));
    [|done].
  intros month s1 s1' _ Hs1.
  apply (for_each_invariant (fun m : climate_map => NoDup (dict_keys m)));
    [|done].
  intros row s2 s2' _ Hs2. unfold scrape_station.
  destruct (dict_get (Province row) province_map) as [prov|]; [|done].
  cbn [of_option bind]. destruct (fetch _) as [e|soup]; [done|].
  cbn [bind]. destruct (month_name_map month) as [month_name|]; [|done].
  cbn [of_option bind]. unfold scrape_document.
  apply (for_each_invariant (fun m : climate_map => NoDup (dict_keys m)));
    [|done].
  intros c s3 s3' _ Hs3. destruct (caption_matches _ c); [|by intros [= <-]].
  unfold scrape_table.
  destruct (caption_find_parent_table c) as [t|]; [|done].
  cbn [of_option bind]. destruct (namedtuple_ok _); [|done].
  apply (for_each_invariant (fun m : climate_map => NoDup (dict_keys m)));
    [|done].
  intros r s4 s4' _ Hs4 Hrow.
  destruct (row_td r) as [|first_cell cells] eqn:Htd.
  { unfold scrape_row in Hrow. by rewrite Htd in Hrow. }
  rewrite (scrape_row_run _ _ _ _ _ _ _ _ _ _ _ Htd) in Hrow.
  destruct (first_digit_run first_cell) as [run|]; [|by injection Hrow as <-].
  destruct (int_of_str run) as [day|]; [|done].
  cbn [of_option bind] in Hrow. by eapply store_NoDup.
Qed.

End Keys.

(** ** All-station mode, and a row that does not fit the header *)

Section RowOutcomes.
Context `{PyRuntime}.

Lemma length_row_values (fetch_all : bool) (city : string) (row : station)
    (year month : Z) (url : string) (cells : list string) :
  length (row_values fetch_all city row year month url cells)
  = (length cells + 7)%nat.
Proof.
  unfold row_values. destruct fetch_all;
    rewrite length_app; cbn [length]; rewrite length_app, length_map;
    cbn [length]; lia.
Qed.

(** X2: in all-station mode a row with a day whose cells fit the header is
    stored under its station and date whatever the map holds: a record
    already under that key is replaced, also when it is richer, and no other
    key changes. *)
Theorem scrape_row_all_station (city : string) (row : station) (year month : Z)
    (url : string) (fields : list string) (r : table_row)
    (first_cell : string) (cells : list string) (run : string) (day : Z)
    (m : climate_map) :
  row_td r = first_cell :: cells ->
  first_digit_run first_cell = Some run ->
  int_of_str run = Some day ->
  length fields = (length cells + 8)%nat ->
  let new :=
    {| cd_fields := fields;
       cd_values := row_values true city row year month url (first_cell :: cells) |} in
  let key := station_key (Name row) (Station_ID row) year month day in
  exists m',
    scrape_row city row year month url true fields r m = inr m'
    /\ dict_get key m' = Some new
    /\ (forall k, k <> key -> dict_get k m' = dict_get k m)
    /\ (forall current, dict_get key m = Some current -> dict_keys m' = dict_keys m)
    /\ (dict_get key m = None -> dict_keys m' = dict_keys m ++ [key]).
Proof.
  intros Htd Hrun Hday Hlen new key.
  rewrite (scrape_row_run _ _ _ _ _ _ _ _ _ _ _ Htd), Hrun, Hday.
  cbn [of_option bind]. unfold store, store_all, row_key.
  rewrite namedtuple_make_ok by (rewrite length_row_values; simpl; lia).
  cbn [bind]. fold new key. exists (dict_set key new m). split_and!.
  - done.
  - apply dict_get_set_eq.
  - intros k Hk. by apply dict_get_set_ne.
  - intros current Hcur. apply dict_set_keys_present.
    destruct (decide (key ∈ dict_keys m)) as [|Hout]; [done|].
    apply dict_get_None_keys in Hout. congruence.
  - intros Hnone. apply dict_set_keys_absent. by apply dict_get_None_keys.
Qed.

(** X3: the exceptions of a row, and when each is raised.  A row without a
    [td] raises [IndexError]; a first run of digits that [int] rejects
    raises [ValueError]; a row with a day whose number of cells does not fit
    the header raises [TypeError], in best-station mode only when the record
    would be stored, the row being dropped silently when a record at least as
    rich is there already.  Nothing else is raised.  The cells fit the header
    of a table when there is one more of them than header links with a
    text. *)
Theorem scrape_row_errors (city : string) (row : station) (year month : Z)
    (url : string) (fetch_all : bool) (fields : list string) (r : table_row)
    (m : climate_map) (e : exn) :
  (scrape_row city row year month url fetch_all fields r m = inl e <->
  (row_td r = [] /\ e = IndexError)
  \/ exists first_cell cells run,
       row_td r = first_cell :: cells
       /\ first_digit_run first_cell = Some run
       /\ ((int_of_str run = None /\ e = ValueError)
           \/ exists day,
                int_of_str run = Some day /\ e = TypeError
                /\ length fields <> (length cells + 8)%nat
                /\ (fetch_all = true
                    \/ match dict_get (date_key year month day) m with
                       | None => True
                       | Some current =>
                           (richness (cd_values current)
                            < richness (row_values false city row year month url
                                          (first_cell :: cells)))%nat
                       end)))
  /\ forall t : table,
       length (column_header_list t)
       = (length (filter (fun text => text <> "")
                    (map header_text (concat (table_thead t)))) + 8)%nat.
Proof.
  split; [|intros t; unfold column_header_list;
           rewrite !length_app, length_map; cbn [length]; lia].
  destruct (row_td r) as [|first_cell cells] eqn:Htd.
  { unfold scrape_row. rewrite Htd. cbn [head of_option bind]. split.
    - intros [= <-]. by left.
    - intros [[_ ->]|(fc & cs & run & Hcons & _)]; [done | discriminate]. }
  rewrite (scrape_row_run _ _ _ _ _ _ _ _ _ _ _ Htd).
  assert (Hmake : forall fa,
            namedtuple_make fields
              (row_values fa city row year month url (first_cell :: cells))
            = if decide (length fields = (length cells + 8)%nat)
              then inr {| cd_fields := fields;
                          cd_values := row_values fa city row year month url
                                         (first_cell :: cells) |}
              else inl TypeError).
  { intros fa. unfold namedtuple_make. rewrite length_row_values. cbn [length].
    destruct (decide _) as [->|Hne].
    - by rewrite (proj2 (Nat.eqb_eq _ _)) by lia.
    - by rewrite (proj2 (Nat.eqb_neq _ _)) by lia. }
  split.
  - intros Hrun. right. exists first_cell, cells.
    destruct (first_digit_run first_cell) as [run|]; [|done].
    exists run. split_and!; [done..|].
    destruct (int_of_str run) as [day|]; [|left; by injection Hrun as <-].
    right. exists day. cbn [of_option bind] in Hrun. revert Hrun.
    unfold store, store_all, store_best, row_key. destruct fetch_all.
    + rewrite Hmake. destruct (decide _); [done|]. intros [= <-]. auto.
    + destruct (dict_get (date_key year month day) m) as [current|].
      * destruct (_ <? _)%nat eqn:Hlt; [|done]. apply Nat.ltb_lt in Hlt.
        rewrite Hmake. destruct (decide _); [done|]. intros [= <-]. auto.
      * rewrite Hmake. destruct (decide _); [done|]. intros [= <-]. auto.
  - intros [[? _]|(fc & cs & run & [= <- <-] & -> & Hcase)]; [done|].
    destruct Hcase as [[-> ->]|(day & -> & -> & Hne & Hstored)]; [done|].
    cbn [of_option bind]. unfold store, store_all, store_best, row_key.
    destruct Hstored as [->|Hstored].
    + rewrite Hmake. by rewrite decide_False.
    + destruct fetch_all; [rewrite Hmake; by rewrite decide_False|].
      destruct (dict_get (date_key year month day) m) as [current|].
      * apply Nat.ltb_lt in Hstored. rewrite Hstored, Hmake.
        by rewrite decide_False.
      * rewrite Hmake. by rewrite decide_False.
Qed.

End RowOutcomes.

Lemma scrape_row_all_station_witness :
  row_td (data_row "01" "3.5") = ["01"; "3.5"]
  /\ first_digit_run "01" = Some "01"
  /\ @int_of_str cpython "01" = Some 1
  /\ length march_fields = (length ["3.5"] + 8)%nat
  /\ exists m',
       scrape_row (H := cpython) "Toronto" station_toronto_city 2019 3 sample_url
         true march_fields (data_row "01" "3.5") [] = inr m'
       /\ dict_get (station_key "TORONTO CITY" 31688 2019 3 1) m'
          = Some {| cd_fields := march_fields;
                    cd_values :=
                      row_values (H := cpython) true "Toronto" station_toronto_city
                        2019 3 sample_url ["01"; "3.5"] |}.
Proof.
  split; [reflexivity|]. split; [reflexivity|]. split; [reflexivity|].
  split; [reflexivity|].
  destruct (scrape_row_all_station (H := cpython) "Toronto" station_toronto_city
              2019 3 sample_url march_fields (data_row "01" "3.5") "01" ["3.5"]
              "01" 1 [] eq_refl eq_refl eq_refl eq_refl)
    as (m' & Hrun & Hget & _).
  exists m'. split; [exact Hrun | exact Hget].
Defined.

(** ** The best of several candidates *)

Section Candidates.
Context `{PyRuntime}.

Lemma best_of_candidates_from (fields : list string) (key : map_key)
    (l : list (list value)) (current : list value) (m : climate_map) :
  dict_get key m = Some {| cd_fields := fields; cd_values := current |} ->
  (forall x, x ∈ l -> length x = length fields) ->
  exists m' best pre post,
    for_each (store_best fields key) l m = inr m'
    /\ current :: l = pre ++ best :: post
    /\ dict_get key m' = Some {| cd_fields := fields; cd_values := best |}
    /\ (forall x, x ∈ pre -> (richness x < richness best)%nat)
    /\ (forall x, x ∈ post -> (richness x <= richness best)%nat)
    /\ (forall k, k <> key -> dict_get k m' = dict_get k m).
Proof.
  revert current m. induction l as [|x l IH]; intros current m Hget Hlen.
  - exists m, current, [], []. repeat split; try done.
    + intros x Hx. by apply elem_of_nil in Hx.
    + intros x Hx. by apply elem_of_nil in Hx.
  - cbn [for_each]. unfold store_best at 1. rewrite Hget. cbn [cd_values].
    assert (Hlen' : forall y, y ∈ l -> length y = length fields)
      by (intros y Hy; apply Hlen; by right).
    destruct (richness current <? richness x)%nat eqn:Hcmp.
    + apply Nat.ltb_lt in Hcmp.
      rewrite namedtuple_make_ok by (apply Hlen; left). cbn [bind].
      destruct (IH x (dict_set key {| cd_fields := fields; cd_values := x |} m)
                  (dict_get_set_eq _ _ _) Hlen')
        as (m' & best & pre & post & Hrun & Hsplit & Hbest & Hpre & Hpost & Hframe).
      assert (Hx : (richness x <= richness best)%nat).
      { destruct pre as [|p pre]; injection Hsplit as <- _; [done|].
        pose proof (Hpre x ltac:(left)). lia. }
      assert (Hpre' : forall y, y ∈ current :: pre ->
                                (richness y < richness best)%nat).
      { intros y Hy. apply elem_of_cons in Hy as [->|Hy]; [lia | by apply Hpre]. }
      assert (Hframe' : forall k, k <> key -> dict_get k m' = dict_get k m).
      { intros k Hk. rewrite Hframe by done. by apply dict_get_set_ne. }
      exists m', best, (current :: pre), post.
      rewrite Hsplit. by repeat split.
    + apply Nat.ltb_ge in Hcmp. cbn [bind].
      destruct (IH current m Hget Hlen')
        as (m' & best & pre & post & Hrun & Hsplit & Hbest & Hpre & Hpost & Hframe).
      destruct pre as [|p pre].
      * injection Hsplit as <- <-.
        assert (Hpost' : forall y, y ∈ x :: l ->
                                   (richness y <= richness current)%nat).
        { intros y Hy. apply elem_of_cons in Hy as [->|Hy]; [done|].
          by apply Hpost. }
        assert (Hpre' : forall y : list value, y ∈ [] ->
                          (richness y < richness current)%nat).
        { intros y Hy. by apply elem_of_nil in Hy. }
        exists m', current, [], (x :: l). by repeat split.
      * injection Hsplit as <- Hsplit.
        assert (Hpre' : forall y, y ∈ current :: x :: pre ->
                                  (richness y < richness best)%nat).
        { intros y Hy. pose proof (Hpre current ltac:(left)) as Hcur.
          apply elem_of_cons in Hy as [->|Hy]; [done|].
          apply elem_of_cons in Hy as [->|Hy]; [lia|].
          apply Hpre. by right. }
        exists m', best, (current :: x :: pre), post.
        repeat split; try done. by rewrite Hsplit.
Qed.

(** X4: best-station mode over several candidate rows for one date that has
    no record yet: the record kept in the end is the first of the candidates
    of greatest richness, whatever their order, and no other key changes. *)
Theorem best_of_candidates (fields : list string) (key : map_key)
    (first : list value) (others : list (list value)) (m : climate_map) :
  dict_get key m = None ->
  (forall x, x ∈ first :: others -> length x = length fields) ->
  exists m' best pre post,
    for_each (store_best fields key) (first :: others) m = inr m'
    /\ first :: others = pre ++ best :: post
    /\ dict_get key m' = Some {| cd_fields := fields; cd_values := best |}
    /\ (forall x, x ∈ pre -> (richness x < richness best)%nat)
    /\ (forall x, x ∈ post -> (richness x <= richness best)%nat)
    /\ (forall k, k <> key -> dict_get k m' = dict_get k m).
Proof.
  intros Hnone Hlen. cbn [for_each]. unfold store_best at 1. rewrite Hnone.
  rewrite namedtuple_make_ok by (apply Hlen; left). cbn [bind].
  destruct (best_of_candidates_from fields key others first
              (dict_set key {| cd_fields := fields; cd_values := first |} m)
              (dict_get_set_eq _ _ _)
              (fun x Hx => Hlen x (list_elem_of_further _ _ _ Hx)))
    as (m' & best & pre & post & Hrun & Hsplit & Hbest & Hpre & Hpost & Hframe).
  assert (Hframe' : forall k, k <> key -> dict_get k m' = dict_get k m).
  { intros k Hk. rewrite Hframe by done. by apply dict_get_set_ne. }
  exists m', best, pre, post. by repeat split.
Qed.

End Candidates.

Lemma best_of_candidates_witness :
  dict_get (date_key 2019 3 1) ([] : @climate_map cpython) = None
  /\ (forall x, x ∈ [sample_poor; sample_rich; sample_rich] ->
                length x = length sample_fields)
  /\ exists m',
       for_each (store_best (H := cpython) sample_fields (date_key 2019 3 1))
         [sample_poor; sample_rich; sample_rich] [] = inr m'
       /\ dict_get (date_key 2019 3 1) m'
          = Some {| cd_fields := sample_fields; cd_values := sample_rich |}.
Proof.
  assert (Hlen : forall x, x ∈ [sample_poor; sample_rich; sample_rich] ->
                           length x = length sample_fields).
  { intros x Hx. repeat (apply elem_of_cons in Hx as [->|Hx]; [reflexivity|]).
    by apply elem_of_nil in Hx. }
  split; [reflexivity|]. split; [exact Hlen|].
  destruct (best_of_candidates (H := cpython) sample_fields (date_key 2019 3 1)
              sample_poor [sample_rich; sample_rich] [] eq_refl Hlen)
    as (m' & best & pre & post & Hrun & _).
  exists m'. split; [exact Hrun|].
  revert Hrun. vm_compute. intros [= <-]. reflexivity.
Defined.

(** ** The exceptions of a page, and the months of a run *)

Section PageOutcomes.
Context `{PyRuntime}.

Lemma for_each_first_match (city : string) (row : station) (year month : Z)
    (url : string) (fetch_all : bool) (caption_text : string)
    (pre post : document) (c : caption) (m : climate_map) :
  (forall c', c' ∈ pre -> caption_matches caption_text c' = false) ->
  caption_matches caption_text c = true ->
  scrape_document city row year month url fetch_all caption_text
    (pre ++ c :: post) m
  = let* m' := scrape_table city row year month url fetch_all c m in
    scrape_document city row year month url fetch_all caption_text post m'.
Proof.
  intros Hpre Hc. unfold scrape_document.
  induction pre as [|c' pre IH]; cbn [app for_each].
  - by rewrite Hc.
  - rewrite (Hpre c') by left. cbn [bind]. apply IH.
    intros c'' Hc''. apply Hpre. by right.
Qed.

Lemma month_name_map_Some (month : Z) (name : string) :
  month_name_map month = Some name -> 0 <= month <= 12.
Proof.
  destruct month as [|p|p]; [lia| |done]. intros Hname.
  assert (~ 12 < Z.pos p) as Hle; [|lia]. intros Hgt. revert Hname.
  do 4 (try (destruct p as [p|p|])); try done; lia.
Qed.

(** X5: the exceptions of a station page.  A station whose province is not
    in the province table raises [KeyError] before any request is made; an
    exception of the request is passed on; a month outside 0..12 raises
    [KeyError] after the request; a first matching caption that stands in no
    table raises [AttributeError], and one whose table has header names that
    [namedtuple] rejects raises [ValueError]. *)
Theorem scrape_station_errors (fetch : string -> result document) (city : string)
    (fetch_all : bool) (year month : Z) (row : station) (m : climate_map) :
  (dict_get (Province row) province_map = None ->
   scrape_station fetch city fetch_all year month row m = inl KeyError)
  /\ forall prov,
       dict_get (Province row) province_map = Some prov ->
       (forall e,
          fetch (daily_data_url (Station_ID row) prov month year) = inl e ->
          scrape_station fetch city fetch_all year month row m = inl e)
       /\ forall soup,
            fetch (daily_data_url (Station_ID row) prov month year) = inr soup ->
            (month < 0 \/ 12 < month ->
             scrape_station fetch city fetch_all year month row m = inl KeyError)
            /\ forall month_name pre c post,
                 month_name_map month = Some month_name ->
                 soup = pre ++ c :: post ->
                 (forall c', c' ∈ pre ->
                    caption_matches
                      ("Daily Data Report for " +:+ month_name +:+ " " +:+ pretty year)
                      c' = false) ->
                 caption_matches
                   ("Daily Data Report for " +:+ month_name +:+ " " +:+ pretty year)
                   c = true ->
                 (caption_find_parent_table c = None ->
                  scrape_station fetch city fetch_all year month row m
                  = inl AttributeError)
                 /\ forall t,
                      caption_find_parent_table c = Some t ->
                      namedtuple_ok (column_header_list t) = false ->
                      scrape_station fetch city fetch_all year month row m
                      = inl ValueError.
Proof.
  split.
  { intros Hnone. unfold scrape_station. by rewrite Hnone. }
  intros prov Hprov. split.
  { intros e He. unfold scrape_station. rewrite Hprov. cbn [of_option bind].
    by rewrite He. }
  intros soup Hsoup. split.
  { intros Hmonth. unfold scrape_station. rewrite Hprov. cbn [of_option bind].
    rewrite Hsoup. cbn [bind].
    destruct (month_name_map month) as [name|] eqn:Hname; [|done].
    apply month_name_map_Some in Hname. lia. }
  intros month_name pre c post Hname -> Hpre Hc.
  assert (Hrun : scrape_station fetch city fetch_all year month row m
                 = let* m' := scrape_table city row year month
                                (daily_data_url (Station_ID row) prov month year)
                                fetch_all c m in
                   scrape_document city row year month
                     (daily_data_url (Station_ID row) prov month year) fetch_all
                     ("Daily Data Report for " +:+ month_name +:+ " " +:+ pretty year)
                     post m').
  { unfold scrape_station. rewrite Hprov. cbn [of_option bind].
    rewrite Hsoup. cbn [bind]. rewrite Hname. cbn [of_option bind].
    by apply for_each_first_match. }
  split.
  - intros Hnone. rewrite Hrun. unfold scrape_table. by rewrite Hnone.
  - intros t Ht Hbad. rewrite Hrun. unfold scrape_table. rewrite Ht.
    cbn [of_option bind]. by rewrite Hbad.
Qed.

(** X6: the months a run visits.  The pairs of a year and a month of the two
    loops are the years from the start year to the end year with, in each,
    the months from the start month (January after the first year) to the end
    month (December before the last year); when the start month is at least 1
    and the end month at most 12, every month visited has a name, which is
    not empty. *)
Theorem months_visited (start_year start_month end_year end_month year month : Z) :
  (year ∈ py_range start_year (end_year + 1)
   /\ month ∈ months_of start_year start_month end_year end_month year
   <->
   start_year <= year <= end_year
   /\ (if year =? start_year then start_month else 1) <= month
   /\ month <= (if year =? end_year then end_month else 12))
  /\ (1 <= start_month -> end_month <= 12 ->
      month ∈ months_of start_year start_month end_year end_month year ->
      1 <= month <= 12
      /\ exists name, month_name_map month = Some name /\ name <> "").
Proof.
  unfold months_of, py_range. rewrite !elem_of_seqZ. split.
  - destruct (year =? start_year), (year =? end_year); lia.
  - intros Hs He Hm.
    assert (Hrange : 1 <= month <= 12)
      by (destruct (year =? start_year), (year =? end_year); lia).
    split; [done|].
    assert (month = 1 \/ month = 2 \/ month = 3 \/ month = 4 \/ month = 5
            \/ month = 6 \/ month = 7 \/ month = 8 \/ month = 9 \/ month = 10
            \/ month = 11 \/ month = 12) as Hcases by lia.
    repeat (destruct Hcases as [->|Hcases]; [by eexists|]).
    subst month. by eexists.
Qed.

(** X7: runs that make no request.  When station resolution raises, the run
    raises the same exception; when it returns and the range of months is
    empty (the end year before the start year, or one year with the end
    month before the start month), the run returns the empty map.  Neither
    depends on the site. *)
Theorem get_climate_data_map_no_request (data : list station)
    (fetch : string -> result document) (city province : string)
    (start_year start_month end_year end_month : Z) (fetch_all : bool) :
  (forall e,
     get_station_data data city province = inl e ->
     get_climate_data_map data fetch city province start_year start_month
       end_year end_month fetch_all = inl e)
  /\ (forall station_data,
        get_station_data data city province = inr station_data ->
        end_year < start_year
        \/ (start_year = end_year /\ end_month < start_month) ->
        get_climate_data_map data fetch city province start_year start_month
          end_year end_month fetch_all = inr []).
Proof.
  split.
  - intros e He. unfold get_climate_data_map. by rewrite He.
  - intros station_data Hs Hempty. unfold get_climate_data_map. rewrite Hs.
    cbn [bind]. destruct Hempty as [Hlt | [-> Hlt]].
    + unfold py_range. by rewrite seqZ_nil by lia.
    + unfold py_range. replace (end_year + 1 - end_year) with 1 by lia.
      rewrite seqZ_cons by lia. replace (Z.pred 1) with 0 by lia.
      rewrite seqZ_nil by lia. cbn [for_each].
      unfold months_of, py_range. rewrite Z.eqb_refl.
      by rewrite seqZ_nil by lia.
Qed.

End PageOutcomes.

(** ** What coercion returns, and what counts as rich *)

Section CoercionResults.
Context `{PyRuntime}.

(** X8: when coercion returns a string, [int] and [float] rejected the
    stripped text, and the string is a prefix of the stripped text, all of
    its characters being ASCII; a text without any ASCII character comes out
    as what the empty text is coerced to. *)
Theorem try_to_convert_to_numeric_string (s : string) :
  (forall r,
     try_to_convert_to_numeric (RawStr s) = VStr r ->
     string_forallb is_ascii r = true
     /\ int_of_str (string_filter is_ascii s) = None
     /\ float_of_str (string_filter is_ascii s) = None
     /\ exists rest, string_filter is_ascii s = r +:+ rest)
  /\ (string_existsb is_ascii s = false ->
      try_to_convert_to_numeric (RawStr s) = try_to_convert_to_numeric (RawStr "")).
Proof.
  split.
  - intros r. unfold try_to_convert_to_numeric.
    rewrite replace_all_non_ASCII_filter.
    pose proof (string_filter_forall is_ascii s) as Hascii.
    destruct (int_of_str _); [done|]. destruct (float_of_str _); [done|].
    rewrite legend_number_scan.
    destruct (numeric_prefix _) as [[num rest]|] eqn:Hscan.
    + destruct (legend_on_line rest).
      * intros [= <-]. destruct (numeric_prefix_Some _ _ _ Hscan) as [Hsplit _].
        split_and!; [|done|done|by exists rest].
        rewrite Hsplit, string_forallb_app in Hascii.
        by apply andb_true_iff in Hascii as [? _].
      * intros [= <-]. split_and!; [done..|]. exists "". by rewrite app_nil_r.
    + intros [= <-]. split_and!; [done..|]. exists "". by rewrite app_nil_r.
  - intros Hnone. unfold try_to_convert_to_numeric.
    rewrite !replace_all_non_ASCII_filter.
    assert (string_filter is_ascii s = "") as ->; [|done].
    induction s as [|a s IH]; [done|]. simpl in Hnone |- *.
    apply orb_false_iff in Hnone as [-> Hs]. by apply IH.
Qed.

Lemma string_existsb_impl (p q : ascii -> bool) (s : string) :
  (forall c, p c = true -> q c = true) ->
  string_existsb p s = true -> string_existsb q s = true.
Proof.
  intros Hpq. rewrite !string_existsb_exists.
  intros (c & Hin & Hc). exists c. auto.
Qed.

(** X9: a value that counts towards the richness of a record has a digit:
    [has_non_zero_digits] implies [has_digits], a string without a digit
    never counts, and the richness of a record is at most the number of its
    values that have a digit. *)
Theorem has_non_zero_digits_has_digits :
  (forall v : value, has_non_zero_digits v = true -> has_digits v = true)
  /\ (forall s, string_existsb isdigit s = false ->
                has_non_zero_digits (VStr s) = false)
  /\ (forall l : list value,
        (richness l <= length (filter (fun v => has_digits v = true) l))%nat
        /\ (richness l <= length l)%nat).
Proof.
  assert (Himpl : forall v : value,
            has_non_zero_digits v = true -> has_digits v = true).
  { intros [n|f|s]; [done..|]. unfold has_non_zero_digits, has_digits. simpl.
    apply string_existsb_impl. intros c Hc.
    by apply andb_true_iff in Hc as [? _]. }
  split_and!.
  - exact Himpl.
  - intros s Hs. destruct (has_non_zero_digits (VStr s)) eqn:Hv; [|done].
    apply Himpl in Hv. unfold has_digits in Hv. simpl in Hv. congruence.
  - intros l. unfold richness. induction l as [|v l [IH1 IH2]]; [done|].
    destruct (has_non_zero_digits v) eqn:Hv.
    + rewrite filter_cons_True by done.
      rewrite (filter_cons_True (fun v => has_digits v = true)) by auto.
      simpl. lia.
    + rewrite filter_cons_False by congruence.
      destruct (has_digits v) eqn:Hd.
      * rewrite (filter_cons_True (fun v => has_digits v = true)) by done.
        simpl. lia.
      * rewrite (filter_cons_False (fun v => has_digits v = true)) by congruence.
        simpl. lia.
Qed.

End CoercionResults.

Lemma try_to_convert_to_numeric_string_witness :
  try_to_convert_to_numeric (H := cpython) (RawStr "12.5LegendEE") = VStr "12.5"
  /\ string_forallb is_ascii "12.5" = true
  /\ @int_of_str cpython (string_filter is_ascii "12.5LegendEE") = None
  /\ @float_of_str cpython (string_filter is_ascii "12.5LegendEE") = None
  /\ exists rest, string_filter is_ascii "12.5LegendEE" = "12.5" +:+ rest.
Proof.
  assert (Hrun : try_to_convert_to_numeric (H := cpython) (RawStr "12.5LegendEE")
                 = VStr "12.5") by (vm_compute; reflexivity).
  split; [exact Hrun|].
  destruct (try_to_convert_to_numeric_string (H := cpython) "12.5LegendEE")
    as [Hstring _].
  exact (Hstring "12.5" Hrun).
Defined.

(** ** The column map and the statement, in general *)

Section ColumnMaps.
Context `{PyRuntime}.

Lemma asdict_lookup_None (r : ClimateData) (name : string) :
  name ∉ cd_fields r -> asdict r !! name = None.
Proof.
  intros Hout. unfold asdict.
  assert (Hgen : forall (l : list (string * value)) (m : gmap string value),
            m !! name = None -> (forall kv, kv ∈ l -> kv.1 <> name) ->
            foldl (fun m kv => <[kv.1 := kv.2]> m) m l !! name = None).
  { induction l as [|[k v] l IH]; intros m Hm Hl; [done|]. simpl. apply IH.
    - rewrite lookup_insert_ne; [done|]. apply (Hl (k, v)). left.
    - intros kv Hkv. apply Hl. by right. }
  apply Hgen; [done|]. intros [k v] Hkv Heq. simpl in Heq. subst k.
  apply Hout. by apply elem_of_zip_l in Hkv.
Qed.

Lemma defaults_lookup (missing : list string) (m : gmap string value) (name : string) :
  foldl (fun m column_name => <[column_name := get_default_data_value column_name]> m)
    m missing !! name
  = if bool_decide (name ∈ missing) then Some (get_default_data_value name)
    else m !! name.
Proof.
  revert m. induction missing as [|k l IH]; intros m; [done|].
  simpl. rewrite IH. destruct (decide (name ∈ l)) as [Hin|Hout].
  - rewrite !bool_decide_eq_true_2; [done | by right | done].
  - rewrite (bool_decide_eq_false_2 (name ∈ l)) by done.
    destruct (decide (k = name)) as [->|Hne].
    + rewrite lookup_insert_eq, bool_decide_eq_true_2; [done | left].
    + rewrite lookup_insert_ne by done. rewrite bool_decide_eq_false_2; [done|].
      intros Hin. apply elem_of_cons in Hin as [->|Hin]; done.
Qed.

Lemma default_is_zero (name : string) :
  (if is_marker (get_default_data_value name) then VInt 0
   else get_default_data_value name) = VInt 0.
Proof. unfold get_default_data_value. by destruct (bool_decide _). Qed.

(** X10: the column map of a record has an entry exactly for the fields of
    the record and the columns of the table; a column of the table that the
    record lacks is mapped to 0, also where its default is the empty string;
    and what a field of the record is mapped to does not depend on the
    columns of the table. *)
Theorem construct_column_insert_map_columns (t : ClimateData)
    (sql_column_name_list : list string) (key : string) :
  length (cd_values t) = length (cd_fields t) ->
  (is_Some (construct_column_insert_map_from_tuple t sql_column_name_list !! key)
   <-> key ∈ cd_fields t \/ key ∈ sql_column_name_list)
  /\ (key ∈ sql_column_name_list -> key ∉ cd_fields t ->
      construct_column_insert_map_from_tuple t sql_column_name_list !! key
      = Some (VInt 0))
  /\ (key ∈ cd_fields t ->
      construct_column_insert_map_from_tuple t sql_column_name_list !! key
      = (fun v => if is_marker v then VInt 0 else v) <$> asdict t !! key).
Proof.
  intros Hlen.
  assert (Hlook :
    construct_column_insert_map_from_tuple t sql_column_name_list !! key
    = (fun v => if is_marker v then VInt 0 else v)
      <$> (if bool_decide (key ∈ sql_column_name_list /\ key ∉ cd_fields t)
           then Some (get_default_data_value key) else asdict t !! key)).
  { unfold construct_column_insert_map_from_tuple, column_map_with_defaults.
    rewrite lookup_fmap, defaults_lookup.
    rewrite (bool_decide_ext _ (key ∈ sql_column_name_list /\ key ∉ cd_fields t));
      [done|].
    rewrite list_elem_of_filter. tauto. }
  split_and!.
  - rewrite Hlook, fmap_is_Some. case_bool_decide as Hcase.
    + split; [intros _; right; tauto | by eexists].
    + split.
      * intros Hsome. destruct (decide (key ∈ cd_fields t)) as [?|Hout]; [by left|].
        rewrite asdict_lookup_None in Hsome by done. by destruct Hsome.
      * intros [Hin|Hin]; [by apply asdict_is_Some|].
        destruct (decide (key ∈ cd_fields t)) as [?|Hout];
          [by apply asdict_is_Some | tauto].
  - intros Hin Hout. rewrite Hlook, bool_decide_eq_true_2 by done.
    simpl. by rewrite default_is_zero.
  - intros Hin. rewrite Hlook, bool_decide_eq_false_2 by tauto. done.
Qed.

Lemma where_column_dict_cases (column_map : gmap string value) (cs : list column) :
  (forall c, c ∈ cs -> c_primary_key c = true -> is_Some (column_map !! c_name c))
  \/ ((exists c, c ∈ cs /\ c_primary_key c = true /\ column_map !! c_name c = None)
      /\ where_column_dict column_map cs = inl KeyError).
Proof.
  induction cs as [|c cs IH].
  - left. intros c Hc. by apply elem_of_nil in Hc.
  - cbn [where_column_dict].
    destruct (c_primary_key c) eqn:Hpk.
    + destruct (column_map !! c_name c) as [v|] eqn:Hv.
      * cbn [of_option bind]. destruct IH as [Hall|[(c' & Hin & Hkey & Hnone) ->]].
        -- left. intros c' Hc' Hkey. apply elem_of_cons in Hc' as [->|Hc'];
             [by rewrite Hv | by apply Hall].
        -- right. split; [|done]. exists c'. split_and!; [by right|done..].
      * right. split; [|done]. exists c. split_and!; [left|done..].
    + destruct IH as [Hall|[(c' & Hin & Hkey & Hnone) ->]].
      * left. intros c' Hc' Hkey. apply elem_of_cons in Hc' as [->|Hc'];
          [congruence | by apply Hall].
      * right. split; [|done]. exists c'. split_and!; [by right|done..].
Qed.

(** X11: [generate_update_table_sql] raises exactly when the column map lacks
    a column of the primary key of the table, and what it raises is
    [KeyError]; a column outside the primary key that the map lacks never
    makes it fail, its default is written.  When it returns, it returns the
    statement that sets every column outside the primary key and filters by
    every column of the primary key. *)
Theorem generate_update_table_sql_outcome (column_map : gmap string value)
    (t : sql_table) :
  (forall e,
     generate_update_table_sql column_map t = inl e <->
     e = KeyError
     /\ exists c, c ∈ t_c t /\ c_primary_key c = true
                  /\ column_map !! c_name c = None)
  /\ (forall sql,
        generate_update_table_sql column_map t = inr sql ->
        sql = update_statement column_map t).
Proof.
  destruct (where_column_dict_cases column_map (t_c t)) as [Hall|[Hmiss Hwhere]].
  - rewrite (generate_update_table_sql_present _ _ Hall). split.
    + intros e. split; [done|]. intros (_ & c & Hin & Hkey & Hnone).
      destruct (Hall c Hin Hkey) as [v Hv]. congruence.
    + by intros sql [= <-].
  - unfold generate_update_table_sql. rewrite Hwhere. cbn [bind]. split.
    + intros e. split; [by intros [= <-] | by intros [-> _]].
    + done.
Qed.

End ColumnMaps.

Lemma construct_column_insert_map_columns_witness :
  length (cd_values march_record) = length (cd_fields march_record)
  /\ "total_rain" ∈ map c_name (t_c sample_table)
  /\ ("total_rain" ∉ cd_fields march_record)
  /\ construct_column_insert_map_from_tuple (H := cpython) march_record
       (map c_name (t_c sample_table)) !! "total_rain" = Some (VInt 0).
Proof.
  assert (Hin : "total_rain" ∈ map c_name (t_c sample_table))
    by (apply (bool_decide_unpack _); vm_compute; exact I).
  assert (Hout : "total_rain" ∉ cd_fields march_record)
    by (apply (bool_decide_unpack _); vm_compute; exact I).
  split; [reflexivity|]. split; [exact Hin|]. split; [exact Hout|].
  destruct (construct_column_insert_map_columns (H := cpython) march_record
              (map c_name (t_c sample_table)) "total_rain" eq_refl)
    as (_ & Hmissing & _).
  exact (Hmissing Hin Hout).
Defined.

(** ** Persisting the map of a run *)

Section LoopFacts.
Context {A S : Type}.

Lemma for_each_ext (f g : A -> S -> result S) (l : list A) (s : S) :
  (forall x s, x ∈ l -> f x s = g x s) -> for_each f l s = for_each g l s.
Proof.
  revert s. induction l as [|x l IH]; intros s Hfg; [done|].
  simpl. rewrite (Hfg x s) by left. destruct (g x s) as [e|s']; [done|].
  simpl. apply IH. intros y t Hy. apply Hfg. by right.
Qed.

(** An exception of a loop is the exception of one of its iterations. *)
Lemma for_each_raises (f : A -> S -> result S) (l : list A) (s : S) (e : exn) :
  for_each f l s = inl e -> exists x s', x ∈ l /\ f x s' = inl e.
Proof.
  revert s. induction l as [|x l IH]; intros s; [done|].
  simpl. destruct (f x s) as [e'|s'] eqn:Hx; simpl.
  - intros [= ->]. exists x, s. split; [left | done].
  - intros Hrest. destruct (IH _ Hrest) as (y & t & Hy & Hrun).
    exists y, t. split; [by right | done].
Qed.

End LoopFacts.

Section PersistRun.
Context `{PyRuntime}.
Variable db : Type.
Variable execute_insert : sql_table -> gmap string value -> db -> result db.
Variable execute_text : string -> db -> result db.
Variable create_all : sql_table -> db -> result db.
Variable get_column_names : string -> db -> result (list string).

Lemma get_climate_data_map_items (data : list station)
    (fetch : string -> result document) (city province : string)
    (start_year start_month end_year end_month : Z) (fetch_all : bool)
    (m : climate_map) :
  get_climate_data_map data fetch city province start_year start_month
    end_year end_month fetch_all = inr m ->
  items_of_rows m.
Proof.
  unfold get_climate_data_map.
  destruct (get_station_data data city province) as [e|station_data]; [done|].
  cbn [bind].
  apply for_each_invariant; [|by intros k r Hin; apply elem_of_nil in Hin].
  intros year s s' _ Hs. apply for_each_invariant; [|done].
  intros month s1 s1' _ Hs1. apply for_each_invariant; [|done].
  intros row s2 s2' _ Hs2. by apply scrape_station_items.
Qed.

Lemma record_of_row_primary_key (r : ClimateData) (year month : Z)
    (first_cell name : string) (c : column) :
  record_of_row r year month first_cell ->
  c ∈ t_c (weather_table name) -> c_primary_key c = true ->
  c_name c ∈ cd_fields r.
Proof.
  intros (c0 & p & i & n & columns & rest & -> & _ & _) Hc Hkey.
  apply elem_of_app. left. cbn [weather_table t_c] in Hc.
  repeat (apply elem_of_cons in Hc as [->|Hc];
          [first [discriminate Hkey | cbn [Column c_name]; set_solver]|]).
  by apply elem_of_nil in Hc.
Qed.

(** X12: persisting the map a run returned.  Every record of such a map has
    the columns of the primary key of the table, so that the UPDATE statement
    of a record can always be built: each record, in the order of the map, is
    inserted, and where the insert raises [IntegrityError] its UPDATE
    statement is executed instead; the first other exception ends the run.
    The run raises [KeyError] only when the database does. *)
Theorem insert_climate_data_of_run (data : list station)
    (fetch : string -> result document) (city province : string)
    (start_year start_month end_year end_month : Z) (fetch_all : bool)
    (m : climate_map) (database_table_name : string) (names : list string)
    (drop_and_create_table : bool) (d : db) :
  get_climate_data_map data fetch city province start_year start_month
    end_year end_month fetch_all = inr m ->
  (forall d, get_column_names database_table_name d = inr names) ->
  let t := weather_table database_table_name in
  insert_climate_data_into_database db execute_insert execute_text create_all
    get_column_names m database_table_name drop_and_create_table d
  = (let* d :=
       if drop_and_create_table then
         let* d := execute_text ("DROP TABLE IF EXISTS " +:+ database_table_name) d in
         create_all t d
       else inr d in
     for_each
       (fun item d =>
          let column_map := construct_column_insert_map_from_tuple item.2 names in
          match execute_insert t column_map d with
          | inl IntegrityError => execute_text (update_statement column_map t) d
          | outcome => outcome
          end) m d)
  /\ ((forall column_map d, execute_insert t column_map d <> inl KeyError) ->
      (forall statement d, execute_text statement d <> inl KeyError) ->
      (forall d, create_all t d <> inl KeyError) ->
      insert_climate_data_into_database db execute_insert execute_text create_all
        get_column_names m database_table_name drop_and_create_table d
      <> inl KeyError).
Proof.
  intros Hrun Hnames t.
  pose proof (get_climate_data_map_items _ _ _ _ _ _ _ _ _ _ Hrun) as Hitems.
  assert (Hloop : forall item d,
            item ∈ m ->
            insert_or_update db execute_insert execute_text get_column_names
              t item.2 d
            = let column_map := construct_column_insert_map_from_tuple item.2 names in
              match execute_insert t column_map d with
              | inl IntegrityError => execute_text (update_statement column_map t) d
              | outcome => outcome
              end).
  { intros [k r] d0 Hin. cbn [snd].
    destruct (Hitems k r Hin) as (year & month & first_cell & run & Hrow & _).
    unfold insert_or_update. cbn [t_name t weather_table].
    rewrite Hnames. cbn [bind].
    rewrite generate_update_table_sql_present; [done|].
    intros c Hc Hkey. apply construct_is_Some.
    - by destruct Hrow as (? & ? & ? & ? & ? & ? & _ & _ & ?).
    - by eapply record_of_row_primary_key. }
  assert (Heq :
    insert_climate_data_into_database db execute_insert execute_text create_all
      get_column_names m database_table_name drop_and_create_table d
    = (let* d :=
         if drop_and_create_table then
           let* d := execute_text ("DROP TABLE IF EXISTS " +:+ database_table_name) d in
           create_all t d
         else inr d in
       for_each
         (fun item d =>
            let column_map := construct_column_insert_map_from_tuple item.2 names in
            match execute_insert t column_map d with
            | inl IntegrityError => execute_text (update_statement column_map t) d
            | outcome => outcome
            end) m d)).
  { unfold insert_climate_data_into_database. fold t.
    destruct (if drop_and_create_table then _ else _) as [e|d1]; [done|].
    cbn [bind]. apply for_each_ext. intros item d0 Hin. by apply Hloop. }
  split; [exact Heq|].
  intros Hinsert Htext Hcreate. rewrite Heq. clear Heq.
  destruct drop_and_create_table.
  - destruct (execute_text _ d) as [e|d1] eqn:Hdrop.
    { cbn [bind]. rewrite <- Hdrop. apply Htext. }
    cbn [bind]. destruct (create_all t d1) as [e|d2] eqn:Hmake.
    { cbn [bind]. rewrite <- Hmake. apply Hcreate. }
    cbn [bind]. intros Hraise.
    apply for_each_raises in Hraise as (item & d0 & _ & Hraise). cbv zeta in Hraise.
    destruct (execute_insert t _ d0) as [[]|] eqn:Hi; try done;
      first [by apply Htext in Hraise | by apply Hinsert in Hi].
  - cbn [bind]. intros Hraise.
    apply for_each_raises in Hraise as (item & d0 & _ & Hraise). cbv zeta in Hraise.
    destruct (execute_insert t _ d0) as [[]|] eqn:Hi; try done;
      first [by apply Htext in Hraise | by apply Hinsert in Hi].
Qed.

End PersistRun.

Lemma insert_climate_data_of_run_witness :
  get_climate_data_map (H := cpython) sample_inventory march_site
    "Toronto" "" 2019 3 2019 3 false = inr march_run
  /\ (forall d, weather_columns "gov_of_canada_weather_data" d
                = inr (map c_name (t_c sample_table)))
  /\ insert_climate_data_into_database (H := cpython) (list string) full_insert
       log_text (fun _ d => inr d) weather_columns march_run
       "gov_of_canada_weather_data" false []
     = for_each
         (fun (item : map_key * ClimateData_of cfloat) d =>
            log_text
              (update_statement (H := cpython)
                 (construct_column_insert_map_from_tuple (H := cpython) item.2
                    (map c_name (t_c sample_table)))
                 sample_table) d)
         march_run [].
Proof.
  assert (Hrun : get_climate_data_map (H := cpython) sample_inventory march_site
                   "Toronto" "" 2019 3 2019 3 false = inr march_run)
    by (vm_compute; reflexivity).
  split; [exact Hrun|]. split; [reflexivity|].
  exact (proj1 (insert_climate_data_of_run (H := cpython) (list string) full_insert
                  log_text (fun _ d => inr d) weather_columns sample_inventory
                  march_site "Toronto" "" 2019 3 2019 3 false march_run
                  "gov_of_canada_weather_data" (map c_name (t_c sample_table))
                  false [] Hrun (fun d => eq_refl))).
Defined.

(** ** The arguments of the station query *)

Lemma upper_char_idemp (c : ascii) : upper_char (upper_char c) = upper_char c.
Proof. destruct c as [[] [] [] [] [] [] [] []]; reflexivity. Qed.

Lemma upper_lower_char (c : ascii) : upper_char (lower_char c) = upper_char c.
Proof. destruct c as [[] [] [] [] [] [] [] []]; reflexivity. Qed.

Lemma upper_idemp (s : string) : upper (upper s) = upper s.
Proof.
  induction s as [|c s IH]; [done|].
  unfold upper in *. simpl. by rewrite upper_char_idemp, IH.
Qed.

Lemma upper_lower (s : string) : upper (lower s) = upper s.
Proof.
  induction s as [|c s IH]; [done|].
  unfold upper, lower in *. simpl. by rewrite upper_lower_char, IH.
Qed.

Lemma upper_empty (s : string) : upper s = "" <-> s = "".
Proof. by destruct s. Qed.

Lemma plain_char_upper (c : ascii) : plain_char c = true -> plain_char (upper_char c) = true.
Proof. destruct c as [[] [] [] [] [] [] [] []]; try done. Qed.

Lemma plain_char_lower (c : ascii) : plain_char c = true -> plain_char (lower_char c) = true.
Proof. destruct c as [[] [] [] [] [] [] [] []]; try done. Qed.

Lemma plain_text_upper (s : string) : plain_text s = true -> plain_text (upper s) = true.
Proof.
  unfold plain_text, upper. induction s as [|c s IH]; [done|]. simpl.
  rewrite !andb_true_iff. intros [Hc Hs]. split; [by apply plain_char_upper | auto].
Qed.

Lemma plain_text_lower (s : string) : plain_text s = true -> plain_text (lower s) = true.
Proof.
  unfold plain_text, lower. induction s as [|c s IH]; [done|]. simpl.
  rewrite !andb_true_iff. intros [Hc Hs]. split; [by apply plain_char_lower | auto].
Qed.

Lemma station_query_case (city city' province province' : string) (row : station) :
  upper city' = upper city -> upper province' = upper province ->
  station_query city' province' row = station_query city province row.
Proof.
  intros Hc Hp. unfold station_query. rewrite Hc, Hp.
  assert (String.eqb province' "" = String.eqb province "") as ->; [|done].
  destruct (String.eqb_spec province "") as [->|Hne].
  - apply (proj1 (upper_empty province')) in Hp. by rewrite Hp.
  - destruct (String.eqb_spec province' "") as [->|_]; [|done].
    symmetry in Hp. by apply (proj1 (upper_empty province)) in Hp.
Qed.

Lemma get_station_data_ext (data : list station) (city city' province province' : string) :
  (forall row, station_query city' province' row = station_query city province row) ->
  get_station_data data city' province' = get_station_data data city province.
Proof.
  intros Hq. unfold get_station_data.
  rewrite (list_filter_iff (fun row => station_query city' province' row = true)
             (fun row => station_query city province row = true)); [done|].
  intros row. by rewrite Hq.
Qed.

(** X13: the station query does not depend on the case of the city and of
    the province it is given; the rows it returns are rows of the inventory,
    in the order of the inventory and none of them more often than there;
    and a query with a province returns part of what the query for the city
    alone returns. *)
Theorem get_station_data_case (data : list station) (city province : string) :
  plain_text city = true ->
  plain_text province = true ->
  (forall city' province',
     plain_text city' = true -> plain_text province' = true ->
     upper city' = upper city -> upper province' = upper province ->
     get_station_data data city' province' = get_station_data data city province)
  /\ (plain_text (upper city) = true /\ plain_text (upper province) = true
      /\ get_station_data data (upper city) (upper province)
         = get_station_data data city province)
  /\ (plain_text (lower city) = true /\ plain_text (lower province) = true
      /\ get_station_data data (lower city) (lower province)
         = get_station_data data city province)
  /\ (forall rows,
        get_station_data data city province = inr rows ->
        rows `sublist_of` data
        /\ exists all_rows,
             get_station_data data city "" = inr all_rows
             /\ rows `sublist_of` all_rows).
Proof.
  intros Hcity Hprov. split; [|split; [|split]].
  - intros city' province' _ _ Hc Hp. apply get_station_data_ext.
    intros row. by apply station_query_case.
  - split_and!; [by apply plain_text_upper..|].
    apply get_station_data_ext. intros row.
    apply station_query_case; apply upper_idemp.
  - split_and!; [by apply plain_text_lower..|].
    apply get_station_data_ext. intros row.
    apply station_query_case; apply upper_lower.
  - intros rows. unfold get_station_data.
    set (P := fun row => station_query city province row = true).
    set (Q := fun row => station_query city "" row = true).
    assert (Hpart : filter P data = filter P (filter Q data)).
    { symmetry. apply list_filter_filter_l. intros row. unfold P, Q, station_query.
      rewrite !andb_true_iff. intros [Hname _]. done. }
    destruct (length (filter P data) <=? 0)%nat eqn:Hlen; [done|].
    intros [= <-]. split; [apply sublist_filter|].
    exists (filter Q data). split; [|rewrite Hpart; apply sublist_filter].
    apply Nat.leb_gt in Hlen.
    pose proof (sublist_length (filter P (filter Q data)) (filter Q data)
                  (sublist_filter _ _)) as Hle.
    rewrite <- Hpart in Hle.
    destruct (length (filter Q data) <=? 0)%nat eqn:Hall; [|done].
    apply Nat.leb_le in Hall. lia.
Qed.

Lemma get_station_data_case_witness :
  plain_text "Toronto" = true
  /\ plain_text "Ontario" = true
  /\ get_station_data sample_inventory "toRONto" "ontario"
     = get_station_data sample_inventory "Toronto" "Ontario"
  /\ get_station_data sample_inventory "Toronto" "Ontario"
     = inr [station_toronto_city].
Proof.
  split; [reflexivity|]. split; [reflexivity|]. split; [|reflexivity].
  destruct (get_station_data_case sample_inventory "Toronto" "Ontario"
              eq_refl eq_refl) as (Hcase & _).
  exact (Hcase "toRONto" "ontario" eq_refl eq_refl eq_refl eq_refl).
Defined.

(** ** The report URL *)

Lemma differs_startswith (old u t : string) :
  differs old u = true -> startswith old (u +:+ t) = false.
Proof.
  revert u. induction old as [|a old IH]; intros [|b u]; try done.
  rewrite app_cons. simpl. destruct (Ascii.eqb a b); simpl; [apply IH | done].
Qed.

(** Text in which no occurrence can start is copied. *)
Lemma str_replace_go_clear (old new pre t : string) :
  clear_of old pre = true ->
  str_replace_go old new 0 (pre +:+ t) = pre +:+ str_replace_go old new 0 t.
Proof.
  induction pre as [|c pre IH]; [done|].
  cbn [clear_of]. rewrite andb_true_iff. intros [Hdiff Hclear].
  rewrite !app_cons. cbn [str_replace_go].
  assert (startswith old (String c (pre +:+ t)) = false) as ->
    by (rewrite <- app_cons; by apply differs_startswith).
  by rewrite IH.
Qed.

Lemma clear_of_first (a : ascii) (old d : string) :
  string_existsb (Ascii.eqb a) d = false -> clear_of (String a old) d = true.
Proof.
  induction d as [|c d IH]; [done|]. simpl.
  rewrite orb_false_iff. intros [-> Hd]. simpl. by apply IH.
Qed.

Lemma digits_lack (a : ascii) (d : string) :
  digit_or_minus a = false ->
  string_forallb digit_or_minus d = true ->
  string_existsb (Ascii.eqb a) d = false.
Proof.
  intros Ha. induction d as [|c d IH]; [done|]. simpl.
  rewrite andb_true_iff. intros [Hc Hd]. rewrite (IH Hd), orb_false_r.
  destruct (Ascii.eqb_spec a c) as [->|]; [congruence | done].
Qed.

Lemma pretty_N_char_decimal (x : N) : is_decimal (pretty_N_char x) = true.
Proof. unfold pretty_N_char. by repeat case_match. Qed.

Lemma pretty_N_go_digits (x : N) :
  exists d, string_forallb is_decimal d = true
            /\ forall s, pretty_N_go x s = d +:+ s.
Proof.
  induction (N.lt_wf_0 x) as [x _ IH].
  assert (x = 0 \/ 0 < x)%N as [->|Hpos] by lia.
  - by exists "".
  - destruct (IH (x `div` 10)%N) as (d & Hd & Hgo); [by apply N.div_lt|].
    exists (d +:+ String (pretty_N_char (x `mod` 10)) ""). split.
    + rewrite string_forallb_app, Hd. simpl. by rewrite pretty_N_char_decimal.
    + intros s. rewrite pretty_N_go_step, Hgo by done.
      by rewrite app_assoc_s, app_cons.
Qed.

Lemma string_forallb_impl (p q : ascii -> bool) (s : string) :
  (forall c, p c = true -> q c = true) ->
  string_forallb p s = true -> string_forallb q s = true.
Proof.
  intros Hpq. induction s as [|c s IH]; [done|]. simpl.
  rewrite !andb_true_iff. intros [Hc Hs]. auto.
Qed.

(** [str(n)] is made of digits and a minus sign. *)
Lemma pretty_Z_chars (z : Z) : string_forallb digit_or_minus (pretty z) = true.
Proof.
  assert (Hpos : forall p : positive,
            string_forallb digit_or_minus (pretty p) = true).
  { intros p. unfold pretty, pretty_positive, pretty, pretty_N.
    case_decide; [done|].
    destruct (pretty_N_go_digits (N.pos p)) as (d & Hd & ->).
    rewrite app_nil_r. revert Hd. apply string_forallb_impl.
    intros c Hc. unfold digit_or_minus. by rewrite Hc. }
  destruct z as [|p|p]; [done | apply Hpos |].
  unfold pretty, pretty_Z. rewrite app_cons, app_nil_l. simpl. apply Hpos.
Qed.

(** Two texts that end before an ampersand and agree with what follows. *)
Lemma app_ampersand_inj (d1 d2 r1 r2 : string) :
  string_existsb (Ascii.eqb "&") d1 = false ->
  string_existsb (Ascii.eqb "&") d2 = false ->
  d1 +:+ String "&" r1 = d2 +:+ String "&" r2 -> d1 = d2 /\ r1 = r2.
Proof.
  revert d2. induction d1 as [|a d1 IH]; intros [|b d2];
    cbn [string_existsb]; rewrite ?app_nil_l, ?app_cons, ?orb_false_iff.
  - intros _ _ [= <-]. done.
  - intros _ [Hb _] [= <- _]. by rewrite Ascii.eqb_refl in Hb.
  - intros [Ha _] _ [= -> _]. by rewrite Ascii.eqb_refl in Ha.
  - intros [_ H1] [_ H2] [= -> Heq].
    destruct (IH _ H1 H2 Heq) as [-> ->]. done.
Qed.

Lemma app_inv_head_s (p a b : string) : p +:+ a = p +:+ b -> a = b.
Proof.
  induction p as [|c p IH]; [done|]. rewrite !app_cons. intros [= Heq]. auto.
Qed.

(** The province codes contain nothing a later replacement or the reader of
    the URL could take for a parameter. *)
Lemma province_code_safe (province prov : string) :
  dict_get province province_map = Some prov ->
  clear_of "Month=" prov = true
  /\ clear_of "Year=" prov = true
  /\ string_existsb (Ascii.eqb "&") prov = false.
Proof.
  intros Hget. apply dict_get_Some_elem in Hget. unfold province_map in Hget.
  repeat (apply elem_of_cons in Hget as [[= -> ->]|Hget]; [by vm_compute|]).
  by apply elem_of_nil in Hget.
Qed.

(** X14: the four replacements on the template give the URL with the station
    id, the province code, the month and the year after their parameter
    names, for every station id, month and year and every code of
    [province_map]; and that URL determines the station id, the code, the
    month and the year. *)
Theorem daily_data_url_replaced_spec (station_id month year : Z)
    (province prov : string) :
  dict_get province province_map = Some prov ->
  daily_data_url_replaced station_id prov month year
  = daily_data_url station_id prov month year
  /\ forall station_id' province' prov' month' year',
       dict_get province' province_map = Some prov' ->
       daily_data_url station_id prov month year
       = daily_data_url station_id' prov' month' year' ->
       station_id = station_id' /\ prov = prov' /\ month = month' /\ year = year'.
Proof.
  intros Hprov.
  destruct (province_code_safe _ _ Hprov) as (Hmonth & Hyear & Hamp).
  split.
  - pose proof (pretty_Z_chars station_id) as Hsid.
    pose proof (pretty_Z_chars month) as Hsm.
    unfold daily_data_url_replaced, daily_data_url, str_replace,
      get_gc_ca_daily_data_url.
    revert Hsid Hsm. generalize (pretty station_id) (pretty month) (pretty year).
    intros sid sm sy Hsid Hsm. cbv zeta.
    set (P1 := "http://climate.weather.gc.ca/climate_data/daily_data_e.html?&StationID=").
    assert (E1 :
      str_replace_go "StationID=" ("StationID=" +:+ sid) 0
        "http://climate.weather.gc.ca/climate_data/daily_data_e.html?&StationID=&Prov=&Month=&Year="
      = P1 +:+ sid +:+ "&Prov=&Month=&Year=") by reflexivity.
    rewrite E1. clear E1.
    assert (Hclear : forall a old, digit_or_minus a = false ->
              forall d, string_forallb digit_or_minus d = true ->
              clear_of (String a old) d = true).
    { intros a old Ha d Hd. by apply clear_of_first, digits_lack. }
    rewrite (str_replace_go_clear "Prov=" _ P1) by reflexivity.
    rewrite (str_replace_go_clear "Prov=" _ sid) by (by apply Hclear).
    assert (E2 :
      str_replace_go "Prov=" ("Prov=" +:+ prov) 0 "&Prov=&Month=&Year="
      = "&Prov=" +:+ prov +:+ "&Month=&Year=") by reflexivity.
    rewrite E2. clear E2.
    rewrite (str_replace_go_clear "Month=" _ P1) by reflexivity.
    rewrite (str_replace_go_clear "Month=" _ sid) by (by apply Hclear).
    rewrite (str_replace_go_clear "Month=" _ "&Prov=") by reflexivity.
    rewrite (str_replace_go_clear "Month=" _ prov) by done.
    assert (E3 :
      str_replace_go "Month=" ("Month=" +:+ sm) 0 "&Month=&Year="
      = "&Month=" +:+ sm +:+ "&Year=") by reflexivity.
    rewrite E3. clear E3.
    rewrite (str_replace_go_clear "Year=" _ P1) by reflexivity.
    rewrite (str_replace_go_clear "Year=" _ sid) by (by apply Hclear).
    rewrite (str_replace_go_clear "Year=" _ "&Prov=") by reflexivity.
    rewrite (str_replace_go_clear "Year=" _ prov) by done.
    rewrite (str_replace_go_clear "Year=" _ "&Month=") by reflexivity.
    rewrite (str_replace_go_clear "Year=" _ sm) by (by apply Hclear).
    assert (E4 :
      str_replace_go "Year=" ("Year=" +:+ sy) 0 "&Year="
      = "&Year=" +:+ sy +:+ "") by reflexivity.
    rewrite E4, app_nil_r. reflexivity.
  - intros station_id' province' prov' month' year' Hprov' Heq.
    destruct (province_code_safe _ _ Hprov') as (_ & _ & Hamp').
    assert (Hdigits : forall z : Z, string_existsb (Ascii.eqb "&") (pretty z) = false).
    { intros z. apply digits_lack; [done | apply pretty_Z_chars]. }
    unfold daily_data_url in Heq.
    apply app_inv_head_s in Heq.
    apply (app_inv_head_s "&StationID=") in Heq.
    apply (app_ampersand_inj _ _ ("Prov=" +:+ _) ("Prov=" +:+ _)) in Heq
      as [Hid Heq]; [|apply Hdigits..].
    apply (app_inv_head_s "Prov=") in Heq.
    apply (app_ampersand_inj _ _ ("Month=" +:+ _) ("Month=" +:+ _)) in Heq
      as [Hp Heq]; [|done..].
    apply (app_inv_head_s "Month=") in Heq.
    apply (app_ampersand_inj _ _ ("Year=" +:+ _) ("Year=" +:+ _)) in Heq
      as [Hm Heq]; [|apply Hdigits..].
    apply (app_inv_head_s "Year=") in Heq.
    split_and!; [by apply (inj (pretty (A := Z))) | done
                | by apply (inj (pretty (A := Z)))..].
Qed.

Lemma daily_data_url_replaced_spec_witness :
  dict_get "ONTARIO" province_map = Some "ON"
  /\ daily_data_url_replaced 31688 "ON" 3 2019 = daily_data_url 31688 "ON" 3 2019.
Proof.
  split; [reflexivity|].
  exact (proj1 (daily_data_url_replaced_spec 31688 3 2019 "ONTARIO" "ON" eq_refl)).
Defined.

(** ** The text between two delimiters *)

Section LazyScan.
Context {R : Type}.
Implicit Types (k : string -> captures -> option R) (c : captures).

Lemma lazy_scan_unfold (p : ascii -> bool) k (s : string) c :
  lazy_scan p k s c
  = orelse (k s c)
      match s with
      | String a s' => if p a then lazy_scan p k s' c else None
      | EmptyString => None
      end.
Proof. by destruct s. Qed.

(** Where a lazy scan succeeds, the continuation succeeded after some
    characters of the class. *)
Lemma lazy_scan_sound (p : ascii -> bool) k (s : string) c (x : R) :
  lazy_scan p k s c = Some x ->
  exists m t, s = m +:+ t /\ string_forallb p m = true /\ k t c = Some x.
Proof.
  induction s as [|a s IH]; cbn [lazy_scan].
  - destruct (k "" c) as [y|] eqn:Hk; [|done]. intros [= <-]. by exists "", "".
  - destruct (k (String a s) c) as [y|] eqn:Hk.
    + intros [= <-]. by exists "", (String a s).
    + cbn [orelse]. destruct (p a) eqn:Ha; [|done]. intros Hscan.
      destruct (IH Hscan) as (m & t & -> & Hm & Ht).
      exists (String a m), t. rewrite app_cons. cbn [string_forallb].
      by rewrite Ha, Hm.
Qed.

(** A lazy scan passes over text in which the continuation cannot succeed. *)
Lemma lazy_scan_clear (p : ascii -> bool) k (end_substring m t : string) c :
  (forall u c, startswith end_substring u = false -> k u c = None) ->
  string_forallb p m = true ->
  clear_of end_substring m = true ->
  lazy_scan p k (m +:+ t) c = lazy_scan p k t c.
Proof.
  intros Hk. induction m as [|a m IH]; [done|].
  cbn [string_forallb clear_of]. rewrite !andb_true_iff.
  intros [Ha Hm] [Hdiff Hclear].
  rewrite lazy_scan_unfold.
  rewrite (Hk _ c (differs_startswith _ _ t Hdiff)). cbn [orelse].
  rewrite app_cons, Ha. auto.
Qed.

End LazyScan.

Lemma re_match_between (start_substring end_substring s : string)
    (cs : captures) (rest : string) :
  re_match (between_pattern start_substring end_substring) s = Some (cs, rest) ->
  exists found,
    s = start_substring +:+ found +:+ end_substring +:+ rest
    /\ found <> ""
    /\ string_forallb dot_char found = true
    /\ cs = [(1%nat, found)].
Proof.
  unfold re_match, between_pattern. rewrite backtrack_Cat.
  destruct (startswith start_substring s) eqn:Hs;
    [|by rewrite backtrack_Lit_none].
  destruct (startswith_split _ _ Hs) as [s1 ->].
  rewrite backtrack_Lit_app, backtrack_Cat, backtrack_Grp.
  unfold LazyPlus. rewrite backtrack_Cat, backtrack_Cls.
  destruct s1 as [|a s1]; [done|]. destruct (dot_char a) eqn:Ha; [|done].
  rewrite backtrack_LazyStar_Cls. intros Hscan.
  apply lazy_scan_sound in Hscan as (m & t & -> & Hm & Hk).
  destruct (startswith end_substring t) eqn:Ht;
    [|by rewrite backtrack_Lit_none in Hk].
  destruct (startswith_split _ _ Ht) as [post ->].
  rewrite backtrack_Lit_app in Hk. injection Hk as <- <-.
  exists (String a m). split_and!.
  - by rewrite app_cons.
  - done.
  - cbn [string_forallb]. by rewrite Ha, Hm.
  - by rewrite <- app_cons, consumed_app.
Qed.

Lemma re_search_match_sound (r : regex) (s : string) (cs : captures) :
  re_search_match r s = Some cs ->
  exists pre s' rest, s = pre +:+ s' /\ re_match r s' = Some (cs, rest).
Proof.
  induction s as [|a s IH]; cbn [re_search_match].
  - destruct (re_match r "") as [[c rest]|] eqn:Hm; [|done].
    intros [= <-]. by exists "", "", rest.
  - destruct (re_match r (String a s)) as [[c rest]|] eqn:Hm.
    + intros [= <-]. by exists "", (String a s), rest.
    + intros Hs. destruct (IH Hs) as (pre & s' & rest & -> & Hs').
      exists (String a pre), s', rest. by rewrite app_cons.
Qed.

Lemma re_search_match_clear (start_substring end_substring pre t : string) :
  clear_of start_substring pre = true ->
  re_search_match (between_pattern start_substring end_substring) (pre +:+ t)
  = re_search_match (between_pattern start_substring end_substring) t.
Proof.
  induction pre as [|a pre IH]; [done|].
  cbn [clear_of]. rewrite andb_true_iff. intros [Hdiff Hclear].
  assert (Hnone : re_match (between_pattern start_substring end_substring)
                    (String a pre +:+ t) = None).
  { unfold re_match, between_pattern. rewrite backtrack_Cat.
    apply backtrack_Lit_none. by apply differs_startswith. }
  rewrite app_cons in *. cbn [re_search_match]. rewrite Hnone. auto.
Qed.

(** X15: [find_string_between], for delimiters that are literal as regular
    expressions.  What it returns is empty, or it stands in the text between
    the start and the end delimiter and has no newline.  Where the text has
    the start delimiter, a text without newline and the end delimiter, no
    start delimiter beginning earlier and no end delimiter beginning after
    the first character of the text between, that text is returned: its
    first character is taken whatever it is, and the shortest continuation
    is chosen. *)
Theorem find_string_between_spec (text start_substring end_substring : string) :
  re_literal start_substring = true ->
  re_literal end_substring = true ->
  (find_string_between text start_substring end_substring = ""
   \/ exists pre post,
        text = pre +:+ start_substring
               +:+ find_string_between text start_substring end_substring
               +:+ end_substring +:+ post
        /\ string_forallb dot_char
             (find_string_between text start_substring end_substring) = true)
  /\ (forall pre a mid post,
        text = pre +:+ start_substring +:+ String a mid +:+ end_substring +:+ post ->
        clear_of start_substring pre = true ->
        string_forallb dot_char (String a mid) = true ->
        clear_of end_substring mid = true ->
        find_string_between text start_substring end_substring = String a mid).
Proof.
  intros _ _. split.
  - unfold find_string_between.
    destruct (re_search_match _ text) as [cs|] eqn:Hsearch; [|by left].
    apply re_search_match_sound in Hsearch as (pre & s' & rest & -> & Hmatch).
    apply re_match_between in Hmatch as (found & -> & _ & Hline & ->).
    cbn [group Nat.eqb]. right. by exists pre, rest.
  - intros pre a mid post -> Hpre Hline Hmid.
    unfold find_string_between. rewrite re_search_match_clear by done.
    assert (Hmatch :
      re_match (between_pattern start_substring end_substring)
        (start_substring +:+ String a mid +:+ end_substring +:+ post)
      = Some ([(1%nat, String a mid)], post)).
    { unfold re_match, between_pattern.
      rewrite backtrack_Cat, backtrack_Lit_app, backtrack_Cat, backtrack_Grp.
      unfold LazyPlus. rewrite backtrack_Cat, app_cons, backtrack_Cls.
      cbn [string_forallb] in Hline. apply andb_true_iff in Hline as [-> Hline].
      rewrite backtrack_LazyStar_Cls.
      rewrite (lazy_scan_clear _ _ end_substring) by
        (try done; intros u c Hu; by apply backtrack_Lit_none).
      rewrite lazy_scan_unfold, backtrack_Lit_app. cbn [orelse].
      by rewrite <- app_cons, consumed_app. }
    destruct (start_substring +:+ String a mid +:+ end_substring +:+ post)
      as [|b t]; cbn [re_search_match]; by rewrite Hmatch.
Qed.

Lemma find_string_between_spec_witness :
  re_literal "'" = true
  /\ find_string_between "('max_temp', 'x')" "'" "'" = "max_temp".
Proof.
  split; [reflexivity|].
  destruct (find_string_between_spec "('max_temp', 'x')" "'" "'" eq_refl eq_refl)
    as [_ Hfound].
  exact (Hfound "(" "m"%char "ax_temp" ", 'x')" eq_refl eq_refl eq_refl eq_refl).
Defined.

(** ** Where the records of a run come from *)

Section ProvenanceFacts.
Context `{PyRuntime}.

(** What a loop adds to the map was added by one of its iterations. *)
Lemma for_each_items {A : Type} (Q : A -> map_key -> ClimateData -> Prop)
    (body : A -> climate_map -> result climate_map) (l : list A)
    (s s' : climate_map) :
  for_each body l s = inr s' ->
  (forall x s s', x ∈ l -> body x s = inr s' ->
     forall k r, (k, r) ∈ s' -> (k, r) ∈ s \/ Q x k r) ->
  forall k r, (k, r) ∈ s' -> (k, r) ∈ s \/ exists x, x ∈ l /\ Q x k r.
Proof.
  revert s. induction l as [|x l IH]; intros s Hrun Hbody k r Hin; simpl in Hrun.
  - injection Hrun as <-. by left.
  - destruct (body x s) as [e|s1] eqn:Hx; [done|]. simpl in Hrun.
    destruct (IH s1 Hrun
                (fun y t t' Hy => Hbody y t t' (list_elem_of_further _ _ _ Hy))
                k r Hin) as [Hs1|(y & Hy & HQ)].
    + destruct (Hbody x s s1 ltac:(left) Hx k r Hs1) as [?|HQ]; [by left|].
      right. exists x. split; [left | done].
    + right. exists y. split; [by right | done].
Qed.

Lemma scrape_row_from_row (city : string) (row : station) (year month : Z)
    (url : string) (fetch_all : bool) (t : table) (tr : table_row)
    (m m' : climate_map) :
  scrape_row city row year month url fetch_all (column_header_list t) tr m = inr m' ->
  forall k r, (k, r) ∈ m' ->
    (k, r) ∈ m \/ item_from_row city fetch_all row year month url t tr k r.
Proof.
  intros Hrun k r Hin. destruct (row_td tr) as [|first_cell cells] eqn:Htd.
  { unfold scrape_row in Hrun. by rewrite Htd in Hrun. }
  rewrite (scrape_row_run _ _ _ _ _ _ _ _ _ _ _ Htd) in Hrun.
  destruct (first_digit_run first_cell) as [run|] eqn:Hfirst;
    [|injection Hrun as <-; by left].
  destruct (int_of_str run) as [day|] eqn:Hday; [|done].
  cbn [of_option bind] in Hrun.
  destruct (store_items _ _ _ _ _ _ Hrun k r Hin) as [Hold|(-> & -> & Hlen)];
    [by left|].
  right. by exists first_cell, cells, run, day.
Qed.

Lemma scrape_station_from_page (fetch : string -> result document) (city : string)
    (fetch_all : bool) (year month : Z) (row : station) (m m' : climate_map) :
  scrape_station fetch city fetch_all year month row m = inr m' ->
  forall k r, (k, r) ∈ m' ->
    (k, r) ∈ m
    \/ exists prov,
         dict_get (Province row) province_map = Some prov
         /\ item_from_page fetch city fetch_all row year month prov k r.
Proof.
  unfold scrape_station.
  destruct (dict_get (Province row) province_map) as [prov|]; [|done].
  cbn [of_option bind]. destruct (fetch _) as [e|soup] eqn:Hfetch; [done|].
  cbn [bind]. destruct (month_name_map month) as [month_name|] eqn:Hname; [|done].
  cbn [of_option bind]. unfold scrape_document. intros Hrun k r Hin.
  destruct (for_each_items
              (fun c k r =>
                 caption_matches
                   ("Daily Data Report for " +:+ month_name +:+ " " +:+ pretty year) c
                 = true
                 /\ exists t tr,
                      caption_find_parent_table c = Some t
                      /\ tr ∈ data_rows t
                      /\ item_from_row city fetch_all row year month
                           (daily_data_url (Station_ID row) prov month year) t tr k r)
              _ _ _ _ Hrun) with (k := k) (r := r)
    as [Hold|(c & Hc & Hmatch & t & tr & Ht & Htr & Hrow)]; [|done|by left|].
  - intros c s s' _. destruct (caption_matches _ c) eqn:Hmatch;
      [|intros [= <-]; by left].
    unfold scrape_table.
    destruct (caption_find_parent_table c) as [t|] eqn:Ht; [|done].
    cbn [of_option bind]. destruct (namedtuple_ok _); [|done].
    intros Hrows k0 r0 Hin0.
    destruct (for_each_items
                (fun tr k r =>
                   item_from_row city fetch_all row year month
                     (daily_data_url (Station_ID row) prov month year) t tr k r)
                _ _ _ _ Hrows) with (k := k0) (r := r0)
      as [Hold|(tr & Htr & Hrow)]; [|done|by left|].
    + intros tr s0 s0' _ Hrow. by apply scrape_row_from_row.
    + right. split; [done|]. by exists t, tr.
  - right. exists prov. split; [done|].
    by exists soup, month_name, c, t, tr.
Qed.

Lemma item_from_row_fields (city : string) (fetch_all : bool) (row : station)
    (year month : Z) (url : string) (t : table) (tr : table_row)
    (k : map_key) (r : ClimateData) :
  item_from_row city fetch_all row year month url t tr k r ->
  field_value "city" r = Some (VStr city)
  /\ field_value "province" r = Some (VStr (Province row))
  /\ field_value "station_id" r
     = Some (VInt (if fetch_all then Station_ID row else 0))
  /\ field_value "station_name" r
     = Some (VStr (if fetch_all then Name row else ""))
  /\ last (cd_values r) = Some (VStr url).
Proof.
  intros (first_cell & cells & run & day & _ & _ & _ & _ & -> & _).
  unfold field_value, column_header_list, row_values. cbn [cd_fields cd_values].
  split_and!; try (by destruct fetch_all).
  rewrite app_comm_cons, (app_comm_cons _ _ (VInt year)), !app_assoc.
  apply last_snoc.
Qed.

(** Every record of a run was stored from a row of a page of a station
    that passed the filter, for a year and a month of the loops. *)
Lemma get_climate_data_map_from_pages (data : list station)
    (fetch : string -> result document) (city province : string)
    (start_year start_month end_year end_month : Z) (fetch_all : bool)
    (m : climate_map) :
  get_climate_data_map data fetch city province start_year start_month
    end_year end_month fetch_all = inr m ->
  forall k r, (k, r) ∈ m ->
    exists row year month prov,
      row ∈ data
      /\ station_query city province row = true
      /\ year ∈ py_range start_year (end_year + 1)
      /\ month ∈ months_of start_year start_month end_year end_month year
      /\ dict_get (Province row) province_map = Some prov
      /\ item_from_page fetch city fetch_all row year month prov k r.
Proof.
  unfold get_climate_data_map, get_station_data.
  set (station_data := filter (fun row => station_query city province row = true) data).
  destruct (length station_data <=? 0)%nat; [done|]. cbn [bind].
  intros Hrun k r Hin.
  destruct (for_each_items
              (fun year k r =>
                 exists month row prov,
                   month ∈ months_of start_year start_month end_year end_month year
                   /\ row ∈ station_data
                   /\ dict_get (Province row) province_map = Some prov
                   /\ item_from_page fetch city fetch_all row year month prov k r)
              _ _ _ _ Hrun) with (k := k) (r := r)
    as [Hnil|(year & Hyear & month & row & prov & Hmonth & Hrow & Hprov & Hpage)];
    [|done|by apply elem_of_nil in Hnil|].
  - intros year s s' _ Hmonths k0 r0 Hin0.
    destruct (for_each_items
                (fun month k r =>
                   exists row prov,
                     row ∈ station_data
                     /\ dict_get (Province row) province_map = Some prov
                     /\ item_from_page fetch city fetch_all row year month prov k r)
                _ _ _ _ Hmonths) with (k := k0) (r := r0)
      as [Hold|(month & Hmonth & row & prov & Hrow & Hprov & Hpage)];
      [|done|by left|].
    + intros month s1 s1' _ Hstations k1 r1 Hin1.
      destruct (for_each_items
                  (fun row k r =>
                     exists prov,
                       dict_get (Province row) province_map = Some prov
                       /\ item_from_page fetch city fetch_all row year month prov k r)
                  _ _ _ _ Hstations) with (k := k1) (r := r1)
        as [Hold|(row & Hrow & prov & Hprov & Hpage)]; [|done|by left|].
      * intros row s2 s2' _ Hstation. by apply scrape_station_from_page.
      * right. by exists row, prov.
    + right. by exists month, row, prov.
  - apply list_elem_of_filter in Hrow as [Hquery Hdata].
    by exists row, year, month, prov.
Qed.

Lemma item_from_row_date (city : string) (fetch_all : bool) (row : station)
    (year month : Z) (url : string) (t : table) (tr : table_row)
    (k : map_key) (r : ClimateData) :
  item_from_row city fetch_all row year month url t tr k r ->
  exists first_cell cells run,
    row_td tr = first_cell :: cells
    /\ k = row_key fetch_all row year month (key_day k)
    /\ field_value "year" r = Some (VInt year)
    /\ field_value "month" r = Some (VInt month)
    /\ field_value "day" r = Some (try_to_convert_to_numeric (RawStr first_cell))
    /\ string_existsb is_decimal first_cell = true
    /\ first_digit_run first_cell = Some run
    /\ int_of_str run = Some (key_day k).
Proof.
  intros (first_cell & cells & run & day & Htd & Hfirst & Hday & -> & -> & _).
  assert (Hkey : key_day (row_key fetch_all row year month day) = day)
    by (unfold row_key; by destruct fetch_all).
  exists first_cell, cells, run. rewrite Hkey.
  unfold field_value, column_header_list, row_values. cbn [cd_fields cd_values].
  split_and!; try done; try (by destruct fetch_all).
  destruct (string_existsb is_decimal first_cell) eqn:Hdigit; [done|].
  apply first_digit_run_None in Hdigit. congruence.
Qed.

(** C8 as amended: every record of the map a run returns was stored from a
    data row of a table on the page requested for a year and a month the run
    visits, a table whose caption names that month and year.  The record has
    that year and month, as integers, in its year and month fields, and its
    key holds them too; in its day field it has the coerced text of the first
    cell of the row, a cell that has a digit; the first run of digits of that
    cell, read as an integer, is the day of the key.  Nothing makes that
    number a day of a month, or the day field an integer. *)
Theorem get_climate_data_map_records (data : list station)
    (fetch : string -> result document) (city province : string)
    (start_year start_month end_year end_month : Z) (fetch_all : bool)
    (m : climate_map) :
  get_climate_data_map data fetch city province start_year start_month
    end_year end_month fetch_all = inr m ->
  forall k r, (k, r) ∈ m ->
    exists row prov year month soup month_name c t tr first_cell cells run,
      year ∈ py_range start_year (end_year + 1)
      /\ month ∈ months_of start_year start_month end_year end_month year
      /\ row ∈ data
      /\ dict_get (Province row) province_map = Some prov
      /\ fetch (daily_data_url (Station_ID row) prov month year) = inr soup
      /\ month_name_map month = Some month_name
      /\ c ∈ soup
      /\ caption_matches
           ("Daily Data Report for " +:+ month_name +:+ " " +:+ pretty year) c = true
      /\ caption_find_parent_table c = Some t
      /\ tr ∈ data_rows t
      /\ row_td tr = first_cell :: cells
      /\ k = row_key fetch_all row year month (key_day k)
      /\ field_value "year" r = Some (VInt year)
      /\ field_value "month" r = Some (VInt month)
      /\ field_value "day" r = Some (try_to_convert_to_numeric (RawStr first_cell))
      /\ string_existsb is_decimal first_cell = true
      /\ first_digit_run first_cell = Some run
      /\ int_of_str run = Some (key_day k).
Proof.
  intros Hrun k r Hin.
  destruct (get_climate_data_map_from_pages _ _ _ _ _ _ _ _ _ _ Hrun k r Hin)
    as (row & year & month & prov & Hdata & _ & Hyear & Hmonth & Hprov & Hpage).
  destruct Hpage as (soup & month_name & c & t & tr & Hfetch & Hname & Hc
                     & Hmatch & Ht & Htr & Hitem).
  destruct (item_from_row_date _ _ _ _ _ _ _ _ _ _ Hitem)
    as (first_cell & cells & run & Htd & Hkey & Hy & Hm & Hd & Hdigit & Hfirst & Hday).
  exists row, prov, year, month, soup, month_name, c, t, tr, first_cell, cells, run.
  by split_and!.
Qed.

(** X16: for a city and a province in plain characters, every record of the
    map a run returns was read from a data row of a table whose caption names
    the month, on the page the site returned for a station the query selected
    and a month the run visits.  Its city is the city as the caller gave it,
    its province the province of the station; its station id and name are
    those of the station when every station is kept, and 0 and the empty
    string otherwise; and its last value is the URL of that page. *)
Theorem get_climate_data_map_provenance (data : list station)
    (fetch : string -> result document) (city province : string)
    (start_year start_month end_year end_month : Z) (fetch_all : bool)
    (m : climate_map) :
  plain_text city = true ->
  plain_text province = true ->
  get_climate_data_map data fetch city province start_year start_month
    end_year end_month fetch_all = inr m ->
  forall k r, (k, r) ∈ m ->
    exists row year month prov,
      row ∈ data
      /\ station_query city province row = true
      /\ year ∈ py_range start_year (end_year + 1)
      /\ month ∈ months_of start_year start_month end_year end_month year
      /\ dict_get (Province row) province_map = Some prov
      /\ item_from_page fetch city fetch_all row year month prov k r
      /\ field_value "city" r = Some (VStr city)
      /\ field_value "province" r = Some (VStr (Province row))
      /\ field_value "station_id" r
         = Some (VInt (if fetch_all then Station_ID row else 0))
      /\ field_value "station_name" r
         = Some (VStr (if fetch_all then Name row else ""))
      /\ last (cd_values r)
         = Some (VStr (daily_data_url (Station_ID row) prov month year)).
Proof.
  intros _ _ Hrun k r Hin.
  destruct (get_climate_data_map_from_pages _ _ _ _ _ _ _ _ _ _ Hrun k r Hin)
    as (row & year & month & prov & Hdata & Hquery & Hyear & Hmonth & Hprov & Hpage).
  exists row, year, month, prov.
  destruct Hpage as (soup & month_name & c & t & tr & Hfetch & Hname & Hc
                     & Hmatch & Ht & Htr & Hitem).
  destruct (item_from_row_fields _ _ _ _ _ _ _ _ _ _ Hitem)
    as (Hf1 & Hf2 & Hf3 & Hf4 & Hlast).
  split_and!; try done.
  by exists soup, month_name, c, t, tr.
Qed.

End ProvenanceFacts.

Lemma get_climate_data_map_records_witness :
  get_climate_data_map (H := cpython) sample_inventory march_site
    "Toronto" "" 2019 3 2019 3 false = inr march_run
  /\ forall (k : map_key) (r : ClimateData_of cfloat), (k, r) ∈ march_run ->
       exists row prov year month soup month_name c t tr first_cell cells run,
         year ∈ py_range 2019 (2019 + 1)
         /\ month ∈ months_of 2019 3 2019 3 year
         /\ row ∈ sample_inventory
         /\ dict_get (Province row) province_map = Some prov
         /\ march_site (daily_data_url (Station_ID row) prov month year) = inr soup
         /\ month_name_map month = Some month_name
         /\ c ∈ soup
         /\ caption_matches
              ("Daily Data Report for " +:+ month_name +:+ " " +:+ pretty year) c
            = true
         /\ caption_find_parent_table c = Some t
         /\ tr ∈ data_rows t
         /\ row_td tr = first_cell :: cells
         /\ k = row_key false row year month (key_day k)
         /\ field_value (H := cpython) "year" r = Some (VInt year)
         /\ field_value (H := cpython) "month" r = Some (VInt month)
         /\ field_value (H := cpython) "day" r
            = Some (try_to_convert_to_numeric (H := cpython) (RawStr first_cell))
         /\ string_existsb is_decimal first_cell = true
         /\ first_digit_run first_cell = Some run
         /\ @int_of_str cpython run = Some (key_day k).
Proof.
  assert (Hrun : get_climate_data_map (H := cpython) sample_inventory march_site
                   "Toronto" "" 2019 3 2019 3 false = inr march_run)
    by (vm_compute; reflexivity).
  split; [exact Hrun|].
  exact (get_climate_data_map_records (H := cpython) sample_inventory march_site
           "Toronto" "" 2019 3 2019 3 false march_run Hrun).
Defined.

Lemma get_climate_data_map_provenance_witness :
  plain_text "Toronto" = true
  /\ plain_text "" = true
  /\ get_climate_data_map (H := cpython) sample_inventory march_site
       "Toronto" "" 2019 3 2019 3 false = inr march_run
  /\ forall (k : map_key) (r : ClimateData_of cfloat), (k, r) ∈ march_run ->
       exists row year month prov,
         row ∈ sample_inventory
         /\ station_query "Toronto" "" row = true
         /\ year ∈ py_range 2019 (2019 + 1)
         /\ month ∈ months_of 2019 3 2019 3 year
         /\ dict_get (Province row) province_map = Some prov
         /\ item_from_page (H := cpython) march_site "Toronto" false row year month
              prov k r
         /\ field_value (H := cpython) "city" r = Some (VStr "Toronto")
         /\ field_value (H := cpython) "province" r = Some (VStr (Province row))
         /\ field_value (H := cpython) "station_id" r = Some (VInt 0)
         /\ field_value (H := cpython) "station_name" r = Some (VStr "")
         /\ last (cd_values r)
            = Some (VStr (daily_data_url (Station_ID row) prov month year)).
Proof.
  assert (Hrun : get_climate_data_map (H := cpython) sample_inventory march_site
                   "Toronto" "" 2019 3 2019 3 false = inr march_run)
    by (vm_compute; reflexivity).
  split; [reflexivity|]. split; [reflexivity|]. split; [exact Hrun|].
  exact (get_climate_data_map_provenance (H := cpython) sample_inventory march_site
           "Toronto" "" 2019 3 2019 3 false march_run eq_refl eq_refl Hrun).
Defined.

(** ** Column names *)

Lemma lower_char_not_space (c : ascii) :
  Ascii.eqb " " c = false -> Ascii.eqb " " (lower_char c) = false.
Proof. destruct c as [[] [] [] [] [] [] [] []]; try done. Qed.

Lemma lower_char_not_upper (c : ascii) : is_ascii_upper (lower_char c) = false.
Proof. destruct c as [[] [] [] [] [] [] [] []]; reflexivity. Qed.

Lemma identifier_char_plain (c : ascii) :
  identifier_char c = true ->
  isspace c = false /\ Ascii.eqb c " " = false /\ lower_char c = c.
Proof. destruct c as [[] [] [] [] [] [] [] []]; try done. Qed.

Lemma replace_space_no_space (s : string) :
  string_existsb (Ascii.eqb " ") (replace_char " " "_" s) = false.
Proof.
  induction s as [|c s IH]; [done|]. cbn [replace_char].
  destruct (Ascii.eqb_spec c " ") as [->|Hne].
  - rewrite app_cons, app_nil_l. cbn [string_existsb]. by rewrite IH.
  - cbn [string_existsb]. rewrite IH, orb_false_r.
    destruct (Ascii.eqb_spec " " c) as [<-|]; done.
Qed.

(** X17: a column name made from a header has no space and no upper-case
    ASCII letter, whatever the header; a header of lower-case ASCII letters,
    digits and underscores is its own column name; and no field name of a
    record has a space or an upper-case ASCII letter. *)
Theorem normalize_header_spec (t : string) :
  string_existsb (Ascii.eqb " ") (normalize_header t) = false
  /\ string_existsb is_ascii_upper (normalize_header t) = false
  /\ (string_forallb identifier_char t = true -> normalize_header t = t)
  /\ (forall (page_table : table) (name : string),
        name ∈ column_header_list page_table ->
        string_existsb (Ascii.eqb " ") name = false
        /\ string_existsb is_ascii_upper name = false).
Proof.
  assert (Hspace : forall t,
            string_existsb (Ascii.eqb " ") (normalize_header t) = false).
  { clear t. intros t. unfold normalize_header.
    pose proof (replace_space_no_space (strip t)) as Hclean. revert Hclean.
    generalize (replace_char " " "_" (strip t)). intros s.
    unfold lower. induction s as [|c s IH]; [done|]. cbn [string_existsb string_map].
    rewrite !orb_false_iff. intros [Hc Hs]. split; [by apply lower_char_not_space|auto]. }
  assert (Hupper : forall t,
            string_existsb is_ascii_upper (normalize_header t) = false).
  { clear t. intros t. unfold normalize_header.
    generalize (replace_char " " "_" (strip t)). intros s.
    unfold lower. induction s as [|c s IH]; [done|]. cbn [string_existsb string_map].
    by rewrite lower_char_not_upper, IH. }
  split; [apply Hspace|]. split; [apply Hupper|]. split; [|].
  2: { intros page_table name. unfold column_header_list.
       rewrite !elem_of_app, list_elem_of_fmap.
       intros [Hfixed|[Hfixed|[(header & -> & _)|Hfixed]]]; [| |by split|];
         repeat (apply elem_of_cons in Hfixed as [->|Hfixed]; [by split|]);
         by apply elem_of_nil in Hfixed. }
  unfold normalize_header. intros Hid.
  assert (Hstrip : strip t = t).
  { unfold strip. assert (lstrip t = t) as ->.
    { destruct t as [|c t]; [done|]. cbn [string_forallb] in Hid.
      apply andb_true_iff in Hid as [Hc _].
      destruct (identifier_char_plain c Hc) as (Hsp & _). cbn [lstrip].
      by rewrite Hsp. }
    induction t as [|c t IH]; [done|]. cbn [string_forallb] in Hid.
    apply andb_true_iff in Hid as [Hc Ht].
    destruct (identifier_char_plain c Hc) as (Hsp & _).
    cbn [rstrip]. rewrite (IH Ht), Hsp. by destruct t. }
  rewrite Hstrip. clear Hstrip.
  induction t as [|c t IH]; [done|]. cbn [string_forallb] in Hid.
  apply andb_true_iff in Hid as [Hc Ht].
  destruct (identifier_char_plain c Hc) as (_ & Hsp & Hlow).
  cbn [replace_char]. rewrite Hsp. unfold lower in *. cbn [string_map].
  by rewrite Hlow, (IH Ht).
Qed.

(** ** A document read again, in best-station mode *)

Section LoopsAgain.
Context {A S : Type}.

(** When every iteration establishes its own property and keeps those of
    the others, all of them hold after the loop. *)
Lemma for_each_settles (P : A -> S -> Prop) (body : A -> S -> result S)
    (l : list A) (s s' : S) :
  for_each body l s = inr s' ->
  (forall x s s', body x s = inr s' -> P x s') ->
  (forall x y s s', P x s -> body y s = inr s' -> P x s') ->
  forall x, x ∈ l -> P x s'.
Proof.
  intros Hrun Hsets Hkeeps. revert s Hrun.
  induction l as [|y l IH]; intros s Hrun x Hx.
  - by apply elem_of_nil in Hx.
  - simpl in Hrun. destruct (body y s) as [e|s1] eqn:Hy; [done|]. simpl in Hrun.
    apply elem_of_cons in Hx as [->|Hx]; [|by eapply IH].
    revert Hrun. apply for_each_invariant; [|by eapply Hsets].
    intros z t t' _ Ht Hz. by eapply Hkeeps.
Qed.

(** A loop whose iterations all leave the state alone leaves it alone. *)
Lemma for_each_settled (body : A -> S -> result S) (l : list A) (s : S) :
  (forall x, x ∈ l -> body x s = inr s) -> for_each body l s = inr s.
Proof.
  induction l as [|x l IH]; intros Hall; [done|].
  simpl. rewrite (Hall x) by left. simpl. apply IH. intros y Hy. apply Hall. by right.
Qed.

End LoopsAgain.

Section BestMode.
Context `{PyRuntime}.

Lemma store_best_covered (fields : list string) (k : map_key)
    (row_data : list value) (m m' : climate_map) :
  store_best fields k row_data m = inr m' -> covered m' k row_data.
Proof.
  unfold store_best, namedtuple_make.
  assert (Hset : (let* climate_data :=
                    if (length row_data =? length fields)%nat
                    then inr {| cd_fields := fields; cd_values := row_data |}
                    else raise TypeError in
                  inr (dict_set k climate_data m)) = inr m' ->
                 covered m' k row_data).
  { destruct (_ =? _)%nat; [|done]. intros [= <-].
    eexists. rewrite dict_get_set_eq. split; [done|]. cbn [cd_values]. lia. }
  destruct (dict_get k m) as [current|] eqn:Hget; [|done].
  destruct (_ <? _)%nat eqn:Hricher; [done|].
  intros [= <-]. exists current. split; [done|]. by apply Nat.ltb_ge.
Qed.

Lemma store_best_settled (fields : list string) (k : map_key)
    (row_data : list value) (m : climate_map) :
  covered m k row_data -> store_best fields k row_data m = inr m.
Proof.
  intros (current & Hget & Hle). unfold store_best. rewrite Hget.
  by apply Nat.ltb_ge in Hle as ->.
Qed.

Lemma store_best_keeps (fields : list string) (k k0 : map_key)
    (row_data row_data0 : list value) (m m' : climate_map) :
  covered m k0 row_data0 ->
  store_best fields k row_data m = inr m' ->
  covered m' k0 row_data0.
Proof.
  intros (current0 & Hget0 & Hle0). unfold store_best, namedtuple_make.
  destruct (decide (k0 = k)) as [->|Hne].
  - rewrite Hget0. destruct (_ <? _)%nat eqn:Hricher.
    + destruct (_ =? _)%nat; [|done]. intros [= <-].
      eexists. rewrite dict_get_set_eq. split; [done|]. cbn [cd_values].
      apply Nat.ltb_lt in Hricher. lia.
    + intros [= <-]. by exists current0.
  - assert (Hset : (let* climate_data :=
                      if (length row_data =? length fields)%nat
                      then inr {| cd_fields := fields; cd_values := row_data |}
                      else raise TypeError in
                    inr (dict_set k climate_data m)) = inr m' ->
                   covered m' k0 row_data0).
    { destruct (_ =? _)%nat; [|done]. intros [= <-].
      exists current0. by rewrite dict_get_set_ne. }
    destruct (dict_get k m) as [current|]; [|done].
    destruct (_ <? _)%nat; [done|]. intros [= <-]. by exists current0.
Qed.

Lemma scrape_row_settles (city : string) (row : station) (year month : Z)
    (url : string) (fields : list string) (tr : table_row) (m m' : climate_map) :
  scrape_row city row year month url false fields tr m = inr m' ->
  settled city row year month url tr m'.
Proof.
  unfold settled. destruct (row_td tr) as [|first_cell cells] eqn:Htd.
  { unfold scrape_row. by rewrite Htd. }
  rewrite (scrape_row_run _ _ _ _ _ _ _ _ _ _ _ Htd).
  destruct (first_digit_run first_cell) as [run|]; [|done].
  destruct (int_of_str run) as [day|]; [|done].
  cbn [of_option bind]. apply store_best_covered.
Qed.

Lemma scrape_row_settled (city : string) (row : station) (year month : Z)
    (url : string) (fields : list string) (tr : table_row) (m : climate_map) :
  settled city row year month url tr m ->
  scrape_row city row year month url false fields tr m = inr m.
Proof.
  unfold settled. destruct (row_td tr) as [|first_cell cells] eqn:Htd; [done|].
  rewrite (scrape_row_run _ _ _ _ _ _ _ _ _ _ _ Htd).
  destruct (first_digit_run first_cell) as [run|]; [|done].
  destruct (int_of_str run) as [day|]; [|done].
  cbn [of_option bind]. apply store_best_settled.
Qed.

Lemma scrape_row_keeps (city city0 : string) (row row0 : station)
    (year month year0 month0 : Z) (url url0 : string) (fields : list string)
    (tr tr0 : table_row) (m m' : climate_map) :
  settled city0 row0 year0 month0 url0 tr0 m ->
  scrape_row city row year month url false fields tr m = inr m' ->
  settled city0 row0 year0 month0 url0 tr0 m'.
Proof.
  unfold settled. destruct (row_td tr0) as [|first_cell0 cells0]; [done|].
  destruct (first_digit_run first_cell0) as [run0|]; [|done].
  destruct (int_of_str run0) as [day0|]; [|done]. intros Hcovered.
  destruct (row_td tr) as [|first_cell cells] eqn:Htd.
  { unfold scrape_row. by rewrite Htd. }
  rewrite (scrape_row_run _ _ _ _ _ _ _ _ _ _ _ Htd).
  destruct (first_digit_run first_cell) as [run|]; [|by intros [= <-]].
  destruct (int_of_str run) as [day|]; [|done].
  cbn [of_option bind]. by apply store_best_keeps.
Qed.

Lemma scrape_document_keeps (city city0 : string) (row row0 : station)
    (year month year0 month0 : Z) (url url0 caption_text : string)
    (soup : document) (tr0 : table_row) (m m' : climate_map) :
  settled city0 row0 year0 month0 url0 tr0 m ->
  scrape_document city row year month url false caption_text soup m = inr m' ->
  settled city0 row0 year0 month0 url0 tr0 m'.
Proof.
  intros Hm. unfold scrape_document.
  apply for_each_invariant; [|done].
  intros c s s' _ Hs. destruct (caption_matches _ c); [|by intros [= <-]].
  unfold scrape_table.
  destruct (caption_find_parent_table c) as [t|]; [|done].
  cbn [of_option bind]. destruct (namedtuple_ok _); [|done].
  apply for_each_invariant; [|done].
  intros r s1 s2 _ Hs1. by apply scrape_row_keeps.
Qed.

Lemma scrape_document_settles (city : string) (row : station) (year month : Z)
    (url caption_text : string) (soup : document) (m m' : climate_map) :
  scrape_document city row year month url false caption_text soup m = inr m' ->
  document_settled city row year month url caption_text soup m'.
Proof.
  unfold scrape_document, document_settled. intros Hrun.
  apply (for_each_settles
           (fun c m =>
              caption_matches caption_text c = true ->
              exists t,
                caption_find_parent_table c = Some t
                /\ namedtuple_ok (column_header_list t) = true
                /\ forall tr,
                     tr ∈ data_rows t -> settled city row year month url tr m)
           _ _ _ _ Hrun).
  - intros c s s'. destruct (caption_matches _ c); [|done].
    unfold scrape_table.
    destruct (caption_find_parent_table c) as [t|]; [|done].
    cbn [of_option bind]. destruct (namedtuple_ok _) eqn:Hok; [|done].
    intros Hrows _. exists t. split_and!; [done..|].
    apply (for_each_settles (settled city row year month url) _ _ _ _ Hrows).
    + intros tr s1 s2. apply scrape_row_settles.
    + intros tr tr' s1 s2. apply scrape_row_keeps.
  - intros c c' s s' Hc. destruct (caption_matches _ c');
      [|by intros [= <-]].
    unfold scrape_table.
    destruct (caption_find_parent_table c') as [t'|]; [|done].
    cbn [of_option bind]. destruct (namedtuple_ok _); [|done].
    intros Hrows Hmatch. destruct (Hc Hmatch) as (t & Ht & Hok & Hsettled).
    exists t. split_and!; [done..|]. intros tr Htr.
    revert Hrows. apply for_each_invariant; [|by apply Hsettled].
    intros tr' s1 s2 _ Hs1. by apply scrape_row_keeps.
Qed.

Lemma scrape_document_settled (city : string) (row : station) (year month : Z)
    (url caption_text : string) (soup : document) (m : climate_map) :
  document_settled city row year month url caption_text soup m ->
  scrape_document city row year month url false caption_text soup m = inr m.
Proof.
  intros Hpage. unfold scrape_document. apply for_each_settled. intros c Hc.
  destruct (caption_matches _ c) eqn:Hmatch; [|done].
  destruct (Hpage c Hc Hmatch) as (t & Ht & Hok & Hrows).
  unfold scrape_table. rewrite Ht. cbn [of_option bind]. rewrite Hok.
  apply for_each_settled. intros tr Htr. by apply scrape_row_settled, Hrows.
Qed.

Lemma document_settled_keeps (city : string) (row : station) (year month : Z)
    (url caption_text : string) (soup : document) (p : reading)
    (m m' : climate_map) :
  document_settled city row year month url caption_text soup m ->
  read_best p m = inr m' ->
  document_settled city row year month url caption_text soup m'.
Proof.
  intros Hpage Hrun c Hc Hmatch.
  destruct (Hpage c Hc Hmatch) as (t & Ht & Hok & Hrows).
  exists t. split_and!; [done..|]. intros tr Htr.
  eapply scrape_document_keeps; [by apply Hrows | exact Hrun].
Qed.

(** X18: in best-station mode a document that has been read has nothing left
    to add: reading the same document again with the same arguments, at once
    or after any other documents have been read, returns the map unchanged
    and raises nothing. *)
Theorem scrape_document_again (city : string) (row : station) (year month : Z)
    (url caption_text : string) (soup : document) (others : list reading)
    (m m' m'' : climate_map) :
  scrape_document city row year month url false caption_text soup m = inr m' ->
  for_each read_best others m' = inr m'' ->
  scrape_document city row year month url false caption_text soup m'' = inr m''.
Proof.
  intros Hfirst Hrest. apply scrape_document_settled.
  revert Hrest. apply for_each_invariant; [|by eapply scrape_document_settles].
  intros p s s' _. apply document_settled_keeps.
Qed.

End BestMode.

Lemma scrape_document_again_witness :
  match
    scrape_document (H := cpython) "Toronto" station_toronto_city 2019 3 sample_url
      false "Daily Data Report for March 2019" two_table_page []
  with
  | inr m' =>
      match
        read_best (H := cpython)
          {| reading_city := "Toronto"; reading_row := station_north_york;
             reading_year := 2019; reading_month := 3; reading_url := sample_url;
             reading_caption_text := "Daily Data Report for March 2019";
             reading_soup :=
               [march_caption
                  {| table_thead := [[link_max_temp]];
                     table_tr := [header_row; header_row; data_row "09" "2.5"] |}]
          |} m'
      with
      | inr m'' =>
          m'' <> m'
          /\ scrape_document (H := cpython) "Toronto" station_toronto_city 2019 3
               sample_url false "Daily Data Report for March 2019" two_table_page m''
             = inr m''
      | inl _ => False
      end
  | inl _ => False
  end.
Proof.
  destruct (scrape_document (H := cpython) "Toronto" station_toronto_city 2019 3
              sample_url false "Daily Data Report for March 2019" two_table_page [])
    as [e|m'] eqn:Hfirst; [vm_compute in Hfirst; discriminate|].
  destruct (read_best (H := cpython) _ m') as [e|m''] eqn:Hother.
  - injection Hfirst as <-. vm_compute in Hother. discriminate.
  - split.
    + injection Hfirst as <-. vm_compute in Hother. injection Hother as <-.
      discriminate.
    + apply (scrape_document_again (H := cpython) "Toronto" station_toronto_city
               2019 3 sample_url "Daily Data Report for March 2019" two_table_page
               [ {| reading_city := "Toronto"; reading_row := station_north_york;
                    reading_year := 2019; reading_month := 3;
                    reading_url := sample_url;
                    reading_caption_text := "Daily Data Report for March 2019";
                    reading_soup :=
                      [march_caption
                         {| table_thead := [[link_max_temp]];
                            table_tr :=
                              [header_row; header_row; data_row "09" "2.5"] |}] |} ]
               [] m' m'' Hfirst).
      cbn [for_each]. rewrite Hother. reflexivity.
Defined.

(** ** A value with an apostrophe in the UPDATE statement *)

(** C9: the fallback at a record whose city is [St. John's] and whose
    province is [O'Brien], in a table that has the key of the record
    already.  The insert raises [IntegrityError] and one UPDATE statement is
    executed.  Its WHERE clause compares the city, a column of the primary
    key, with ['St. John''s'], the text with its apostrophe doubled between
    apostrophes.  Its SET clause assigns to the province, a column outside
    the primary key, the same doubled text between double quotes, which is
    not the SQL literal of the new value: [repr] chooses double quotes for a
    text with an apostrophe, and only the WHERE clause has them replaced
    (line 561). *)
Lemma insert_or_update_apostrophe :
  full_insert sample_table
    (construct_column_insert_map_from_tuple (H := cpython) apostrophe_record
       (map c_name (t_c sample_table))) []
  = inl IntegrityError
  /\ match
       insert_or_update (H := cpython) (list string) full_insert log_text
         weather_columns sample_table apostrophe_record []
     with
     | inr [statement] =>
         contains "WHERE city = 'St. John''s' AND " statement = true
         /\ contains ("SET province = " +:+ String DQUOTE "O''Brien"
                      +:+ String DQUOTE ", ") statement = true
         /\ contains "province = 'O''Brien'" statement = false
     | _ => False
     end.
Proof. split; [reflexivity|]. vm_compute. repeat split. Qed.
